(** * The French LPIS (IGN "Registre Parcellaire Graphique") ingestion pipeline

    A shallow embedding of the three nuclio handlers of the pipeline

    - [pipelines/fr/ign/00-http-trigger/handler/main.py]      (module [Resolver]),
    - [pipelines/fr/ign/01-archive-processor/handler/main.py] (module [Processor]),
    - [pipelines/fr/ign/02-datastore-ingestion/handler/main.py] (module [Ingestor]),

    over a small model of the Python values they exchange (module [Py]),
    followed by the properties of the pipeline's specification. *)

From Stdlib Require Import ZArith QArith List String Ascii Bool Lia.
From Stdlib Require Import DecimalString.
From Stdlib Require DecimalPos.
Import ListNotations.

Set Warnings "-register-all".

Local Open Scope Z_scope.
Local Open Scope string_scope.
Local Open Scope list_scope.

(** String concatenation gets a notation of its own: [++] stays the lists'. *)
Infix "+++" := String.append (right associativity, at level 60).

(* ===================================================================== *)
(** * Python values, exceptions and the builtins the handlers call *)
(* ===================================================================== *)

Module Py.

(** What [json.loads] returns, plus the tuples pyshp and pyproj hand back. A
    [str] is the sequence of the bytes of its UTF-8 encoding; a [float] is
    the exact rational value of a finite double; a [dict] keeps its entries
    in insertion order. *)
Inductive pyval : Type :=
| PyNone
| PyBool (b : bool)
| PyInt (n : Z)
| PyFloat (q : Q)
| PyStr (s : string)
| PyList (items : list pyval)
| PyTuple (items : list pyval)
| PyDict (entries : list (string * pyval)).

(** The exceptions that reach the handlers' [except] and [finally] clauses.
    [NuclioResponseError] is the handlers' own class; its [status_code]
    defaults to [requests.codes.internal_server_error]. *)
Inductive exn : Type :=
| NuclioResponseError (description : string) (status_code : Z)
| KeyError (key : pyval)
| TypeError
| ValueError
| AttributeError
| UnboundLocalError (name : string)
| FileExistsError (path : string)
| FileNotFoundError (path : string)
| RuntimeError (what : string)
| IOError (what : string).

(** [requests.codes] *)
Module codes.
Definition ok : Z := 200.
Definition bad : Z := 400.
Definition internal_server_error : Z := 500.
Definition unavailable : Z := 503.
Definition service_unavailable : Z := 503.
End codes.

(** A computation that returns or raises. *)
Inductive result (A : Type) : Type :=
| Ok (a : A)
| Raise (e : exn).
Arguments Ok {A} a.
Arguments Raise {A} e.

Definition bind {A B : Type} (m : result A) (k : A -> result B) : result B :=
  match m with
  | Ok a => k a
  | Raise e => Raise e
  end.

Declare Scope py_scope.
Delimit Scope py_scope with py.
Notation "x <- m ;; k" := (bind m (fun x => k))
  (at level 100, m at next level, right associativity) : py_scope.
Notation "m ;;; k" := (bind m (fun _ => k))
  (at level 100, right associativity) : py_scope.

(** A handler's [try] block: it returns or raises, and on the way changes the
    world [S] it runs in (the messages produced, the directories made, the
    documents stored, the handler's locals). *)
Definition M (S A : Type) : Type := S -> result A * S.

Definition ret {S A : Type} (a : A) : M S A := fun s => (Ok a, s).
Definition raise {S A : Type} (e : exn) : M S A := fun s => (Raise e, s).
Definition lift {S A : Type} (m : result A) : M S A := fun s => (m, s).
Definition modify {S : Type} (f : S -> S) : M S unit := fun s => (Ok tt, f s).

Definition bindM {S A B : Type} (m : M S A) (k : A -> M S B) : M S B :=
  fun s =>
    match m s with
    | (Ok a, s') => k a s'
    | (Raise e, s') => (Raise e, s')
    end.

Notation "x <~ m ;; k" := (bindM m (fun x => k))
  (at level 100, m at next level, right associativity) : py_scope.
Notation "m ;;~ k" := (bindM m (fun _ => k))
  (at level 100, right associativity) : py_scope.

(** [if cond: raise e] *)
Definition raise_if {S : Type} (cond : bool) (e : exn) : M S unit :=
  if cond then raise e else ret tt.

(** ** Strings *)

Definition chars (s : string) : list ascii := list_ascii_of_string s.
Definition of_chars (cs : list ascii) : string := string_of_list_ascii cs.

(** [str(n)] for an [int]. *)
Definition string_of_Z (n : Z) : string := NilZero.string_of_int (Z.to_int n).

(** [s.startswith(p)] *)
Definition startswith (s p : string) : bool := String.prefix p s.

(** [s.endswith(p)] *)
Definition endswith (s p : string) : bool :=
  String.prefix (of_chars (rev (chars p))) (of_chars (rev (chars s))).

(** [needle in hay] for two strings *)
Fixpoint contains (hay needle : string) : bool :=
  String.prefix needle hay
  || match hay with
     | EmptyString => false
     | String _ hay' => contains hay' needle
     end.

Definition lower_char (c : ascii) : ascii :=
  let n := nat_of_ascii c in
  if ((65 <=? n) && (n <=? 90))%nat then ascii_of_nat (n + 32) else c.

(** [s.lower()], on ASCII letters *)
Fixpoint lower (s : string) : string :=
  match s with
  | EmptyString => EmptyString
  | String c s' => String (lower_char c) (lower s')
  end.

(** [s.rsplit(sep, 1)[-1]]: what follows the last [sep], all of [s] when it
    has none. *)
Fixpoint rsplit_last (sep : ascii) (s : string) : string :=
  match s with
  | EmptyString => EmptyString
  | String c s' =>
      if Ascii.eqb c sep then rsplit_last sep s'
      else if existsb (Ascii.eqb sep) (chars s') then rsplit_last sep s'
      else s
  end.

(** [s[:-n]] for [n > 0] *)
Definition drop_last (n : nat) (s : string) : string :=
  String.substring 0 (String.length s - n) s.

(** ** [int(...)] *)

(** The white space [int] skips around an integer literal: the characters
    9 to 13 and the space. *)
Definition is_space (c : ascii) : bool :=
  let n := nat_of_ascii c in
  (((9 <=? n) && (n <=? 13)) || (n =? 32))%nat.

Fixpoint lstrip (cs : list ascii) : list ascii :=
  match cs with
  | c :: cs' => if is_space c then lstrip cs' else cs
  | [] => []
  end.

Definition strip (cs : list ascii) : list ascii :=
  rev (lstrip (rev (lstrip cs))).

Definition digit_val (c : ascii) : option Z :=
  let n := nat_of_ascii c in
  if ((48 <=? n) && (n <=? 57))%nat then Some (Z.of_nat (n - 48)) else None.

Definition is_digit (c : ascii) : bool :=
  match digit_val c with Some _ => true | None => false end.

Fixpoint take_digits (cs : list ascii) : list ascii :=
  match cs with
  | c :: cs' => if is_digit c then c :: take_digits cs' else []
  | [] => []
  end.

(** Decimal digits, a single underscore allowed between two of them. *)
Fixpoint digits_value (acc : Z) (after_digit : bool) (cs : list ascii) : option Z :=
  match cs with
  | [] => if after_digit then Some acc else None
  | c :: cs' =>
      if Ascii.eqb c "_"%char then
        if after_digit then digits_value acc false cs' else None
      else
        match digit_val c with
        | Some d => digits_value (10 * acc + d) true cs'
        | None => None
        end
  end.

(** [int(s)] for an ASCII text: surrounding white space, an optional sign,
    decimal digits. *)
Definition int_of_ascii (s : string) : option Z :=
  match strip (chars s) with
  | "+"%char :: cs => digits_value 0 false cs
  | "-"%char :: cs => option_map Z.opp (digits_value 0 false cs)
  | cs => digits_value 0 false cs
  end.

Definition is_ascii (c : ascii) : bool := (nat_of_ascii c <? 128)%nat.

(** A text is ASCII when every byte of it is. *)
Definition is_ascii_text (s : string) : bool := forallb is_ascii (chars s).

(** A text that is not ASCII is read by [int] through the interpreter's
    Unicode database, where the white space and the decimal digits of every
    script are looked up; the database is not part of the model, and what
    [int] makes of such a text, an integer or none, is left open. *)
Class Unicode : Type := { int_of_unicode : string -> option Z }.

Section Int.

Context {unicode : Unicode}.

(** [int(s)] for a [str] *)
Definition int_of_string (s : string) : option Z :=
  if is_ascii_text s then int_of_ascii s else int_of_unicode s.

(** [int(v)]: an [int] is itself, a [bool] is 0 or 1, a [float] is truncated
    towards zero, a [str] is parsed ([ValueError] when it is no integer
    literal), anything else is a [TypeError]. No limit on the number of
    digits is modelled: interpreters before 3.11 have none. *)
Definition py_int (v : pyval) : result Z :=
  match v with
  | PyInt n => Ok n
  | PyBool b => Ok (if b then 1 else 0)
  | PyFloat q => Ok (Z.quot (Qnum q) (Z.pos (Qden q)))
  | PyStr s =>
      match int_of_string s with
      | Some n => Ok n
      | None => Raise ValueError
      end
  | PyNone | PyList _ | PyTuple _ | PyDict _ => Raise TypeError
  end.

End Int.

(** ** Comparisons *)

(** [v == n] for an integer literal [n]: numbers compare by value, a [bool]
    is the number 0 or 1, nothing else equals a number. *)
Definition py_eq_int (v : pyval) (n : Z) : bool :=
  match v with
  | PyInt m => Z.eqb m n
  | PyBool b => Z.eqb (if b then 1 else 0) n
  | PyFloat q => Qeq_bool q (inject_Z n)
  | _ => false
  end.

(** [v == s] for a [str] [s]: only the same [str] equals it. *)
Definition py_eq_str (v : pyval) (s : string) : bool :=
  match v with
  | PyStr t => String.eqb t s
  | _ => false
  end.

(** [v in [n1, n2, ...]] for a list of integer literals *)
Definition py_in_ints (v : pyval) (ns : list Z) : bool :=
  existsb (py_eq_int v) ns.

(** Equality of two values as the document store matches them: numbers by
    value, strings, lists and documents by content. *)
Fixpoint pyval_eqb (a b : pyval) : bool :=
  let fix all2 (xs ys : list pyval) : bool :=
    match xs, ys with
    | [], [] => true
    | x :: xs', y :: ys' => pyval_eqb x y && all2 xs' ys'
    | _, _ => false
    end in
  let fix entries2 (xs ys : list (string * pyval)) : bool :=
    match xs, ys with
    | [], [] => true
    | (k, x) :: xs', (k', y) :: ys' => String.eqb k k' && pyval_eqb x y && entries2 xs' ys'
    | _, _ => false
    end in
  match a, b with
  | PyNone, PyNone => true
  | PyBool x, PyBool y => Bool.eqb x y
  | PyInt x, PyInt y => Z.eqb x y
  | PyFloat x, PyFloat y => Qeq_bool x y
  | PyInt x, PyFloat y => Qeq_bool (inject_Z x) y
  | PyFloat x, PyInt y => Qeq_bool x (inject_Z y)
  | PyStr x, PyStr y => String.eqb x y
  | PyList xs, PyList ys => all2 xs ys
  | PyTuple xs, PyTuple ys => all2 xs ys
  | PyDict xs, PyDict ys => entries2 xs ys
  | _, _ => false
  end.

(** ** JSON *)

(** [json.loads(json.dumps(v))], what the consumer of a message decodes
    when [v] was sent: a tuple is written as an array and comes back as a
    list; every other value comes back as it was. *)
Fixpoint json_image (v : pyval) : pyval :=
  match v with
  | PyList items | PyTuple items => PyList (map json_image items)
  | PyDict entries => PyDict (map (fun kv => (fst kv, json_image (snd kv))) entries)
  | PyNone | PyBool _ | PyInt _ | PyFloat _ | PyStr _ => v
  end.

(** ** Dictionaries *)

Fixpoint dict_get (entries : list (string * pyval)) (k : string) : option pyval :=
  match entries with
  | [] => None
  | (k', v) :: rest => if String.eqb k' k then Some v else dict_get rest k
  end.

(** [d[k] = v]: in place when [k] is a key of [d], appended otherwise. *)
Fixpoint dict_set (entries : list (string * pyval)) (k : string) (v : pyval)
  : list (string * pyval) :=
  match entries with
  | [] => [(k, v)]
  | (k', v') :: rest =>
      if String.eqb k' k then (k, v) :: rest else (k', v') :: dict_set rest k v
  end.

Definition dict_has (entries : list (string * pyval)) (k : string) : bool :=
  match dict_get entries k with Some _ => true | None => false end.

(** [dict(zip(keys, values))] *)
Definition dict_zip (keys : list string) (values : list pyval) : list (string * pyval) :=
  fold_left (fun d kv => dict_set d (fst kv) (snd kv)) (combine keys values) [].

(** [k in v] for a [str] [k]: a key of a [dict], an element of a [list] or
    [tuple], a substring of a [str]; anything else is not iterable. *)
Definition py_contains (v : pyval) (k : string) : result bool :=
  match v with
  | PyDict entries => Ok (dict_has entries k)
  | PyList items | PyTuple items => Ok (existsb (fun x => py_eq_str x k) items)
  | PyStr s => Ok (contains s k)
  | PyNone | PyBool _ | PyInt _ | PyFloat _ => Raise TypeError
  end.

(** [v[k]] for a [str] [k]: the entry of a [dict] or [KeyError]; no other
    value is subscriptable by a [str]. *)
Definition py_getitem (v : pyval) (k : string) : result pyval :=
  match v with
  | PyDict entries =>
      match dict_get entries k with
      | Some x => Ok x
      | None => Raise (KeyError (PyStr k))
      end
  | _ => Raise TypeError
  end.

(** [v[k] = x] for a [str] [k] *)
Definition py_setitem (v : pyval) (k : string) (x : pyval) : result pyval :=
  match v with
  | PyDict entries => Ok (PyDict (dict_set entries k x))
  | _ => Raise TypeError
  end.

(** [for c in v] and [*v]: the elements of a [list] or [tuple], the keys of a
    [dict], the characters of a [str]; anything else is not iterable. *)
Definition py_iter (v : pyval) : result (list pyval) :=
  match v with
  | PyList items | PyTuple items => Ok items
  | PyDict entries => Ok (map (fun kv => PyStr (fst kv)) entries)
  | PyStr s => Ok (map (fun c => PyStr (String c EmptyString)) (chars s))
  | PyNone | PyBool _ | PyInt _ | PyFloat _ => Raise TypeError
  end.

(** Lists and dicts are unhashable, a tuple is hashable when its elements
    are. *)
Fixpoint hashable (v : pyval) : bool :=
  match v with
  | PyList _ | PyDict _ => false
  | PyTuple items => forallb hashable items
  | _ => true
  end.

(** [d[k]] for a [dict] [d] with [str] keys and any key [k] *)
Definition dict_getitem (entries : list (string * pyval)) (k : pyval) : result pyval :=
  if negb (hashable k) then Raise TypeError
  else match k with
       | PyStr s =>
           match dict_get entries s with
           | Some x => Ok x
           | None => Raise (KeyError k)
           end
       | _ => Raise (KeyError k)
       end.

(** [d.get(k)] for a [dict] [d] with [str] keys and any key [k] *)
Definition dict_get_method (entries : list (string * pyval)) (k : pyval) : result pyval :=
  if negb (hashable k) then Raise TypeError
  else match k with
       | PyStr s =>
           match dict_get entries s with
           | Some x => Ok x
           | None => Ok PyNone
           end
       | _ => Ok PyNone
       end.

(** ** Paths ([posixpath]) *)

(** [s.rfind(c)] *)
Fixpoint rfind_from (c : ascii) (cs : list ascii) (i : nat) (found : option nat) : option nat :=
  match cs with
  | [] => found
  | x :: cs' => rfind_from c cs' (S i) (if Ascii.eqb x c then Some i else found)
  end.

Definition rfind (c : ascii) (s : string) : option nat := rfind_from c (chars s) 0%nat None.

(** [os.path.join(a, b)] *)
Definition path_join (a b : string) : string :=
  if startswith b "/" then b
  else if String.eqb a "" || endswith a "/" then a +++ b
  else a +++ "/" +++ b.

Fixpoint rstrip_slashes (rcs : list ascii) : list ascii :=
  match rcs with
  | c :: rcs' => if Ascii.eqb c "/"%char then rstrip_slashes rcs' else rcs
  | [] => []
  end.

(** [os.path.dirname(p)] *)
Definition dirname (p : string) : string :=
  let i := match rfind "/"%char p with Some i => S i | None => 0%nat end in
  let head := firstn i (chars p) in
  if forallb (Ascii.eqb "/"%char) head then of_chars head
  else of_chars (rev (rstrip_slashes (rev head))).

(** [os.path.splitext(p)[0]]: the extension starts at the last dot of the
    last component, unless only dots precede it there. *)
Definition splitext_root (p : string) : string :=
  let filename_index := match rfind "/"%char p with Some i => S i | None => 0%nat end in
  match rfind "."%char p with
  | Some dot_index =>
      if (filename_index <=? dot_index)%nat
         && existsb (fun c => negb (Ascii.eqb c "."%char))
              (skipn filename_index (firstn dot_index (chars p)))
      then of_chars (firstn dot_index (chars p))
      else p
  | None => p
  end.

(** ** The environment *)

(** [os.getenv(name, default)] *)
Definition getenv_default (env : string -> option string) (name default : string) : string :=
  match env name with
  | Some v => v
  | None => default
  end.

(** ** Formatting *)

Section Format.

(** [repr] of a [float] or of a container: Python's shortest-round-trip
    printing of doubles is not interpreted. *)
Variable py_repr : pyval -> string.

(** ["{0}".format(v)] and [str(v)] *)
Definition py_str (v : pyval) : string :=
  match v with
  | PyStr s => s
  | PyInt n => string_of_Z n
  | PyBool true => "True"
  | PyBool false => "False"
  | PyNone => "None"
  | PyFloat _ | PyList _ | PyTuple _ | PyDict _ => py_repr v
  end.

End Format.

End Py.

Import Py.
Local Open Scope py_scope.

(* ===================================================================== *)
(** * Regular expressions *)
(* ===================================================================== *)

(** Python's [re.search] on the part of its syntax the Resolver's archive
    pattern is written in, with a year and a region that are integers or
    ASCII texts [int] accepts (digits, white space, a sign, underscores):
    literal characters, [.], [*], [+], [?], groups and [$]. A pattern
    outside this syntax is not interpreted: [re_search] answers [false] for
    it, whatever Python does. It serves to run the Resolver on a concrete
    catalog page; the Resolver itself is stated for any [re.search]. *)
Module Regex.

Inductive regex : Type :=
| Eps
| Chr (c : ascii)
| AnyChr
| EndOfString
| Cat (r1 r2 : regex)
| Star (r : regex)
| Opt (r : regex).

(** [matches r s k]: [r] matches a prefix of [s] and [k] accepts what is
    left. *)
Fixpoint matches (r : regex) (s : list ascii) (k : list ascii -> bool) : bool :=
  match r with
  | Eps => k s
  | Chr c =>
      match s with
      | x :: s' => Ascii.eqb x c && k s'
      | [] => false
      end
  | AnyChr =>
      match s with
      | x :: s' => negb (Ascii.eqb x "010"%char) && k s'
      | [] => false
      end
  | EndOfString =>
      match s with
      | [] => k s
      | x :: [] => Ascii.eqb x "010"%char && k s
      | _ => false
      end
  | Cat r1 r2 => matches r1 s (fun s' => matches r2 s' k)
  | Opt r' => matches r' s k || k s
  | Star r' =>
      (fix star (fuel : nat) (s : list ascii) {struct fuel} : bool :=
         match fuel with
         | O => k s
         | S fuel' =>
             matches r' s
               (fun s' => (List.length s' <? List.length s)%nat && star fuel' s')
             || k s
         end) (List.length s) s
  end.

Definition is_meta (c : ascii) : bool :=
  existsb (Ascii.eqb c)
    ["["; "]"; "{"; "}"; "|"; "+"; "^"; "\"; "*"; "?"]%char.

(** A sequence of atoms, each with an optional [*], [+] or [?], up to the end
    of the pattern or to the [)] that closes the group. *)
Fixpoint parse_seq (fuel : nat) (cs : list ascii) : option (regex * list ascii) :=
  match fuel with
  | O => None
  | S fuel' =>
      match cs with
      | [] => Some (Eps, [])
      | ")"%char :: _ => Some (Eps, cs)
      | c :: rest =>
          let atom :=
            if Ascii.eqb c "("%char then
              match parse_seq fuel' rest with
              | Some (r, ")"%char :: rest') => Some (r, rest')
              | _ => None
              end
            else if Ascii.eqb c "."%char then Some (AnyChr, rest)
            else if Ascii.eqb c "$"%char then Some (EndOfString, rest)
            else if is_meta c then None
            else Some (Chr c, rest) in
          match atom with
          | None => None
          | Some (a, rest') =>
              let '(a', rest'') :=
                match rest' with
                | "*"%char :: r => (Star a, r)
                | "+"%char :: r => (Cat a (Star a), r)
                | "?"%char :: r => (Opt a, r)
                | _ => (a, rest')
                end in
              match parse_seq fuel' rest'' with
              | Some (r, remaining) => Some (Cat a' r, remaining)
              | None => None
              end
          end
      end
  end.

Definition parse (pattern : string) : option regex :=
  match parse_seq (S (String.length pattern)) (chars pattern) with
  | Some (r, []) => Some r
  | _ => None
  end.

Fixpoint search_from (r : regex) (fuel : nat) (s : list ascii) : bool :=
  matches r s (fun _ => true)
  || match fuel, s with
     | S fuel', _ :: s' => search_from r fuel' s'
     | _, _ => false
     end.

(** [re.search(pattern, s)] is not [None]. *)
Definition re_search (pattern s : string) : bool :=
  match parse pattern with
  | Some r => search_from r (String.length s) (chars s)
  | None => false
  end.

End Regex.

(** [context.Response(body=..., headers={}, content_type=..., status_code=...)] *)
Record Response : Type := mkResponse {
  body : pyval;
  content_type : string;
  status_code : Z
}.

(* ===================================================================== *)
(** * The Resolver: [00-http-trigger/handler/main.py] *)
(* ===================================================================== *)

Module Resolver.

(** [class FunctionConfig]: the two entries [load_configs] reads from the
    environment and the three the class fixes. *)
Record FunctionConfig : Type := mkConfig {
  kafka_bootstrap_server : option string;
  target_topic : option string;
  source_id : string;
  parcel_id_field : string;
  normalized_parcel_properties : pyval;
  lpis_fr_ign_rpg_url : string
}.

(** [Helpers.load_configs] *)
Definition load_configs (env : string -> option string) : FunctionConfig :=
  {| kafka_bootstrap_server := env "KAFKA_BOOTSTRAP_SERVER";
     target_topic := env "TARGET_TOPIC";
     source_id := "lpis:fr";
     parcel_id_field := "ID_PARCEL";
     normalized_parcel_properties :=
       PyDict [("area", PyDict [("sourceProp", PyStr "SURF_PARC");
                                ("coefSI", PyStr "*10000")])];
     lpis_fr_ign_rpg_url :=
       getenv_default env "LPIS_FR_IGN_RPG_URL" "http://professionnels.ign.fr/rpg" |}.

(** What the handler does to the outside: the catalog request, and the
    producer's [produce] and [flush]. *)
Inductive event : Type :=
| Get (url : string)
| Produce (topic : option string) (value : pyval)
| Flush.

(** [NuclioResponseError.as_response] *)
Definition as_response (description : string) (status : Z) : Response :=
  {| body := PyDict [("message", PyStr description)];
     content_type := "application/json";
     status_code := status |}.

Section Validation.

Context {unicode : Unicode}.

(** [Helpers.parse_body] *)
Definition parse_body (body : pyval) : result (pyval * pyval) :=
  (* parse year *)
  has_year <- py_contains body "year" ;;
  if negb has_year then
    Raise (NuclioResponseError "Missing 'year' attribute !" codes.bad)
  else
  y <- py_getitem body "year" ;;
  ny <- py_int y ;;
  if Z.eqb ny 0 then
    Raise (NuclioResponseError "'year' attribute must be an integer !" codes.bad)
  else
  year <- py_getitem body "year" ;;
  (* parse province *)
  has_region <- py_contains body "region" ;;
  if negb has_region then
    Raise (NuclioResponseError "Missing 'region' attribute !" codes.bad)
  else
  r <- py_getitem body "region" ;;
  nr <- py_int r ;;
  if Z.eqb nr 0 then
    Raise (NuclioResponseError "'region' attribute must be an integer !" codes.bad)
  else
  region <- py_getitem body "region" ;;
  Ok (year, region).

End Validation.

Section Handler.

Context {unicode : Unicode}.

Variable py_repr : pyval -> string.

(** The text ['Unexpected error occurred: {0}\n{1}'.format(error,
    traceback.format_exc())] of an exception. *)
Variable format_unexpected : exn -> string.

(** [re.search(pattern, s)] is not [None]. *)
Variable re_search : string -> string -> bool.

(** [requests.get(url)], then the [href] attribute of every anchor of class
    [fleche2] BeautifulSoup finds in the page. *)
Variable scrape : string -> result (list (option string)).

Variable cfg : FunctionConfig.

(** [FunctionState.done_loading] *)
Variable done_loading : bool.

(** The special case for overseas regions (handler, lines 35-38). *)
Definition region_code (region : pyval) : string :=
  if py_in_ints region [1; 2; 3; 4; 6] then "D97" +++ py_str py_repr region
  else "R" +++ py_str py_repr region.

(** ["RPG_2-0__SHP_.*_{1}-{0}_{0}-01-01.7z(.001)?$".format(year,region)] *)
Definition archive_regex (year : pyval) (region : string) : string :=
  "RPG_2-0__SHP_.*_" +++ region +++ "-" +++ py_str py_repr year +++ "_"
    +++ py_str py_repr year +++ "-01-01.7z(.001)?$".

(** [h.get('href') and re.search(archive_regex,h.get('href'))] *)
Definition is_archive_link (regex : string) (h : option string) : bool :=
  match h with
  | Some href => negb (String.eqb href "") && re_search regex href
  | None => false
  end.

Definition href_of (h : option string) : string :=
  match h with Some href => href | None => "" end.

(** The [try] block; it returns [archive_to_donwload]. *)
Definition try_block (body : pyval) : M (list event) string :=
  (* if we're not ready to handle this request yet, deny it *)
  raise_if (negb done_loading)
    (NuclioResponseError "The service is loading and is temporarily unavailable."
       codes.unavailable) ;;~
  (* parse event's payload *)
  yr <~ lift (parse_body body) ;;
  let year := fst yr in
  let region := region_code (snd yr) in
  let regex := archive_regex year region in
  let rpg_url := lpis_fr_ign_rpg_url cfg in
  modify (fun tr => tr ++ [Get rpg_url]) ;;~
  hrefs <~ lift (scrape rpg_url) ;;
  (* search requested archive *)
  let links := map href_of (filter (is_archive_link regex) hrefs) in
  (* check if there is indeed archive to download *)
  raise_if (negb (Nat.eqb (List.length links) 1))
    (NuclioResponseError
       ("Failed to scrape French LPIS archive for year '" +++ py_str py_repr year
          +++ "' and region '" +++ region +++ "' (not found)")
       codes.bad) ;;~
  (* check archive format *)
  let archive_to_donwload := hd "" links in
  raise_if (negb (endswith archive_to_donwload "7z"
                  || endswith archive_to_donwload "7z.001"))
    (NuclioResponseError ("Not a 7z archive, url(s)=" +++ archive_to_donwload)
       codes.bad) ;;~
  (* set the source id *)
  let source_id := source_id cfg +++ ":" +++ region in
  (* forge download command *)
  let download_cmd :=
    PyDict [("format", PyStr "7z");
            ("url", PyStr archive_to_donwload);
            ("sourceID", PyStr source_id);
            ("parcelIdField", PyStr (parcel_id_field cfg));
            ("normalizedProperties", normalized_parcel_properties cfg);
            ("version", year)] in
  (* submit download command on a dedicated kafka topic *)
  modify (fun tr => tr ++ [Produce (target_topic cfg) download_cmd]) ;;~
  modify (fun tr => tr ++ [Flush]) ;;~
  ret archive_to_donwload.

(** [handler(context, event)], on the decoded body of the event. *)
Definition handler (body : pyval) : Response * list event :=
  match try_block body [] with
  | (Ok archive_to_donwload, tr) =>
      ({| body := PyDict [("message",
                           PyStr ("Archive '" +++ archive_to_donwload
                                    +++ "' successfully submitted for ingestion"))];
          content_type := "application/json";
          status_code := codes.ok |}, tr)
  | (Raise (NuclioResponseError description status), tr) =>
      (as_response description status, tr)
  | (Raise error, tr) =>
      (as_response (format_unexpected error) codes.internal_server_error, tr)
  end.

End Handler.

End Resolver.

(** What a handler hands back to nuclio: a [Response], or a plain value. *)
Inductive retval : Type :=
| RResponse (r : Response)
| RValue (v : pyval).

(* ===================================================================== *)
(** * The Processor: [01-archive-processor/handler/main.py] *)
(* ===================================================================== *)

Module Processor.

(** [class FunctionConfig] *)
Module FunctionConfig.
Definition accepted_source_id : string := "lpis:fr".

Definition region_code_epsg_crs : list (Z * Z) :=
  [(1, 32620); (2, 32620); (3, 2972); (4, 2975); (6, 4471);
   (11, 2154); (24, 2154); (27, 2154); (28, 2154); (32, 2154);
   (44, 2154); (52, 2154); (53, 2154); (75, 2154); (76, 2154);
   (84, 2154); (93, 2154); (94, 2154)].
End FunctionConfig.

(** [FunctionConfig.region_code_epsg_crs[code]] *)
Fixpoint epsg_of_region (table : list (Z * Z)) (code : Z) : result Z :=
  match table with
  | [] => Raise (KeyError (PyInt code))
  | (k, v) :: rest => if Z.eqb k code then Ok v else epsg_of_region rest code
  end.

(** The nuclio event: its decoded body and its id. *)
Record Event : Type := mkEvent {
  event_body : pyval;
  event_id : string
}.

(** The dict [parse_body] returns. *)
Record command : Type := mkCommand {
  archive_format : pyval;
  archive_url : pyval;
  source_id : pyval;
  parcel_id_field : pyval;
  normalized_parcel_properties : list (string * pyval);
  version : string
}.

(** A shapefile as [shapefile.Reader] gives it: the fields' names (the first
    is the deletion flag) and, in storage order, each record's values with
    its shape's [__geo_interface__]. *)
Record shapefile : Type := mkShapefile {
  fields : list string;
  shapeRecords : list (list pyval * pyval)
}.

(** What the handler does to the outside. A produced message is kept as the
    value its consumer decodes from it. *)
Inductive event : Type :=
| Makedirs (path : string)
| Download (url path : string)
| Extract (archive dir : string)
| Produce (topic : option string) (value : pyval)
| Flush
| Rmtree (path : string).

(** The world of one invocation: the directories that exist, the handler's
    local [tmp_dir] (unbound until assigned), and what was done so far. *)
Record state : Type := mkState {
  fs : list string;
  tmp_dir : option string;
  trace : list event
}.

(** The world when the handler is entered: no local is bound yet, nothing
    was done. *)
Definition fresh (dirs : list string) : state :=
  {| fs := dirs; tmp_dir := None; trace := [] |}.

Definition log (e : event) (st : state) : state :=
  {| fs := fs st; tmp_dir := tmp_dir st; trace := trace st ++ [e] |}.

Definition assign_tmp_dir (d : string) (st : state) : state :=
  {| fs := fs st; tmp_dir := Some d; trace := trace st |}.

Definition exists_dir (d : string) (st : state) : bool :=
  existsb (String.eqb d) (fs st).

(** [os.makedirs(path)] *)
Definition makedirs (path : string) : M state unit :=
  fun st =>
    if exists_dir path st then (Raise (FileExistsError path), st)
    else (Ok tt, log (Makedirs path)
                   {| fs := path :: fs st; tmp_dir := tmp_dir st; trace := trace st |}).

(** [os.makedirs(path, exist_ok=True)] *)
Definition makedirs_exist_ok (path : string) : M state unit :=
  fun st =>
    if exists_dir path st then (Ok tt, st)
    else (Ok tt, log (Makedirs path)
                   {| fs := path :: fs st; tmp_dir := tmp_dir st; trace := trace st |}).

(** [shutil.rmtree(path)]: the directory goes with all that is below it. *)
Definition rmtree (path : string) : M state unit :=
  fun st =>
    if exists_dir path st then
      (Ok tt, log (Rmtree path)
                {| fs := filter (fun d => negb (String.eqb d path
                                                || startswith d (path +++ "/")))
                           (fs st);
                   tmp_dir := tmp_dir st; trace := trace st |})
    else (Raise (FileNotFoundError path), st).

(** [NuclioResponseError.as_response] *)
Definition as_response (description : string) (status : Z) : Response :=
  {| body := PyStr description;
     content_type := "text/plain";
     status_code := status |}.

(** [v.lower()], a method of [str] only *)
Definition py_lower (v : pyval) : result string :=
  match v with
  | PyStr s => Ok (lower s)
  | _ => Raise AttributeError
  end.

(** [v.startswith(p)], a method of [str] only *)
Definition py_startswith (v : pyval) (p : string) : result bool :=
  match v with
  | PyStr s => Ok (startswith s p)
  | _ => Raise AttributeError
  end.

(** [v.rsplit(sep, 1)[-1]], a method of [str] only *)
Definition py_rsplit_last (sep : ascii) (v : pyval) : result string :=
  match v with
  | PyStr s => Ok (rsplit_last sep s)
  | _ => Raise AttributeError
  end.

Definition missing (attribute : string) : exn :=
  NuclioResponseError ("Missing '" +++ attribute +++ "' attribute !") codes.bad.

Section Handler.

Context {unicode : Unicode}.

Variable py_repr : pyval -> string.

(** The text ['Unexpected error occurred: {0}\n{1}'.format(error,
    traceback.format_exc())] of an exception. *)
Variable format_unexpected : exn -> string.

(** [urlopen(url)] and the chunked copy to disk complete. *)
Variable urlopen_ok : string -> bool.

(** [Archive(path).extractall(dir)] *)
Variable extractall : string -> string -> result unit.

(** [os.walk(path)] after the extraction: each directory with its files. *)
Variable walk : string -> list (string * list string).

(** [shapefile.Reader(path)] *)
Variable Reader : string -> result shapefile.

(** [eval(source)] *)
Variable py_eval : string -> result pyval.

(** [FunctionConfig.target_topic], from the environment *)
Variable target_topic : option string.

(** [FunctionState.done_loading] *)
Variable done_loading : bool.

(** [Helpers.parse_body] *)
Definition parse_body (body : pyval) : result command :=
  (* parse archive's format *)
  format_ok <-
    (has <- py_contains body "format" ;;
     if has then
       f <- py_getitem body "format" ;;
       l <- py_lower f ;;
       Ok (String.eqb l "7z")
     else Ok false) ;;
  if negb format_ok then
    Raise (NuclioResponseError "Archive's 'format' must be '7z' !" codes.bad)
  else
  archive_format <- py_getitem body "format" ;;
  (* parse archive's URL *)
  has_url <- py_contains body "url" ;;
  if negb has_url then Raise (missing "url") else
  archive_url <- py_getitem body "url" ;;
  (* parse archive's sourceID *)
  has_source <- py_contains body "sourceID" ;;
  if negb has_source then Raise (missing "sourceID") else
  (* WORKAROUND: Check sourceID to only accept RPG archives (IGN/France) *)
  sid <- py_getitem body "sourceID" ;;
  accepted <- py_startswith sid FunctionConfig.accepted_source_id ;;
  if negb accepted then
    Raise (NuclioResponseError
             ("sourceID: not a '" +++ FunctionConfig.accepted_source_id
                +++ "' data source !") codes.bad)
  else
  source_id <- py_getitem body "sourceID" ;;
  (* parse archive's parcelIdField *)
  has_field <- py_contains body "parcelIdField" ;;
  if negb has_field then Raise (missing "parcelIdField") else
  parcel_id_field <- py_getitem body "parcelIdField" ;;
  (* parse archive's normalizedProperties *)
  has_normalized <- py_contains body "normalizedProperties" ;;
  if negb has_normalized then Raise (missing "normalizedProperties") else
  normalized <- py_getitem body "normalizedProperties" ;;
  match normalized with
  | PyDict normalized_parcel_properties =>
      (* parse archive's version *)
      has_version <- py_contains body "version" ;;
      if negb has_version then Raise (missing "version") else
      v <- py_getitem body "version" ;;
      Ok {| archive_format := archive_format;
            archive_url := archive_url;
            source_id := source_id;
            parcel_id_field := parcel_id_field;
            normalized_parcel_properties := normalized_parcel_properties;
            version := py_str py_repr v |}
  | _ => Raise (NuclioResponseError "'normalizedProperties' is not a dict !" codes.bad)
  end.

(** [Helpers.create_temporary_dir] *)
Definition create_temporary_dir (event : Event) : M state string :=
  let temp_dir := "/tmp/nuclio-event-" +++ event_id event in
  makedirs temp_dir ;;~
  ret temp_dir.

(** [Helpers.download_file] *)
Definition download_file (url target_path : string) : M state unit :=
  (* make sure the target directory exists *)
  makedirs_exist_ok (dirname target_path) ;;~
  modify (log (Download url target_path)) ;;~
  raise_if (negb (urlopen_ok url))
    (NuclioResponseError ("Failed to download file: " +++ url)
       codes.service_unavailable).

(** [re.search('R([0-9]+)',region).group(1)]: the digits that follow the
    first [R] that has a digit after it. *)
Fixpoint search_R_digits (region : list ascii) : option string :=
  match region with
  | [] => None
  | c :: rest =>
      match rest with
      | d :: _ =>
          if Ascii.eqb c "R"%char && is_digit d
          then Some (of_chars (take_digits rest))
          else search_R_digits rest
      | [] => None
      end
  end.

(** [re.search('D97([0-9])',region).group(1)]: the digit that follows the
    first [D97] that has one after it. *)
Fixpoint search_D97_digit (region : list ascii) : option string :=
  match region with
  | [] => None
  | c :: rest =>
      match c, rest with
      | "D"%char, "9"%char :: "7"%char :: d :: _ =>
          if is_digit d then Some (String d EmptyString) else search_D97_digit rest
      | _, _ => search_D97_digit rest
      end
  end.

(** The search for ['PARCELLES_GRAPHIQUES.shp'] over [os.walk]'s entries. *)
Fixpoint find_shapefiles (entries : list (string * list string)) (shpfs : list string)
  : result (list string) :=
  match entries with
  | [] => Ok shpfs
  | (dirpath, files) :: rest =>
      let a := filter (fun f => String.eqb f "PARCELLES_GRAPHIQUES.shp") files in
      if Nat.eqb (List.length a) 1 then
        find_shapefiles rest (shpfs ++ [path_join dirpath (hd "" a)])
      else if Nat.ltb 1 (List.length a) then
        Raise (NuclioResponseError
                 "More than one shapefile 'PARCELLES_GRAPHIQUES.shp' found !" codes.bad)
      else find_shapefiles rest shpfs
  end.

(** The loop over [normalized_parcel_properties] (handler, lines 130-135). *)
Fixpoint normalize (normalized : list (string * pyval)) (props : list string)
    (parcel_properties properties : list (string * pyval))
  : result (list (string * pyval)) :=
  match props with
  | [] => Ok properties
  | prop :: rest =>
      np <- py_getitem (PyDict normalized) prop ;;
      source_prop <- py_getitem np "sourceProp" ;;
      value <- dict_get_method parcel_properties source_prop ;;
      (* Get value in SI base unit if needed *)
      has_coef <- py_contains np "coefSI" ;;
      value <- (if has_coef then
                  coef <- py_getitem np "coefSI" ;;
                  py_eval (py_str py_repr value +++ py_str py_repr coef)
                else Ok value) ;;
      normalize normalized rest parcel_properties (dict_set properties prop value)
  end.

(** One turn of the loop over the shape records, up to the forged GeoJSON
    feature (handler, lines 116-140). *)
Definition forge_feature (b : command) (crs_code : Z) (fields_name : list string)
    (sr : list pyval * pyval) : result pyval :=
  let parcel_properties := dict_zip fields_name (fst sr) in
  key <- dict_getitem parcel_properties (parcel_id_field b) ;;
  n <- py_int key ;;
  let parcel_id := py_str py_repr (source_id b) +++ ":" +++ string_of_Z n in
  let properties :=
    [("lpis", PyDict parcel_properties);
     ("crs", PyDict [("type", PyStr "EPSG");
                     ("properties", PyDict [("code", PyInt crs_code)])]);
     ("version", PyStr (version b))] in
  properties <- normalize (normalized_parcel_properties b)
                  (map fst (normalized_parcel_properties b))
                  parcel_properties properties ;;
  let geometry := snd sr in
  (* forge a GeoJSON feature from the shape record *)
  Ok (PyDict [("_id", PyStr parcel_id);
              ("type", PyStr "Feature");
              ("geometry", geometry);
              ("properties", PyDict properties)]).

(** The loop over [reader.iterShapeRecords()]; it returns [count]. *)
Fixpoint process_records (b : command) (crs_code : Z) (fields_name : list string)
    (records : list (list pyval * pyval)) (count : Z) : M state Z :=
  match records with
  | [] => ret count
  | sr :: rest =>
      parcel <~ lift (forge_feature b crs_code fields_name sr) ;;
      (* send the GeoJSON feature: [json.dumps] writes every value of the
         model, and the message is kept as what [json.loads] reads back *)
      modify (log (Produce target_topic (json_image parcel))) ;;~
      (if Z.eqb (count mod 1000) 0 then modify (log Flush) else ret tt) ;;~
      process_records b crs_code fields_name rest (count + 1)
  end.

(** The [try] block up to the records' loop (handler, lines 28-109):
    readiness, validation, the working directory, download, extraction, the
    search for the shapefile, the region's CRS, and the shapefile's reader. *)
Definition stage (event : Event) : M state (command * Z * shapefile) :=
  (* if we're not ready to handle this request yet, deny it *)
  raise_if (negb done_loading)
    (NuclioResponseError "The service is loading and is temporarily unavailable."
       codes.unavailable) ;;~
  (* parse event's payload *)
  b <~ lift (parse_body (event_body event)) ;;
  (* create temporary directory *)
  t <~ create_temporary_dir event ;;
  modify (assign_tmp_dir t) ;;~
  archive_name <~ lift (py_rsplit_last "/" (archive_url b)) ;;
  (* Workaround for the new published archives for year 2017 *)
  let special_format := ".001" in
  let archive_name :=
    if endswith archive_name (py_str py_repr (archive_format b) +++ special_format)
    then drop_last (String.length special_format) archive_name
    else archive_name in
  let archive_target_path := path_join t archive_name in
  (* download requested archive *)
  download_file (py_str py_repr (archive_url b)) archive_target_path ;;~
  (* extract archive *)
  modify (log (Extract archive_target_path t)) ;;~
  lift (extractall archive_target_path t) ;;~
  (* search for 'PARCELLES_GRAPHIQUES.shp' *)
  let directory := splitext_root archive_name in
  let search_path := path_join t directory in
  shpfs <~ lift (find_shapefiles (walk search_path) []) ;;
  (* one shapefile expected *)
  raise_if (negb (Nat.eqb (List.length shpfs) 1))
    (NuclioResponseError
       ("Shapefile 'PARCELLES_GRAPHIQUES.shp' not found in extracted archive '"
          +++ archive_name +++ " !") codes.bad) ;;~
  (* shapefile to process *)
  let f := hd "" shpfs in
  (* get region Coordinate Reference System (EPSG code) *)
  region <~ lift (py_rsplit_last ":" (source_id b)) ;;
  region_code <~
    lift (match search_R_digits (chars region) with
          | Some code => Ok code
          | None =>
              match search_D97_digit (chars region) with
              | Some code => Ok code
              | None =>
                  Raise (NuclioResponseError ("Region code unknown, region=" +++ region)
                           codes.bad)
              end
          end) ;;
  code <~ lift (py_int (PyStr region_code)) ;;
  crs_code <~ lift (epsg_of_region FunctionConfig.region_code_epsg_crs code) ;;
  (* read shapefile *)
  reader <~ lift (Reader f) ;;
  ret (b, crs_code, reader).

(** The [try] block; it returns [count]. *)
Definition try_block (event : Event) : M state Z :=
  staged <~ stage event ;;
  let '(b, crs_code, reader) := staged in
  let fields_name := tl (fields reader) in
  (* process shapfile records *)
  count <~ process_records b crs_code fields_name (shapeRecords reader) 0 ;;
  modify (log Flush) ;;~
  ret count.

(** [handler(context, event)]: the [try] block, its two [except] clauses,
    the [finally] clause, and the final [return], in a world where the
    directories [dirs] exist. The [finally] clause reads the local [tmp_dir];
    when the [try] block left before assigning it the read raises, and that
    exception replaces the response about to be returned. *)
Definition handler (event : Event) (dirs : list string) : result retval * state :=
  let '(r, st1) := try_block event (fresh dirs) in
  let pending :=
    match r with
    | Ok count =>
        RValue (PyStr ("Processing Completed (" +++ string_of_Z count
                         +++ " geometries)"))
    | Raise (NuclioResponseError description status) =>
        RResponse (as_response description status)
    | Raise error =>
        RResponse (as_response (format_unexpected error) codes.internal_server_error)
    end in
  (* finally: shutil.rmtree(tmp_dir) *)
  match tmp_dir st1 with
  | None => (Raise (UnboundLocalError "tmp_dir"), st1)
  | Some d =>
      match rmtree d st1 with
      | (Ok _, st2) => (Ok pending, st2)
      | (Raise e, st2) => (Raise e, st2)
      end
  end.

End Handler.

End Processor.

(* ===================================================================== *)
(** * The Ingestor: [02-datastore-ingestion/handler/main.py] *)
(* ===================================================================== *)

Module Ingestor.

(** [class FunctionConfig], as [load_configs] fills it. *)
Record FunctionConfig : Type := mkConfig {
  mongodb_host : string;
  mongodb_port : pyval;
  target_db : string;
  target_collection : string;
  target_crs_epsg_code : string
}.

(** [Helpers.load_configs] *)
Definition load_configs (env : string -> option string) : FunctionConfig :=
  {| mongodb_host := getenv_default env "MONGODB_HOST" "localhost";
     mongodb_port := match env "MONGODB_PORT" with
                     | Some port => PyStr port
                     | None => PyInt 27017
                     end;
     target_db := getenv_default env "TARGET_DB" "fast";
     target_collection := getenv_default env "TARGET_COLLECTION" "lpis";
     (* WGS84 -> EPSG:4326 *)
     target_crs_epsg_code := getenv_default env "TARGET_CRS_EPSG_CODE" "4326" |}.

(** The target collection of the document store: its documents, in insertion
    order. *)
Definition collection : Type := list pyval.

(** The document's [_id] is [id]. *)
Definition has_id (id : pyval) (doc : pyval) : bool :=
  match doc with
  | PyDict entries =>
      match dict_get entries "_id" with
      | Some v => pyval_eqb v id
      | None => false
      end
  | _ => false
  end.

(** The first document of the collection that has this [_id] becomes [doc]. *)
Fixpoint replace_first (id doc : pyval) (c : collection) : option collection :=
  match c with
  | [] => None
  | d :: c' =>
      if has_id id d then Some (doc :: c')
      else option_map (cons d) (replace_first id doc c')
  end.

(** [c.replace_one({ '_id': id }, body, upsert=True).upserted_id]: the
    document with this [_id] is replaced by [body]; without one, [body] is
    inserted and its [_id] is the [upserted_id]. *)
Definition replace_one (id body : pyval) : M collection pyval :=
  fun c =>
    match replace_first id body c with
    | Some c' => (Ok PyNone, c')
    | None => (Ok id, c ++ [body])
    end.

(** [NuclioResponseError.as_response] *)
Definition as_response (description : string) (status : Z) : Response :=
  {| body := PyStr description;
     content_type := "text/plain";
     status_code := status |}.

Section Handler.

Variable py_repr : pyval -> string.

(** The text ['Unexpected error occurred: {0}\n{1}'.format(error,
    traceback.format_exc())] of an exception. *)
Variable format_unexpected : exn -> string.

(** pyproj knows the coordinate system named by this [init] string. *)
Variable proj_known : string -> bool.

(** pyproj's [transform(p1, p2, *args)], the two projections given by their
    [init] strings. *)
Variable transform : string -> string -> list pyval -> result pyval.

Variable cfg : FunctionConfig.

(** [FunctionState.done_loading] *)
Variable done_loading : bool.

(** [Proj(init=...)]; the projection is kept as its [init] string. *)
Definition Proj (init : string) : result string :=
  if proj_known init then Ok init else Raise (RuntimeError init).

(** The [for] loop of [reproject_coordinates] over the elements [cs] still to
    visit: a [list] is reprojected by the call [reproject] and appended to
    [new_coords]; at the first element that is no [list] the loop is left
    with [transformed], the result of [transform] on all the coordinates. *)
Definition reproject_loop (reproject : pyval -> result pyval)
    (transformed : result pyval) : list pyval -> list pyval -> result pyval :=
  fix loop (cs new_coords : list pyval) {struct cs} : result pyval :=
    match cs with
    | [] => Ok (PyList new_coords)
    | c :: cs' =>
        match c with
        | PyList _ =>
            r <- reproject c ;;
            loop cs' (new_coords ++ [r])
        | _ => transformed
        end
    end.

(** [Helpers.reproject_coordinates] *)
Fixpoint reproject_coordinates (source_proj target_proj : string) (coords : pyval)
  : result pyval :=
  match coords with
  | PyList items | PyTuple items =>
      reproject_loop (reproject_coordinates source_proj target_proj)
        (transform source_proj target_proj items) items []
  | _ =>
      items <- py_iter coords ;;
      match items with
      | [] => Ok (PyList [])
      | _ :: _ => transform source_proj target_proj items
      end
  end.

(** The check whether a CRS transformation is needed, and the
    transformation (handler, lines 37-46); it returns [body] as the upsert
    will see it. *)
Definition reproject_if_needed (body : pyval) : result pyval :=
  properties <- py_getitem body "properties" ;;
  has_crs <- py_contains properties "crs" ;;
  if has_crs then
    crs <- py_getitem properties "crs" ;;
    crs_type <- py_getitem crs "type" ;;
    if py_eq_str crs_type "EPSG" then
      crs_properties <- py_getitem crs "properties" ;;
      code <- py_getitem crs_properties "code" ;;
      if negb (py_eq_str code (target_crs_epsg_code cfg)) then
        source_proj <- Proj ("EPSG:" +++ py_str py_repr code) ;;
        target_proj <- Proj ("EPSG:" +++ target_crs_epsg_code cfg) ;;
        geometry <- py_getitem body "geometry" ;;
        coordinates <- py_getitem geometry "coordinates" ;;
        new_coordinates <- reproject_coordinates source_proj target_proj coordinates ;;
        geometry <- py_setitem geometry "coordinates" new_coordinates ;;
        py_setitem body "geometry" geometry
      else Ok body
    else Ok body
  else Ok body.

(** The [try] block. *)
Definition try_block (body : pyval) : M collection unit :=
  (* if we're not ready to handle this request yet, deny it *)
  raise_if (negb done_loading)
    (NuclioResponseError "The service is loading and is temporarily unavailable."
       codes.unavailable) ;;~
  id <~ lift (py_getitem body "_id") ;;
  (* Check if a CRS (Coordinate Reference System) transformation is needed *)
  body <~ lift (reproject_if_needed body) ;;
  replace_one id body ;;~
  ret tt.

(** [handler(context, event)], on the decoded body of the event. *)
Definition handler (body : pyval) (c : collection) : retval * collection :=
  match try_block body c with
  | (Ok _, c') => (RValue PyNone, c')
  | (Raise (NuclioResponseError description status), c') =>
      (RResponse (as_response description status), c')
  | (Raise error, c') =>
      (RResponse (as_response (format_unexpected error) codes.internal_server_error), c')
  end.

End Handler.

End Ingestor.

(* ===================================================================== *)
(** * Geometry coordinate trees *)
(* ===================================================================== *)

(** The vocabulary of the specification for GeoJSON coordinates: a tree is a
    flat pair of numbers or a sequence of trees. *)
Module CoordTree.

Definition is_number (v : pyval) : bool :=
  match v with
  | PyInt _ | PyFloat _ => true
  | _ => false
  end.

Definition is_pair (items : list pyval) : bool :=
  match items with
  | [x; y] => is_number x && is_number y
  | _ => false
  end.

(** A well-formed tree: a flat numeric pair, or a sequence whose elements are
    all trees. *)
Fixpoint is_coord_tree (v : pyval) : bool :=
  match v with
  | PyList items => is_pair items || forallb is_coord_tree items
  | _ => false
  end.

(** The specification's reprojection, following its words: recurse through
    the sequences down to the flat pairs, transform each pair with [tp], and
    rebuild the sequences on the way back. *)
Fixpoint transform_pairs (tp : pyval -> pyval -> pyval) (t : pyval) : pyval :=
  match t with
  | PyList items =>
      if is_pair items then
        match items with
        | [x; y] => tp x y
        | _ => t
        end
      else PyList (map (transform_pairs tp) items)
  | _ => t
  end.

(** The nesting structure of a value: its sequences, whatever their kind,
    and a leaf for everything else. *)
Inductive shape : Type :=
| Leaf
| Node (children : list shape).

Fixpoint skeleton (v : pyval) : shape :=
  match v with
  | PyList items | PyTuple items => Node (map skeleton items)
  | _ => Leaf
  end.

Fixpoint depth (v : pyval) : nat :=
  match v with
  | PyList items | PyTuple items => S (fold_right Nat.max 0%nat (map depth items))
  | _ => 0%nat
  end.

End CoordTree.

(* ===================================================================== *)
(** * Concrete worlds, to run the handlers on *)
(* ===================================================================== *)

Module Examples.

(** The texts of the examples are ASCII; an interpreter that reads no other
    text as an integer will do. *)
#[global] Instance unicode : Unicode := {| int_of_unicode := fun _ => None |}.

(** Floats and containers print as a question mark: none is printed below. *)
Definition py_repr (v : pyval) : string := "?".

Definition format_unexpected (e : exn) : string := "Unexpected error occurred".

(** The environment names the message bus and the topic; every other
    configuration entry takes its default. *)
Definition env (name : string) : option string :=
  if String.eqb name "KAFKA_BOOTSTRAP_SERVER" then Some "kafka:9092"
  else if String.eqb name "TARGET_TOPIC" then Some "lpis"
  else None.

(** A catalog page with three anchors of class [fleche2]: the first volume of
    the 2016 archive of region 24, one anchor without [href], and the 2016
    archive of region 4 (La Reunion). *)
Definition catalog : list (option string) :=
  [Some "https://wxs.ign.fr/rpg/RPG_2-0__SHP_LAMB93_R24-2016_2016-01-01.7z.001";
   None;
   Some "https://wxs.ign.fr/rpg/RPG_2-0__SHP_RGR92UTM40S_D974-2016_2016-01-01.7z"].

Definition scrape (url : string) : result (list (option string)) := Ok catalog.

Definition resolver (body : pyval) : Response * list Resolver.event :=
  Resolver.handler py_repr format_unexpected Regex.re_search scrape
    (Resolver.load_configs env) true body.

Definition request_2016_24 : pyval :=
  PyDict [("year", PyInt 2016); ("region", PyInt 24)].

Definition request_2016_4 : pyval :=
  PyDict [("year", PyInt 2016); ("region", PyInt 4)].

(** A request whose year is no number. *)
Definition request_abc_24 : pyval :=
  PyDict [("year", PyStr "abc"); ("region", PyInt 24)].

(** A Download Command for the archive of region 24, with the given
    [format]; the area is normalized without a unit coefficient. *)
Definition command (format : string) : pyval :=
  PyDict [("format", PyStr format);
          ("url", PyStr "https://wxs.ign.fr/rpg/RPG_2-0__SHP_LAMB93_R24-2016_2016-01-01.7z.001");
          ("sourceID", PyStr "lpis:fr:R24");
          ("parcelIdField", PyStr "ID_PARCEL");
          ("normalizedProperties",
           PyDict [("area", PyDict [("sourceProp", PyStr "SURF_PARC")])]);
          ("version", PyInt 2016)].

(** Every download and every extraction succeeds; the extracted tree has
    the parcels' shapefile in one of its directories. *)
Definition urlopen_ok (url : string) : bool := true.

Definition extractall (archive dir : string) : result unit := Ok tt.

Definition walk (path : string) : list (string * list string) :=
  [(path, ["LISEZ-MOI.txt"]);
   (path +++ "/RPG", ["PARCELLES_GRAPHIQUES.dbf"; "PARCELLES_GRAPHIQUES.shp"])].

(** A point as pyshp's [__geo_interface__] gives it: its position is a
    tuple. *)
Definition point (x y : Q) : pyval :=
  PyDict [("type", PyStr "Point"); ("coordinates", PyTuple [PyFloat x; PyFloat y])].

(** A shapefile of three parcels; the natural keys of the first two are the
    same number written in two ways, the third's is no number. *)
Definition parcels : Processor.shapefile :=
  {| Processor.fields := ["DeletionFlag"; "ID_PARCEL"; "SURF_PARC"];
     Processor.shapeRecords :=
       [([PyStr "0123"; PyFloat (5 # 2)], point (1 # 2) 3);
        ([PyStr "123"; PyFloat (7 # 2)], point (3 # 2) 3);
        ([PyStr "12A"; PyFloat (1 # 2)], point (5 # 2) 3)] |}.

Definition Reader (path : string) : result Processor.shapefile := Ok parcels.

(** No expression is evaluated in these examples. *)
Definition py_eval (source : string) : result pyval := Raise (RuntimeError source).

Definition processor (body : pyval) : result retval * Processor.state :=
  Processor.handler py_repr format_unexpected urlopen_ok extractall walk Reader
    py_eval (env "TARGET_TOPIC") true
    {| Processor.event_body := body; Processor.event_id := "42" |} [].

(** The same shapefile without its third parcel. *)
Definition two_parcels : Processor.shapefile :=
  {| Processor.fields := ["DeletionFlag"; "ID_PARCEL"; "SURF_PARC"];
     Processor.shapeRecords :=
       [([PyStr "0123"; PyFloat (5 # 2)], point (1 # 2) 3);
        ([PyStr "123"; PyFloat (7 # 2)], point (3 # 2) 3)] |}.

(** A catalog whose only link matches the archive pattern of region 24 but
    ends with a line feed, so not as a 7z archive does. *)
Definition catalog_line_feed : list (option string) :=
  [Some ("https://wxs.ign.fr/rpg/RPG_2-0__SHP_LAMB93_R24-2016_2016-01-01.7z"
           +++ String "010"%char EmptyString)].

(** A request that names La Reunion by the text of its number, and a catalog
    that has an archive under the mainland form of this number. *)
Definition request_text_region : pyval :=
  PyDict [("year", PyInt 2016); ("region", PyStr "4")].

Definition catalog_R4 : list (option string) :=
  [Some "https://wxs.ign.fr/rpg/RPG_2-0__SHP_LAMB93_R4-2016_2016-01-01.7z"].

(** A request whose year is zero. *)
Definition request_year_zero : pyval :=
  PyDict [("year", PyInt 0); ("region", PyInt 24)].

(** A request for a region the catalog has no archive of. *)
Definition request_2016_11 : pyval :=
  PyDict [("year", PyInt 2016); ("region", PyInt 11)].

(** The Download Command of format [7z] as [parse_body] returns it. *)
Definition parsed_command : Processor.command :=
  {| Processor.archive_format := PyStr "7z";
     Processor.archive_url :=
       PyStr "https://wxs.ign.fr/rpg/RPG_2-0__SHP_LAMB93_R24-2016_2016-01-01.7z.001";
     Processor.source_id := PyStr "lpis:fr:R24";
     Processor.parcel_id_field := PyStr "ID_PARCEL";
     Processor.normalized_parcel_properties :=
       [("area", PyDict [("sourceProp", PyStr "SURF_PARC")])];
     Processor.version := "2016" |}.

(** The feature of a record of [parcels]. *)
Definition forged (sr : list pyval * pyval) : pyval :=
  match Processor.forge_feature py_repr py_eval parsed_command 2154
          ["ID_PARCEL"; "SURF_PARC"] sr with
  | Ok parcel => parcel
  | Raise _ => PyNone
  end.

(** A stand-in for pyproj: every coordinate system is known, and a pair of
    numbers is moved by one unit along both axes. *)
Definition proj_known (init : string) : bool := true.

Definition shift (v : pyval) : pyval :=
  match v with
  | PyInt n => PyFloat (inject_Z n + 1)
  | PyFloat q => PyFloat (q + 1)
  | _ => v
  end.

Definition transform (source_proj target_proj : string) (args : list pyval)
  : result pyval :=
  match args with
  | [x; y] =>
      if CoordTree.is_number x && CoordTree.is_number y
      then Ok (PyTuple [shift x; shift y])
      else Raise TypeError
  | _ => Raise TypeError
  end.

(** A feature as the Processor forges it, with the given declared CRS code,
    natural key, version and position. *)
Definition feature (code : pyval) (key version : string) (coordinates : pyval) : pyval :=
  PyDict [("_id", PyStr ("lpis:fr:R24:" +++ key));
          ("type", PyStr "Feature");
          ("geometry", PyDict [("type", PyStr "Point"); ("coordinates", coordinates)]);
          ("properties",
           PyDict [("lpis", PyDict [("ID_PARCEL", PyStr key)]);
                   ("crs", PyDict [("type", PyStr "EPSG");
                                   ("properties", PyDict [("code", code)])]);
                   ("version", PyStr version)])].

Definition position : pyval := PyList [PyFloat (5 # 2); PyFloat (97 # 2)].

(** A feature that declares EPSG:4326 the way the Processor writes codes, as
    an integer. *)
Definition feature_4326 : pyval := feature (PyInt 4326) "123" "2016" position.

(** The same parcel as it is ingested from Lambert-93 (EPSG:2154), in its
    2016 and in its 2017 version, and another parcel. *)
Definition feature_2016 : pyval := feature (PyInt 2154) "123" "2016" position.
Definition feature_2017 : pyval := feature (PyInt 2154) "123" "2017" position.
Definition other_feature : pyval := feature (PyStr "4326") "456" "2016" position.

(** A feature with neither a [crs] entry nor a geometry. *)
Definition feature_without_crs : pyval :=
  PyDict [("_id", PyStr "lpis:fr:R24:7");
          ("type", PyStr "Feature");
          ("properties", PyDict [("version", PyStr "2016")])].

(** A feature in Lambert-93 that has lost its geometry. *)
Definition feature_without_geometry : pyval :=
  PyDict [("_id", PyStr "lpis:fr:R24:8");
          ("type", PyStr "Feature");
          ("properties",
           PyDict [("crs", PyDict [("type", PyStr "EPSG");
                                   ("properties", PyDict [("code", PyInt 2154)])]);
                   ("version", PyStr "2016")])].

(** Two features without a geometry: one names its CRS instead of giving an
    EPSG code, the other declares the target code as a text. *)
Definition feature_named_crs : pyval :=
  PyDict [("_id", PyStr "lpis:fr:R24:9");
          ("type", PyStr "Feature");
          ("properties",
           PyDict [("crs", PyDict [("type", PyStr "name");
                                   ("properties",
                                    PyDict [("name", PyStr "urn:ogc:def:crs:OGC:1.3:CRS84")])]);
                   ("version", PyStr "2016")])].

Definition feature_target_text : pyval :=
  PyDict [("_id", PyStr "lpis:fr:R24:10");
          ("type", PyStr "Feature");
          ("properties",
           PyDict [("crs", PyDict [("type", PyStr "EPSG");
                                   ("properties", PyDict [("code", PyStr "4326")])]);
                   ("version", PyStr "2016")])].

Definition ingestor (body : pyval) (c : Ingestor.collection)
  : retval * Ingestor.collection :=
  Ingestor.handler py_repr format_unexpected proj_known transform
    (Ingestor.load_configs env) true body c.

(** The coordinates of a polygon with one ring of three positions. *)
Definition ring : pyval :=
  PyList [PyList [PyList [PyFloat (1 # 2); PyInt 3];
                  PyList [PyFloat (3 # 2); PyInt 3];
                  PyList [PyFloat (1 # 2); PyFloat (7 # 2)]]].

End Examples.

(* ===================================================================== *)
(** * Properties of the Resolver *)
(* ===================================================================== *)

(** Unfolds the plumbing of a [try] block. *)
Ltac unfold_monad :=
  unfold bindM, raise_if, lift, modify, ret, raise, bind in *.

Lemma py_in_ints_int (n : Z) (ns : list Z) :
  py_in_ints (PyInt n) ns = true <-> In n ns.
Proof.
  unfold py_in_ints. rewrite existsb_exists. split.
  - intros [m [Hin Heq]]. simpl in Heq. apply Z.eqb_eq in Heq. now subst.
  - intros Hin. exists n. split; [assumption | simpl; apply Z.eqb_refl].
Qed.

Section ResolverProperties.

Context {unicode : Unicode}.

Variable py_repr : pyval -> string.
Variable format_unexpected : exn -> string.
Variable re_search : string -> string -> bool.
Variable scrape : string -> result (list (option string)).
Variable cfg : Resolver.FunctionConfig.

Let handler := Resolver.handler py_repr format_unexpected re_search scrape cfg.
Let region_code := Resolver.region_code py_repr.

Lemma region_code_overseas (n : Z) :
  In n [1; 2; 3; 4; 6] -> region_code (PyInt n) = "D97" +++ string_of_Z n.
Proof.
  intros Hin. unfold region_code, Resolver.region_code.
  apply py_in_ints_int in Hin. now rewrite Hin.
Qed.

Lemma region_code_mainland (n : Z) :
  ~ In n [1; 2; 3; 4; 6] -> region_code (PyInt n) = "R" +++ string_of_Z n.
Proof.
  intros Hout. unfold region_code, Resolver.region_code.
  destruct (py_in_ints (PyInt n) [1; 2; 3; 4; 6]) eqn:E; [| reflexivity].
  apply py_in_ints_int in E. contradiction.
Qed.

(** Whatever the handler produces is the download command of the request's
    year and region: its [sourceID] ends in the region code, its [version] is
    the request's [year]. *)
Lemma handler_produces (done_loading : bool) (body : pyval)
    (topic : option string) (cmd : pyval) :
  In (Resolver.Produce topic cmd) (snd (handler done_loading body)) ->
  exists year region,
    Resolver.parse_body body = Ok (year, region)
    /\ py_getitem cmd "sourceID"
       = Ok (PyStr (Resolver.source_id cfg +++ ":" +++ region_code region))
    /\ py_getitem cmd "version" = Ok year.
Proof.
  unfold handler, Resolver.handler, Resolver.try_block. unfold_monad.
  destruct done_loading; simpl.
  2: { intros []. }
  destruct (Resolver.parse_body body) as [[year region] | e] eqn:Hparse.
  2: { destruct e; intros []. }
  simpl. destruct (scrape _) as [hrefs | e].
  2: { destruct e; simpl; intros [H | []]; discriminate H. }
  destruct (negb (Nat.eqb _ 1)).
  { simpl. intros [H | []]. discriminate H. }
  destruct (negb (_ || _)).
  { simpl. intros [H | []]. discriminate H. }
  simpl. intros [H | [H | [H | []]]]; try discriminate H.
  injection H as _ Hcmd. subst cmd.
  exists year, region. repeat split.
Qed.

(** ** C5 *)

(** C5. For every valid Archive Request whose region is the integer [n], the
    region code the Resolver computes is ["D97"] followed by [n] exactly when
    [n] is one of 1, 2, 3, 4, 6, and ["R"] followed by [n] exactly when it is
    not; and it is this code that ends the [sourceID] of the command the
    handler produces. *)
Theorem resolver_region_code_rule (done_loading : bool) (body year : pyval) (n : Z) :
  Resolver.parse_body body = Ok (year, PyInt n) ->
  (In n [1; 2; 3; 4; 6] <->
     Resolver.region_code py_repr (PyInt n) = "D97" +++ string_of_Z n)
  /\ (~ In n [1; 2; 3; 4; 6] <->
        Resolver.region_code py_repr (PyInt n) = "R" +++ string_of_Z n)
  /\ (forall topic cmd,
        In (Resolver.Produce topic cmd)
           (snd (Resolver.handler py_repr format_unexpected re_search scrape cfg
                   done_loading body)) ->
        py_getitem cmd "sourceID"
        = Ok (PyStr (Resolver.source_id cfg +++ ":"
                       +++ Resolver.region_code py_repr (PyInt n)))).
Proof.
  intros Hparse. split; [| split].
  - split; [apply region_code_overseas |].
    intros Hcode. destruct (in_dec Z.eq_dec n [1; 2; 3; 4; 6]) as [Hin | Hout];
      [exact Hin |].
    fold region_code in Hcode. rewrite (region_code_mainland n Hout) in Hcode.
    discriminate Hcode.
  - split; [apply region_code_mainland |].
    intros Hcode Hin.
    fold region_code in Hcode. rewrite (region_code_overseas n Hin) in Hcode.
    discriminate Hcode.
  - intros topic cmd Hin.
    destruct (handler_produces _ _ _ _ Hin) as [y [r [Hp [Hsrc _]]]].
    rewrite Hparse in Hp. injection Hp as _ Hr. subst r. exact Hsrc.
Qed.

(** ** C7 *)

(** A request without [year] is answered 400. *)
Lemma resolver_missing_year (entries : list (string * pyval)) :
  dict_get entries "year" = None ->
  handler true (PyDict entries)
  = (Resolver.as_response "Missing 'year' attribute !" codes.bad, []).
Proof.
  intros Hy. unfold handler, Resolver.handler, Resolver.try_block. unfold_monad.
  simpl. unfold Resolver.parse_body. simpl. unfold dict_has. now rewrite Hy.
Qed.

(** A request with a year that converts to a non-zero integer and without
    [region] is answered 400. *)
Lemma resolver_missing_region (entries : list (string * pyval)) (y : pyval) (n : Z) :
  dict_get entries "year" = Some y ->
  py_int y = Ok n ->
  n <> 0 ->
  dict_get entries "region" = None ->
  handler true (PyDict entries)
  = (Resolver.as_response "Missing 'region' attribute !" codes.bad, []).
Proof.
  intros Hy Hint Hn Hr. unfold handler, Resolver.handler, Resolver.try_block.
  unfold_monad. simpl. unfold Resolver.parse_body. simpl. unfold dict_has.
  rewrite Hy. simpl. rewrite Hint. simpl.
  apply Z.eqb_neq in Hn. rewrite Hn. now rewrite Hr.
Qed.

(** A year that is a [str] and no integer literal makes [int] raise
    [ValueError]; the handler's last [except] clause answers 500. *)
Lemma resolver_unparsable_year (entries : list (string * pyval)) (s : string) :
  dict_get entries "year" = Some (PyStr s) ->
  int_of_string s = None ->
  handler true (PyDict entries)
  = (Resolver.as_response (format_unexpected ValueError) codes.internal_server_error,
     []).
Proof.
  intros Hy Hint. unfold handler, Resolver.handler, Resolver.try_block.
  unfold_monad. simpl. unfold Resolver.parse_body. simpl. unfold dict_has.
  rewrite Hy. simpl. now rewrite Hint.
Qed.

(** C7, at the request [{"year": "abc", "region": 24}] with the service
    ready: [int("abc")] raises [ValueError] inside [parse_body], no
    [NuclioResponseError] is built, and the handler answers with status 500,
    not 400; nothing is fetched or produced. *)
Theorem resolver_non_numeric_year_is_500 :
  Resolver.handler py_repr format_unexpected re_search scrape cfg true
    Examples.request_abc_24
  = (Resolver.as_response (format_unexpected ValueError) codes.internal_server_error,
     [])
  /\ status_code
       (fst (Resolver.handler py_repr format_unexpected re_search scrape cfg true
               Examples.request_abc_24)) = 500.
Proof.
  assert (H : handler true Examples.request_abc_24
              = (Resolver.as_response (format_unexpected ValueError)
                   codes.internal_server_error, [])).
  { apply resolver_unparsable_year with (s := "abc"); reflexivity. }
  unfold handler in H. rewrite H. split; reflexivity.
Qed.

(** ** C8 *)

(** The handler's run when the catalog has exactly one link that matches the
    archive pattern and ends as a 7z archive does. *)
Lemma handler_one_link (body year region : pyval) (hrefs : list (option string))
    (link : string) :
  Resolver.parse_body body = Ok (year, region) ->
  scrape (Resolver.lpis_fr_ign_rpg_url cfg) = Ok hrefs ->
  map Resolver.href_of
    (filter (Resolver.is_archive_link re_search
               (Resolver.archive_regex py_repr year (region_code region))) hrefs)
  = [link] ->
  endswith link "7z" || endswith link "7z.001" = true ->
  handler true body
  = ({| body := PyDict [("message",
                         PyStr ("Archive '" +++ link
                                  +++ "' successfully submitted for ingestion"))];
        content_type := "application/json";
        status_code := codes.ok |},
     [Resolver.Get (Resolver.lpis_fr_ign_rpg_url cfg);
      Resolver.Produce (Resolver.target_topic cfg)
        (PyDict [("format", PyStr "7z");
                 ("url", PyStr link);
                 ("sourceID",
                  PyStr (Resolver.source_id cfg +++ ":" +++ region_code region));
                 ("parcelIdField", PyStr (Resolver.parcel_id_field cfg));
                 ("normalizedProperties", Resolver.normalized_parcel_properties cfg);
                 ("version", year)]);
      Resolver.Flush]).
Proof.
  intros Hparse Hscrape Hlinks Hends.
  unfold handler, Resolver.handler, Resolver.try_block. unfold_monad.
  simpl. rewrite Hparse. simpl. rewrite Hscrape.
  fold region_code. rewrite Hlinks. simpl. rewrite Hends. reflexivity.
Qed.

(** Discovery fails, and nothing is produced, when the catalog has no link
    or several links that match the archive pattern: the handler answers
    400 after the one catalog request. *)
Lemma resolver_discovery_needs_one_link (body year region : pyval)
    (hrefs : list (option string)) :
  Resolver.parse_body body = Ok (year, region) ->
  scrape (Resolver.lpis_fr_ign_rpg_url cfg) = Ok hrefs ->
  List.length
    (filter (Resolver.is_archive_link re_search
               (Resolver.archive_regex py_repr year
                  (Resolver.region_code py_repr region))) hrefs) <> 1%nat ->
  Resolver.handler py_repr format_unexpected re_search scrape cfg true body
  = (Resolver.as_response
       ("Failed to scrape French LPIS archive for year '" +++ py_str py_repr year
          +++ "' and region '" +++ Resolver.region_code py_repr region
          +++ "' (not found)") 400,
     [Resolver.Get (Resolver.lpis_fr_ign_rpg_url cfg)]).
Proof.
  intros Hparse Hscrape Hlinks.
  unfold Resolver.handler, Resolver.try_block. unfold_monad.
  simpl. rewrite Hparse. simpl. rewrite Hscrape.
  rewrite length_map. apply Nat.eqb_neq in Hlinks. now rewrite Hlinks.
Qed.

End ResolverProperties.

(** C8, as the code has it. For the Archive Request [{year: 2016, region:
    24}], when the catalog has exactly one link that matches the archive
    pattern and it ends in [7z] or [7z.001], the Resolver answers 200 after
    producing one Download Command, flushed, whose [sourceID] is
    ["lpis:fr:R24"] and whose [version] is the request's year as received, the
    integer 2016; it is the Processor's [parse_body] that turns it into the
    text ["2016"]. *)
Theorem resolver_2016_24_command
    (py_repr : pyval -> string) (format_unexpected : exn -> string)
    (re_search : string -> string -> bool)
    (scrape : string -> result (list (option string)))
    (env : string -> option string)
    (hrefs : list (option string)) (link : string) :
  scrape (Resolver.lpis_fr_ign_rpg_url (Resolver.load_configs env)) = Ok hrefs ->
  map Resolver.href_of
    (filter (Resolver.is_archive_link re_search
               (Resolver.archive_regex py_repr (PyInt 2016) "R24")) hrefs)
  = [link] ->
  endswith link "7z" || endswith link "7z.001" = true ->
  exists cmd b,
    Resolver.handler py_repr format_unexpected re_search scrape
      (Resolver.load_configs env) true Examples.request_2016_24
    = ({| body := PyDict [("message",
                           PyStr ("Archive '" +++ link
                                    +++ "' successfully submitted for ingestion"))];
          content_type := "application/json";
          status_code := 200 |},
       [Resolver.Get (Resolver.lpis_fr_ign_rpg_url (Resolver.load_configs env));
        Resolver.Produce (env "TARGET_TOPIC") cmd;
        Resolver.Flush])
    /\ py_getitem cmd "sourceID" = Ok (PyStr "lpis:fr:R24")
    /\ py_getitem cmd "version" = Ok (PyInt 2016)
    /\ Processor.parse_body py_repr cmd = Ok b
    /\ Processor.version b = "2016".
Proof.
  intros Hscrape Hlinks Hends.
  eexists. eexists. split.
  - apply (handler_one_link py_repr format_unexpected re_search scrape
             (Resolver.load_configs env) Examples.request_2016_24
             (PyInt 2016) (PyInt 24) hrefs link);
      [reflexivity | exact Hscrape | exact Hlinks | exact Hends].
  - repeat split.
Qed.

Lemma resolver_region_code_rule_witness :
  Resolver.parse_body Examples.request_2016_4 = Ok (PyInt 2016, PyInt 4)
  /\ Resolver.region_code Examples.py_repr (PyInt 4) = "D97" +++ string_of_Z 4.
Proof.
  split; [reflexivity |].
  destruct (resolver_region_code_rule Examples.py_repr Examples.format_unexpected
              Regex.re_search Examples.scrape (Resolver.load_configs Examples.env)
              true Examples.request_2016_4 (PyInt 2016) 4 eq_refl) as [[Hoverseas _] _].
  apply Hoverseas. simpl. auto.
Defined.

Lemma resolver_2016_24_command_witness :
  exists cmd b,
    Examples.resolver Examples.request_2016_24
    = ({| body :=
            PyDict [("message",
                     PyStr ("Archive '"
                              +++ "https://wxs.ign.fr/rpg/RPG_2-0__SHP_LAMB93_R24-2016_2016-01-01.7z.001"
                              +++ "' successfully submitted for ingestion"))];
          content_type := "application/json";
          status_code := 200 |},
       [Resolver.Get "http://professionnels.ign.fr/rpg";
        Resolver.Produce (Some "lpis") cmd;
        Resolver.Flush])
    /\ py_getitem cmd "sourceID" = Ok (PyStr "lpis:fr:R24")
    /\ py_getitem cmd "version" = Ok (PyInt 2016)
    /\ Processor.parse_body Examples.py_repr cmd = Ok b
    /\ Processor.version b = "2016".
Proof.
  apply (resolver_2016_24_command Examples.py_repr Examples.format_unexpected
           Regex.re_search Examples.scrape Examples.env Examples.catalog
           "https://wxs.ign.fr/rpg/RPG_2-0__SHP_LAMB93_R24-2016_2016-01-01.7z.001");
    vm_compute; reflexivity.
Defined.

(** C8 as stated fails: on a catalog with exactly one link matching the
    archive pattern of region 24 and year 2016, the Download Command the
    Resolver produces carries the [sourceID] ["lpis:fr:R24"], but its
    [version] is the integer 2016 and not the text ["2016"]. *)
Lemma resolver_version_is_not_text :
  map Resolver.href_of
    (filter (Resolver.is_archive_link Regex.re_search
               (Resolver.archive_regex Examples.py_repr (PyInt 2016) "R24"))
       Examples.catalog)
  = ["https://wxs.ign.fr/rpg/RPG_2-0__SHP_LAMB93_R24-2016_2016-01-01.7z.001"]
  /\ exists cmd,
       snd (Examples.resolver Examples.request_2016_24)
       = [Resolver.Get "http://professionnels.ign.fr/rpg";
          Resolver.Produce (Some "lpis") cmd;
          Resolver.Flush]
       /\ py_getitem cmd "sourceID" = Ok (PyStr "lpis:fr:R24")
       /\ py_getitem cmd "version" = Ok (PyInt 2016)
       /\ py_getitem cmd "version" <> Ok (PyStr "2016").
Proof.
  split; [vm_compute; reflexivity |].
  eexists. split; [vm_compute; reflexivity |].
  repeat split. discriminate.
Qed.

(* ===================================================================== *)
(** * Properties of the Ingestor *)
(* ===================================================================== *)

(** Induction on a value with the hypothesis for every element of a list or
    tuple. *)
Lemma pyval_elements_ind (P : pyval -> Prop) :
  P PyNone ->
  (forall b, P (PyBool b)) ->
  (forall n, P (PyInt n)) ->
  (forall q, P (PyFloat q)) ->
  (forall s, P (PyStr s)) ->
  (forall items, Forall P items -> P (PyList items)) ->
  (forall items, Forall P items -> P (PyTuple items)) ->
  (forall entries, P (PyDict entries)) ->
  forall v, P v.
Proof.
  intros HNone HBool HInt HFloat HStr HList HTuple HDict.
  fix IH 1. intros [| b | n | q | s | items | items | entries].
  - exact HNone.
  - apply HBool.
  - apply HInt.
  - apply HFloat.
  - apply HStr.
  - apply HList. induction items as [| x xs IHxs]; constructor; [apply IH | exact IHxs].
  - apply HTuple. induction items as [| x xs IHxs]; constructor; [apply IH | exact IHxs].
  - apply HDict.
Qed.

Import CoordTree.

Lemma coord_tree_is_list (t : pyval) :
  is_coord_tree t = true -> exists items, t = PyList items.
Proof. destruct t; simpl; try discriminate. intros _. now eexists. Qed.

Lemma pair_is_no_tree_sequence (items : list pyval) :
  is_pair items = true -> forallb is_coord_tree items = false.
Proof.
  destruct items as [| x [| y [| z rest]]]; simpl; try discriminate.
  destruct x; simpl; try discriminate; reflexivity.
Qed.

Lemma max_depth_map (f : pyval -> pyval) (items : list pyval) :
  Forall (fun c => depth (f c) = depth c) items ->
  fold_right Nat.max 0%nat (map depth (map f items))
  = fold_right Nat.max 0%nat (map depth items).
Proof.
  induction 1 as [| c cs Hc _ IH]; simpl; [reflexivity |].
  now rewrite Hc, IH.
Qed.

Section Reprojection.

Variable transform : string -> string -> list pyval -> result pyval.
Variables source_proj target_proj : string.

(** What pyproj is taken to do on a pair of numbers: it returns the tuple of
    the two transformed numbers [tp x y]. *)
Variable tp : pyval -> pyval -> pyval * pyval.

Hypothesis transform_pair :
  forall x y,
    is_number x = true -> is_number y = true ->
    transform source_proj target_proj [x; y]
    = Ok (PyTuple [fst (tp x y); snd (tp x y)])
    /\ is_number (fst (tp x y)) = true
    /\ is_number (snd (tp x y)) = true.

Let reproject := Ingestor.reproject_coordinates transform source_proj target_proj.
Let rebuilt := transform_pairs (fun x y => PyTuple [fst (tp x y); snd (tp x y)]).

(** The loop over a sequence of trees never leaves early: it appends the
    reprojection of each element. *)
Lemma reproject_loop_trees (transformed : result pyval) (cs : list pyval) :
  Forall (fun c => is_coord_tree c = true -> reproject c = Ok (rebuilt c)) cs ->
  forallb is_coord_tree cs = true ->
  forall new_coords,
    Ingestor.reproject_loop reproject transformed cs new_coords
    = Ok (PyList (new_coords ++ map rebuilt cs)).
Proof.
  induction 1 as [| c cs Hc _ IH]; simpl; intros Hall new_coords.
  - now rewrite app_nil_r.
  - apply andb_prop in Hall as [Htree Hrest].
    destruct (coord_tree_is_list c Htree) as [items ->].
    rewrite (Hc Htree). simpl bind.
    rewrite (IH Hrest). now rewrite <- app_assoc.
Qed.

Lemma reproject_tree (t : pyval) :
  is_coord_tree t = true -> reproject t = Ok (rebuilt t).
Proof.
  induction t as [| | | | | items IH | items _ |] using pyval_elements_ind;
    try discriminate.
  intros Htree. simpl in Htree.
  unfold reproject, rebuilt. simpl.
  destruct (is_pair items) eqn:Hpair.
  - destruct items as [| x [| y [| z rest]]]; try discriminate.
    simpl in Hpair. apply andb_prop in Hpair as [Hx Hy].
    destruct (transform_pair x y Hx Hy) as [Htr _].
    destruct x; try discriminate; simpl; exact Htr.
  - simpl in Htree.
    fold reproject. rewrite (reproject_loop_trees _ items IH Htree). reflexivity.
Qed.

Lemma rebuilt_skeleton (t : pyval) :
  is_coord_tree t = true -> skeleton (rebuilt t) = skeleton t.
Proof.
  induction t as [| | | | | items IH | items _ |] using pyval_elements_ind;
    try discriminate.
  intros Htree. simpl in Htree. unfold rebuilt. simpl.
  destruct (is_pair items) eqn:Hpair.
  - destruct items as [| x [| y [| z rest]]]; try discriminate.
    simpl in Hpair. apply andb_prop in Hpair as [Hx Hy].
    destruct (transform_pair x y Hx Hy) as [_ [Hx' Hy']].
    simpl. destruct (fst (tp x y)), (snd (tp x y)), x, y; try discriminate; reflexivity.
  - simpl in Htree. simpl. f_equal. fold rebuilt.
    rewrite map_map. apply map_ext_in. intros c Hin.
    rewrite Forall_forall in IH. apply IH; [assumption |].
    rewrite forallb_forall in Htree. now apply Htree.
Qed.

Lemma rebuilt_depth (t : pyval) :
  is_coord_tree t = true -> depth (rebuilt t) = depth t.
Proof.
  induction t as [| | | | | items IH | items _ |] using pyval_elements_ind;
    try discriminate.
  intros Htree. simpl in Htree. unfold rebuilt. simpl.
  destruct (is_pair items) eqn:Hpair.
  - destruct items as [| x [| y [| z rest]]]; try discriminate.
    simpl in Hpair. apply andb_prop in Hpair as [Hx Hy].
    destruct (transform_pair x y Hx Hy) as [_ [Hx' Hy']].
    simpl. destruct (fst (tp x y)), (snd (tp x y)), x, y; try discriminate; reflexivity.
  - simpl in Htree. simpl. f_equal. fold rebuilt.
    apply max_depth_map. rewrite Forall_forall in *. intros c Hin.
    apply IH; [assumption |]. rewrite forallb_forall in Htree. now apply Htree.
Qed.

End Reprojection.

(** ** C4 *)

(** C4. On every well-formed coordinate tree, and for a [transform] that
    returns the tuple of the two transformed numbers on every pair of
    numbers, [reproject_coordinates] returns a tree; it is the input with
    every flat pair transformed and nothing else changed, and it has the
    nesting structure and the depth of the input. *)
Theorem reprojection_preserves_nesting
    (transform : string -> string -> list pyval -> result pyval)
    (source_proj target_proj : string)
    (tp : pyval -> pyval -> pyval * pyval) (t : pyval) :
  (forall x y,
      is_number x = true -> is_number y = true ->
      transform source_proj target_proj [x; y]
      = Ok (PyTuple [fst (tp x y); snd (tp x y)])
      /\ is_number (fst (tp x y)) = true
      /\ is_number (snd (tp x y)) = true) ->
  is_coord_tree t = true ->
  exists t',
    Ingestor.reproject_coordinates transform source_proj target_proj t = Ok t'
    /\ t' = transform_pairs (fun x y => PyTuple [fst (tp x y); snd (tp x y)]) t
    /\ skeleton t' = skeleton t
    /\ depth t' = depth t.
Proof.
  intros Htransform Htree. eexists. split; [| split; [reflexivity | split]].
  - now apply reproject_tree with (tp := tp).
  - now apply rebuilt_skeleton with (transform := transform)
                                    (source_proj := source_proj)
                                    (target_proj := target_proj).
  - now apply rebuilt_depth with (transform := transform)
                                 (source_proj := source_proj)
                                 (target_proj := target_proj).
Qed.

Lemma examples_transform_pair (source_proj target_proj : string) (x y : pyval) :
  is_number x = true -> is_number y = true ->
  Examples.transform source_proj target_proj [x; y]
  = Ok (PyTuple [Examples.shift x; Examples.shift y])
  /\ is_number (Examples.shift x) = true
  /\ is_number (Examples.shift y) = true.
Proof.
  intros Hx Hy. unfold Examples.transform. rewrite Hx, Hy.
  destruct x, y; try discriminate; repeat split.
Defined.

Lemma reprojection_preserves_nesting_witness :
  exists t',
    Ingestor.reproject_coordinates Examples.transform "EPSG:2154" "EPSG:4326"
      Examples.ring = Ok t'
    /\ t' = transform_pairs
              (fun x y => PyTuple [Examples.shift x; Examples.shift y]) Examples.ring
    /\ skeleton t' = skeleton Examples.ring
    /\ depth t' = depth Examples.ring.
Proof.
  apply (reprojection_preserves_nesting Examples.transform "EPSG:2154" "EPSG:4326"
           (fun x y => (Examples.shift x, Examples.shift y)) Examples.ring).
  - apply examples_transform_pair.
  - reflexivity.
Defined.

(** ** The handler, case by case *)

Lemma dict_get_set_other (entries : list (string * pyval)) (k k' : string) (v : pyval) :
  k' <> k -> dict_get (dict_set entries k v) k' = dict_get entries k'.
Proof.
  intros Hne. induction entries as [| [k0 v0] rest IH]; simpl.
  - destruct (String.eqb_spec k k'); [congruence | reflexivity].
  - destruct (String.eqb_spec k0 k) as [-> | Hk0]; simpl.
    + destruct (String.eqb_spec k k'); [congruence | reflexivity].
    + destruct (String.eqb_spec k0 k'); [reflexivity | exact IH].
Qed.

Lemma py_setitem_other (d d' : pyval) (k k' : string) (v : pyval) :
  py_setitem d k v = Ok d' -> k' <> k -> py_getitem d' k' = py_getitem d k'.
Proof.
  destruct d; simpl; try discriminate.
  intros H Hne. injection H as <-. simpl. now rewrite dict_get_set_other.
Qed.

Lemma py_getitem_has_id (doc : pyval) (id : string) :
  py_getitem doc "_id" = Ok (PyStr id) -> Ingestor.has_id (PyStr id) doc = true.
Proof.
  destruct doc; simpl; try discriminate.
  destruct (dict_get entries "_id") as [v |]; [| discriminate].
  intros H. injection H as ->. simpl. apply String.eqb_refl.
Qed.

(** The collection after the upsert of [doc] under [id]. *)
Definition upsert (id doc : pyval) (c : Ingestor.collection) : Ingestor.collection :=
  snd (Ingestor.replace_one id doc c).

Lemma upsert_nil (id doc : pyval) : upsert id doc [] = [doc].
Proof. reflexivity. Qed.

Lemma upsert_cons (id doc d : pyval) (c : Ingestor.collection) :
  upsert id doc (d :: c)
  = if Ingestor.has_id id d then doc :: c else d :: upsert id doc c.
Proof.
  unfold upsert, Ingestor.replace_one. simpl.
  destruct (Ingestor.has_id id d); [reflexivity |].
  destruct (Ingestor.replace_first id doc c); reflexivity.
Qed.

(** After the upsert the collection holds [doc], and no other document, under
    [id], provided it held at most one before. *)
Lemma upsert_unique (id doc : pyval) (c : Ingestor.collection) :
  Ingestor.has_id id doc = true ->
  (List.length (filter (Ingestor.has_id id) c) <= 1)%nat ->
  filter (Ingestor.has_id id) (upsert id doc c) = [doc].
Proof.
  intros Hdoc. induction c as [| d c IH]; intros Hlen.
  - rewrite upsert_nil. simpl. now rewrite Hdoc.
  - rewrite upsert_cons. simpl in Hlen.
    destruct (Ingestor.has_id id d) eqn:Hd; simpl.
    + rewrite Hdoc. f_equal. simpl in Hlen.
      destruct (filter (Ingestor.has_id id) c); [reflexivity | simpl in Hlen; lia].
    + rewrite Hd. now apply IH.
Qed.

(** The documents with another [_id] stay as they were, in their order. *)
Lemma upsert_others (id doc : pyval) (c : Ingestor.collection) :
  Ingestor.has_id id doc = true ->
  filter (fun d => negb (Ingestor.has_id id d)) (upsert id doc c)
  = filter (fun d => negb (Ingestor.has_id id d)) c.
Proof.
  intros Hdoc. induction c as [| d c IH].
  - rewrite upsert_nil. simpl. now rewrite Hdoc.
  - rewrite upsert_cons. destruct (Ingestor.has_id id d) eqn:Hd; simpl.
    + now rewrite Hdoc, Hd.
    + rewrite Hd. simpl. now rewrite IH.
Qed.

(** A replacement leaves the number of documents as it was; an insertion adds
    one. *)
Lemma upsert_length (id doc : pyval) (c : Ingestor.collection) :
  List.length (upsert id doc c)
  = if existsb (Ingestor.has_id id) c then List.length c else S (List.length c).
Proof.
  induction c as [| d c IH]; [reflexivity |].
  rewrite upsert_cons. simpl. destruct (Ingestor.has_id id d); simpl; [reflexivity |].
  rewrite IH. now destruct (existsb (Ingestor.has_id id) c).
Qed.

Section IngestorProperties.

Variable py_repr : pyval -> string.
Variable format_unexpected : exn -> string.
Variable proj_known : string -> bool.
Variable transform : string -> string -> list pyval -> result pyval.
Variable cfg : Ingestor.FunctionConfig.

Let handler := Ingestor.handler py_repr format_unexpected proj_known transform cfg.
Let reproject_if_needed := Ingestor.reproject_if_needed py_repr proj_known transform cfg.

(** The response of the two [except] clauses. *)
Definition ingestor_error (error : exn) : retval :=
  match error with
  | NuclioResponseError description status =>
      RResponse (Ingestor.as_response description status)
  | _ => RResponse (Ingestor.as_response (format_unexpected error)
                      codes.internal_server_error)
  end.

Lemma handler_ready (body : pyval) (c : Ingestor.collection) :
  handler true body c
  = match py_getitem body "_id" with
    | Raise e => (ingestor_error e, c)
    | Ok id =>
        match reproject_if_needed body with
        | Raise e => (ingestor_error e, c)
        | Ok doc => (RValue PyNone, upsert id doc c)
        end
    end.
Proof.
  unfold handler, Ingestor.handler, Ingestor.try_block, upsert. unfold_monad. simpl.
  destruct (py_getitem body "_id") as [id | e]; [| destruct e; reflexivity].
  fold reproject_if_needed.
  destruct (reproject_if_needed body) as [doc | e]; [| destruct e; reflexivity].
  unfold Ingestor.replace_one.
  destruct (Ingestor.replace_first id doc c); reflexivity.
Qed.

Lemma handler_not_ready (body : pyval) (c : Ingestor.collection) :
  handler false body c
  = (RResponse (Ingestor.as_response
                  "The service is loading and is temporarily unavailable."
                  codes.unavailable), c).
Proof. reflexivity. Qed.

(** A successful run upserts, under the body's [_id], the body as the
    reprojection step left it. *)
Lemma handler_success (done_loading : bool) (body : pyval) (c c' : Ingestor.collection) :
  handler done_loading body c = (RValue PyNone, c') ->
  exists id doc,
    py_getitem body "_id" = Ok id
    /\ reproject_if_needed body = Ok doc
    /\ c' = upsert id doc c.
Proof.
  destruct done_loading; [| rewrite handler_not_ready; discriminate].
  rewrite handler_ready.
  destruct (py_getitem body "_id") as [id | e]; [| destruct e; discriminate].
  destruct (reproject_if_needed body) as [doc | e]; [| destruct e; discriminate].
  intros H. injection H as <-. now exists id, doc.
Qed.

(** The reprojection step touches the [geometry] entry only. *)
Lemma reproject_if_needed_frame (body doc : pyval) (k : string) :
  reproject_if_needed body = Ok doc ->
  k <> "geometry" ->
  py_getitem doc k = py_getitem body k.
Proof.
  unfold reproject_if_needed, Ingestor.reproject_if_needed, bind.
  intros H Hk.
  repeat match type of H with
         | match ?x with _ => _ end = _ => destruct x eqn:?; try discriminate H
         end;
    try (injection H as <-; reflexivity).
  eapply py_setitem_other; eassumption.
Qed.

(** ** C1 *)

(** Where no transformation is needed: the reprojection step hands the body
    over as it is when its CRS is of another type than EPSG, and when its
    EPSG code is the text of the target code. The geometry is not read. *)
Lemma reproject_not_needed (entries props : list (string * pyval))
    (crs crs_type : pyval) :
  dict_get entries "properties" = Some (PyDict props) ->
  dict_get props "crs" = Some crs ->
  py_getitem crs "type" = Ok crs_type ->
  py_eq_str crs_type "EPSG" = false
  \/ (exists crs_properties code,
         py_getitem crs "properties" = Ok crs_properties
         /\ py_getitem crs_properties "code" = Ok code
         /\ py_eq_str code (Ingestor.target_crs_epsg_code cfg) = true) ->
  reproject_if_needed (PyDict entries) = Ok (PyDict entries).
Proof.
  intros Hprops Hcrs Htype Hcase.
  unfold reproject_if_needed, Ingestor.reproject_if_needed.
  simpl. rewrite Hprops. simpl. unfold dict_has. rewrite Hcrs. simpl.
  rewrite Htype. simpl.
  destruct Hcase as [Hother | [crs_properties [code [Hcp [Hcode Hsame]]]]].
  - now rewrite Hother.
  - destruct (py_eq_str crs_type "EPSG"); [| reflexivity].
    rewrite Hcp. simpl. rewrite Hcode. simpl. now rewrite Hsame.
Qed.

(** The identity law as the handler has it: a feature that declares, as an
    EPSG code, the very text of the target code is upserted unchanged, its
    geometry exactly as received if it has one; the outcome is the same
    whatever pyproj knows or does, which is not called. *)
Lemma ingestor_same_text_code_is_identity (entries props : list (string * pyval))
    (id crs crs_properties : pyval) (c : Ingestor.collection) :
  dict_get entries "_id" = Some id ->
  dict_get entries "properties" = Some (PyDict props) ->
  dict_get props "crs" = Some crs ->
  py_getitem crs "type" = Ok (PyStr "EPSG") ->
  py_getitem crs "properties" = Ok crs_properties ->
  py_getitem crs_properties "code" = Ok (PyStr (Ingestor.target_crs_epsg_code cfg)) ->
  Ingestor.handler py_repr format_unexpected proj_known transform cfg true
    (PyDict entries) c
  = (RValue PyNone, snd (Ingestor.replace_one id (PyDict entries) c)).
Proof.
  intros Hid Hprops Hcrs Htype Hcp Hcode.
  fold handler. rewrite handler_ready. cbn [py_getitem]. rewrite Hid.
  rewrite (reproject_not_needed _ _ _ _ Hprops Hcrs Htype); [reflexivity |].
  right. exists crs_properties, (PyStr (Ingestor.target_crs_epsg_code cfg)).
  repeat split; try assumption. cbn [py_eq_str]. apply String.eqb_refl.
Qed.

(** A feature whose CRS code is an integer is always taken for a feature to
    reproject, whatever the target code: the target code is a text. *)
Lemma integer_code_differs_from_target (n : Z) :
  py_eq_str (PyInt n) (Ingestor.target_crs_epsg_code cfg) = false.
Proof. reflexivity. Qed.

(** ** C9 *)

(** C9, as the code has it. A feature whose properties have no [crs] entry is
    no error: it is upserted exactly as received, with or without a
    geometry. A missing [geometry], or a geometry without [coordinates], is
    answered with status 500 and nothing written to the store only when the
    feature declares a CRS of type EPSG whose code is not the text of the
    target code: a feature whose CRS is of another type, and a feature whose
    EPSG code is the text of the target code, are upserted exactly as
    received as well, with or without a geometry. *)
Theorem ingestor_missing_crs_or_geometry
    (entries props : list (string * pyval)) (id : pyval) (c : Ingestor.collection) :
  dict_get entries "_id" = Some id ->
  dict_get entries "properties" = Some (PyDict props) ->
  (dict_get props "crs" = None ->
     Ingestor.handler py_repr format_unexpected proj_known transform cfg true
       (PyDict entries) c
     = (RValue PyNone, snd (Ingestor.replace_one id (PyDict entries) c)))
  /\ (forall crs crs_props code,
         dict_get props "crs" = Some (PyDict crs) ->
         dict_get crs "type" = Some (PyStr "EPSG") ->
         dict_get crs "properties" = Some (PyDict crs_props) ->
         dict_get crs_props "code" = Some code ->
         py_eq_str code (Ingestor.target_crs_epsg_code cfg) = false ->
         dict_get entries "geometry" = None
         \/ (exists geometry,
                dict_get entries "geometry" = Some (PyDict geometry)
                /\ dict_get geometry "coordinates" = None) ->
         exists error,
           Ingestor.handler py_repr format_unexpected proj_known transform cfg true
             (PyDict entries) c
           = (RResponse (Ingestor.as_response (format_unexpected error) 500), c))
  /\ (forall crs crs_type,
         dict_get props "crs" = Some crs ->
         py_getitem crs "type" = Ok crs_type ->
         py_eq_str crs_type "EPSG" = false ->
         Ingestor.handler py_repr format_unexpected proj_known transform cfg true
           (PyDict entries) c
         = (RValue PyNone, snd (Ingestor.replace_one id (PyDict entries) c)))
  /\ (forall crs crs_type crs_properties code,
         dict_get props "crs" = Some crs ->
         py_getitem crs "type" = Ok crs_type ->
         py_eq_str crs_type "EPSG" = true ->
         py_getitem crs "properties" = Ok crs_properties ->
         py_getitem crs_properties "code" = Ok code ->
         py_eq_str code (Ingestor.target_crs_epsg_code cfg) = true ->
         Ingestor.handler py_repr format_unexpected proj_known transform cfg true
           (PyDict entries) c
         = (RValue PyNone, snd (Ingestor.replace_one id (PyDict entries) c))).
Proof.
  intros Hid Hprops. split; [| split; [| split]].
  3: { intros crs crs_type Hcrs Htype Hother.
       fold handler. rewrite handler_ready. cbn [py_getitem]. rewrite Hid.
       rewrite (reproject_not_needed _ _ _ _ Hprops Hcrs Htype); [reflexivity |].
       now left. }
  3: { intros crs crs_type crs_properties code Hcrs Htype _ Hcp Hcode Hsame.
       fold handler. rewrite handler_ready. cbn [py_getitem]. rewrite Hid.
       rewrite (reproject_not_needed _ _ _ _ Hprops Hcrs Htype); [reflexivity |].
       right. now exists crs_properties, code. }
  - intros Hcrs. fold handler. rewrite handler_ready. simpl. rewrite Hid.
    unfold reproject_if_needed, Ingestor.reproject_if_needed. simpl.
    rewrite Hprops. simpl. unfold dict_has. rewrite Hcrs. reflexivity.
  - intros crs crs_props code Hcrs Htype Hcp Hcode Hne Hgeometry.
    fold handler. rewrite handler_ready. simpl. rewrite Hid.
    unfold reproject_if_needed, Ingestor.reproject_if_needed. simpl.
    rewrite Hprops. simpl. unfold dict_has. rewrite Hcrs. simpl.
    rewrite Htype. simpl. rewrite Hcp. simpl. rewrite Hcode. simpl.
    rewrite Hne. simpl. unfold Ingestor.Proj.
    destruct (proj_known _); [| eexists; reflexivity].
    destruct (proj_known _); [| eexists; reflexivity].
    simpl. destruct Hgeometry as [Hg | [geometry [Hg Hc]]]; rewrite Hg; simpl.
    + eexists; reflexivity.
    + rewrite Hc. eexists; reflexivity.
Qed.

(** ** C3 *)

(** C3. Let the collection hold at most one document under a feature id, as
    the store's unique index on [_id] has it. When the Ingestor has ingested
    a feature with this id and then ingests another one with the same id, the
    collection holds under this id exactly one document; it is the second
    feature as its own reprojection step left it, with (besides the [_id])
    the properties and every other entry but the geometry just as the second
    feature has them; the number of documents is unchanged by the second
    ingestion, and the documents with other ids are untouched by both. *)
Theorem ingestor_upsert_replaces
    (c c1 c2 : Ingestor.collection) (id : string) (body1 body2 : pyval) :
  (List.length (filter (Ingestor.has_id (PyStr id)) c) <= 1)%nat ->
  py_getitem body1 "_id" = Ok (PyStr id) ->
  py_getitem body2 "_id" = Ok (PyStr id) ->
  Ingestor.handler py_repr format_unexpected proj_known transform cfg true body1 c
  = (RValue PyNone, c1) ->
  Ingestor.handler py_repr format_unexpected proj_known transform cfg true body2 c1
  = (RValue PyNone, c2) ->
  exists doc1 doc2,
    filter (Ingestor.has_id (PyStr id)) c1 = [doc1]
    /\ filter (Ingestor.has_id (PyStr id)) c2 = [doc2]
    /\ Ingestor.reproject_if_needed py_repr proj_known transform cfg body2 = Ok doc2
    /\ py_getitem doc2 "properties" = py_getitem body2 "properties"
    /\ (forall k, k <> "geometry" -> py_getitem doc2 k = py_getitem body2 k)
    /\ List.length c2 = List.length c1
    /\ filter (fun d => negb (Ingestor.has_id (PyStr id) d)) c2
       = filter (fun d => negb (Ingestor.has_id (PyStr id) d)) c.
Proof.
  intros Hunique Hid1 Hid2 Hrun1 Hrun2.
  destruct (handler_success _ _ _ _ Hrun1) as [id1 [doc1 [Hid1' [Hdoc1 ->]]]].
  destruct (handler_success _ _ _ _ Hrun2) as [id2 [doc2 [Hid2' [Hdoc2 ->]]]].
  rewrite Hid1 in Hid1'. injection Hid1' as <-.
  rewrite Hid2 in Hid2'. injection Hid2' as <-.
  assert (Hhas1 : Ingestor.has_id (PyStr id) doc1 = true).
  { apply py_getitem_has_id.
    rewrite (reproject_if_needed_frame _ _ "_id" Hdoc1); [exact Hid1 | discriminate]. }
  assert (Hhas2 : Ingestor.has_id (PyStr id) doc2 = true).
  { apply py_getitem_has_id.
    rewrite (reproject_if_needed_frame _ _ "_id" Hdoc2); [exact Hid2 | discriminate]. }
  assert (Hc1 : filter (Ingestor.has_id (PyStr id)) (upsert (PyStr id) doc1 c) = [doc1])
    by now apply upsert_unique.
  exists doc1, doc2. repeat split.
  - exact Hc1.
  - apply upsert_unique; [exact Hhas2 | rewrite Hc1; simpl; lia].
  - exact Hdoc2.
  - apply (reproject_if_needed_frame _ _ "properties" Hdoc2). discriminate.
  - intros k Hk. now apply (reproject_if_needed_frame _ _ k Hdoc2).
  - rewrite upsert_length.
    assert (Hex : existsb (Ingestor.has_id (PyStr id)) (upsert (PyStr id) doc1 c) = true).
    { apply existsb_exists. exists doc1. split; [| exact Hhas1].
      assert (Hin : In doc1 (filter (Ingestor.has_id (PyStr id))
                               (upsert (PyStr id) doc1 c)))
        by (rewrite Hc1; now left).
      now apply filter_In in Hin. }
    now rewrite Hex.
  - rewrite upsert_others by exact Hhas2. now apply upsert_others.
Qed.

End IngestorProperties.

(** C1, at a feature that declares EPSG:4326 as the Processor writes codes
    (the integer 4326), under the default configuration: the target code is
    the text ["4326"], the comparison finds the two different, and the handler
    builds both projections and hands the position to [transform]; the
    document it upserts carries what [transform] returned, not the
    coordinates as received. *)
Theorem ingestor_integer_4326_is_reprojected
    (py_repr : pyval -> string) (format_unexpected : exn -> string)
    (proj_known : string -> bool)
    (transform : string -> string -> list pyval -> result pyval)
    (new_coordinates : pyval) (c : Ingestor.collection) :
  proj_known "EPSG:4326" = true ->
  transform "EPSG:4326" "EPSG:4326" [PyFloat (5 # 2); PyFloat (97 # 2)]
  = Ok new_coordinates ->
  Ingestor.target_crs_epsg_code (Ingestor.load_configs Examples.env) = "4326"
  /\ Ingestor.handler py_repr format_unexpected proj_known transform
       (Ingestor.load_configs Examples.env) true Examples.feature_4326 c
     = (RValue PyNone,
        snd (Ingestor.replace_one (PyStr "lpis:fr:R24:123")
               (Examples.feature (PyInt 4326) "123" "2016" new_coordinates) c)).
Proof.
  intros Hknown Htransform. split; [reflexivity |].
  rewrite handler_ready. simpl.
  unfold Ingestor.reproject_if_needed. simpl. unfold Ingestor.Proj.
  replace (string_of_Z 4326) with "4326" by reflexivity.
  replace (getenv_default Examples.env "TARGET_CRS_EPSG_CODE" "4326") with "4326"
    by reflexivity.
  simpl. rewrite Hknown. simpl. rewrite Htransform. reflexivity.
Qed.

Lemma ingestor_integer_4326_is_reprojected_witness :
  Ingestor.target_crs_epsg_code (Ingestor.load_configs Examples.env) = "4326"
  /\ Examples.ingestor Examples.feature_4326 []
     = (RValue PyNone,
        [Examples.feature (PyInt 4326) "123" "2016"
           (PyTuple [PyFloat (7 # 2); PyFloat (99 # 2)])]).
Proof.
  apply (ingestor_integer_4326_is_reprojected Examples.py_repr
           Examples.format_unexpected Examples.proj_known Examples.transform
           (PyTuple [PyFloat (7 # 2); PyFloat (99 # 2)]) []);
    reflexivity.
Defined.

(** C9 as stated fails: a feature with neither a [crs] entry nor a geometry
    is upserted as it is, and the handler returns as on any success. *)
Lemma ingestor_upserts_feature_without_crs :
  Examples.ingestor Examples.feature_without_crs []
  = (RValue PyNone, [Examples.feature_without_crs]).
Proof. reflexivity. Qed.

Lemma ingestor_missing_crs_or_geometry_witness :
  Examples.ingestor Examples.feature_without_crs [Examples.other_feature]
  = (RValue PyNone, [Examples.other_feature; Examples.feature_without_crs])
  /\ (exists error,
        Examples.ingestor Examples.feature_without_geometry [Examples.other_feature]
        = (RResponse (Ingestor.as_response (Examples.format_unexpected error) 500),
           [Examples.other_feature]))
  /\ Examples.ingestor Examples.feature_named_crs [Examples.other_feature]
     = (RValue PyNone, [Examples.other_feature; Examples.feature_named_crs])
  /\ Examples.ingestor Examples.feature_target_text [Examples.other_feature]
     = (RValue PyNone, [Examples.other_feature; Examples.feature_target_text]).
Proof.
  split; [| split; [| split]].
  - apply (ingestor_missing_crs_or_geometry Examples.py_repr Examples.format_unexpected
             Examples.proj_known Examples.transform (Ingestor.load_configs Examples.env)
             [("_id", PyStr "lpis:fr:R24:7"); ("type", PyStr "Feature");
              ("properties", PyDict [("version", PyStr "2016")])]
             [("version", PyStr "2016")] (PyStr "lpis:fr:R24:7")
             [Examples.other_feature] eq_refl eq_refl).
    reflexivity.
  - destruct (ingestor_missing_crs_or_geometry Examples.py_repr
                Examples.format_unexpected Examples.proj_known Examples.transform
                (Ingestor.load_configs Examples.env)
                [("_id", PyStr "lpis:fr:R24:8"); ("type", PyStr "Feature");
                 ("properties",
                  PyDict [("crs", PyDict [("type", PyStr "EPSG");
                                          ("properties", PyDict [("code", PyInt 2154)])]);
                          ("version", PyStr "2016")])]
                [("crs", PyDict [("type", PyStr "EPSG");
                                 ("properties", PyDict [("code", PyInt 2154)])]);
                 ("version", PyStr "2016")]
                (PyStr "lpis:fr:R24:8") [Examples.other_feature] eq_refl eq_refl)
      as [_ [Hgeometry _]].
    apply (Hgeometry [("type", PyStr "EPSG"); ("properties", PyDict [("code", PyInt 2154)])]
             [("code", PyInt 2154)] (PyInt 2154));
      try reflexivity.
    now left.
  - destruct (ingestor_missing_crs_or_geometry Examples.py_repr
                Examples.format_unexpected Examples.proj_known Examples.transform
                (Ingestor.load_configs Examples.env)
                [("_id", PyStr "lpis:fr:R24:9"); ("type", PyStr "Feature");
                 ("properties",
                  PyDict [("crs", PyDict [("type", PyStr "name");
                                          ("properties",
                                           PyDict [("name",
                                                    PyStr "urn:ogc:def:crs:OGC:1.3:CRS84")])]);
                          ("version", PyStr "2016")])]
                [("crs", PyDict [("type", PyStr "name");
                                 ("properties",
                                  PyDict [("name", PyStr "urn:ogc:def:crs:OGC:1.3:CRS84")])]);
                 ("version", PyStr "2016")]
                (PyStr "lpis:fr:R24:9") [Examples.other_feature] eq_refl eq_refl)
      as [_ [_ [Hother _]]].
    apply (Hother (PyDict [("type", PyStr "name");
                           ("properties",
                            PyDict [("name", PyStr "urn:ogc:def:crs:OGC:1.3:CRS84")])])
             (PyStr "name")); reflexivity.
  - destruct (ingestor_missing_crs_or_geometry Examples.py_repr
                Examples.format_unexpected Examples.proj_known Examples.transform
                (Ingestor.load_configs Examples.env)
                [("_id", PyStr "lpis:fr:R24:10"); ("type", PyStr "Feature");
                 ("properties",
                  PyDict [("crs", PyDict [("type", PyStr "EPSG");
                                          ("properties", PyDict [("code", PyStr "4326")])]);
                          ("version", PyStr "2016")])]
                [("crs", PyDict [("type", PyStr "EPSG");
                                 ("properties", PyDict [("code", PyStr "4326")])]);
                 ("version", PyStr "2016")]
                (PyStr "lpis:fr:R24:10") [Examples.other_feature] eq_refl eq_refl)
      as [_ [_ [_ Hsame]]].
    apply (Hsame (PyDict [("type", PyStr "EPSG");
                          ("properties", PyDict [("code", PyStr "4326")])])
             (PyStr "EPSG") (PyDict [("code", PyStr "4326")]) (PyStr "4326"));
      reflexivity.
Defined.

Lemma ingestor_same_text_code_is_identity_witness :
  Examples.ingestor Examples.other_feature []
  = (RValue PyNone, [Examples.other_feature]).
Proof.
  apply (ingestor_same_text_code_is_identity Examples.py_repr
           Examples.format_unexpected Examples.proj_known Examples.transform
           (Ingestor.load_configs Examples.env)
           [("_id", PyStr "lpis:fr:R24:456");
            ("type", PyStr "Feature");
            ("geometry",
             PyDict [("type", PyStr "Point"); ("coordinates", Examples.position)]);
            ("properties",
             PyDict [("lpis", PyDict [("ID_PARCEL", PyStr "456")]);
                     ("crs", PyDict [("type", PyStr "EPSG");
                                     ("properties", PyDict [("code", PyStr "4326")])]);
                     ("version", PyStr "2016")])]
           [("lpis", PyDict [("ID_PARCEL", PyStr "456")]);
            ("crs", PyDict [("type", PyStr "EPSG");
                            ("properties", PyDict [("code", PyStr "4326")])]);
            ("version", PyStr "2016")]
           (PyStr "lpis:fr:R24:456")
           (PyDict [("type", PyStr "EPSG");
                    ("properties", PyDict [("code", PyStr "4326")])])
           (PyDict [("code", PyStr "4326")]) []);
    reflexivity.
Defined.

Lemma ingestor_upsert_replaces_witness :
  exists doc1 doc2,
    filter (Ingestor.has_id (PyStr "lpis:fr:R24:123"))
      (snd (Examples.ingestor Examples.feature_2016 [Examples.other_feature]))
    = [doc1]
    /\ filter (Ingestor.has_id (PyStr "lpis:fr:R24:123"))
         (snd (Examples.ingestor Examples.feature_2017
                 (snd (Examples.ingestor Examples.feature_2016
                         [Examples.other_feature]))))
       = [doc2]
    /\ py_getitem doc2 "properties" = py_getitem Examples.feature_2017 "properties".
Proof.
  destruct (ingestor_upsert_replaces Examples.py_repr Examples.format_unexpected
              Examples.proj_known Examples.transform
              (Ingestor.load_configs Examples.env)
              [Examples.other_feature]
              (snd (Examples.ingestor Examples.feature_2016 [Examples.other_feature]))
              (snd (Examples.ingestor Examples.feature_2017
                      (snd (Examples.ingestor Examples.feature_2016
                              [Examples.other_feature]))))
              "lpis:fr:R24:123" Examples.feature_2016 Examples.feature_2017)
    as [doc1 [doc2 [H1 [H2 [_ [H3 _]]]]]].
  - simpl. lia.
  - reflexivity.
  - reflexivity.
  - reflexivity.
  - reflexivity.
  - exists doc1, doc2. repeat split; assumption.
Defined.

(* ===================================================================== *)
(** * Properties of the Processor *)
(* ===================================================================== *)

(** The entries of a message as its consumer decodes them. *)
Lemma dict_get_json_image (entries : list (string * pyval)) (k : string) :
  dict_get (map (fun kv => (fst kv, json_image (snd kv))) entries) k
  = option_map json_image (dict_get entries k).
Proof.
  induction entries as [| [k' v] rest IH]; [reflexivity |].
  cbn [map dict_get fst snd]. now destruct (String.eqb k' k).
Qed.

Lemma py_getitem_json_image (v x : pyval) (k : string) :
  py_getitem v k = Ok x -> py_getitem (json_image v) k = Ok (json_image x).
Proof.
  destruct v; try discriminate. cbn [json_image py_getitem].
  rewrite dict_get_json_image.
  destruct (dict_get entries k); [| discriminate].
  intros H. now injection H as <-.
Qed.

Lemma bindM_inv {S A B : Type} (m : M S A) (k : A -> M S B) (s s' : S) (r : result B) :
  bindM m k s = (r, s') ->
  (exists a s1, m s = (Ok a, s1) /\ k a s1 = (r, s'))
  \/ (exists e, m s = (Raise e, s') /\ r = Raise e).
Proof.
  unfold bindM. destruct (m s) as [[a | e] s1].
  - intros H. left. now exists a, s1.
  - intros H. injection H as <- <-. right. now exists e.
Qed.

Lemma bindM_ok {S A B : Type} (m : M S A) (k : A -> M S B) (s s1 : S) (a : A) :
  m s = (Ok a, s1) -> bindM m k s = k a s1.
Proof. unfold bindM. now intros ->. Qed.

Lemma bindM_raise {S A B : Type} (m : M S A) (k : A -> M S B) (s s1 : S) (e : exn) :
  m s = (Raise e, s1) -> bindM m k s = (Raise e, s1).
Proof. unfold bindM. now intros ->. Qed.

(** The working directory [t] is the value of the local [tmp_dir], and it
    exists. *)
Definition staged (t : string) (st : Processor.state) : Prop :=
  Processor.tmp_dir st = Some t /\ Processor.exists_dir t st = true.

(** The features produced so far, in order. *)
Fixpoint produced (tr : list Processor.event) : list pyval :=
  match tr with
  | [] => []
  | Processor.Produce _ value :: tr' => value :: produced tr'
  | _ :: tr' => produced tr'
  end.

Lemma produced_app (tr1 tr2 : list Processor.event) :
  produced (tr1 ++ tr2) = produced tr1 ++ produced tr2.
Proof.
  induction tr1 as [| e tr1 IH]; [reflexivity |].
  destruct e; simpl; now rewrite IH.
Qed.

(** Nothing was produced yet. *)
Definition silent (st : Processor.state) : Prop :=
  produced (Processor.trace st) = [].

(** A computation under which a property of the world is stable. *)
Definition preserves {A : Type} (P : Processor.state -> Prop) (m : M Processor.state A)
  : Prop :=
  forall st r st', P st -> m st = (r, st') -> P st'.

Section Preservation.

Variable P : Processor.state -> Prop.

Lemma preserves_ret {A : Type} (a : A) : preserves P (ret a).
Proof. intros st r st' Hst H. injection H as _ <-. exact Hst. Qed.

Lemma preserves_raise {A : Type} (e : exn) : preserves P (@raise Processor.state A e).
Proof. intros st r st' Hst H. injection H as _ <-. exact Hst. Qed.

Lemma preserves_lift {A : Type} (m : result A) : preserves P (lift m).
Proof. intros st r st' Hst H. injection H as _ <-. exact Hst. Qed.

Lemma preserves_raise_if (cond : bool) (e : exn) : preserves P (raise_if cond e).
Proof. destruct cond; [apply preserves_raise | apply preserves_ret]. Qed.

Lemma preserves_modify (f : Processor.state -> Processor.state) :
  (forall st, P st -> P (f st)) -> preserves P (modify f).
Proof. intros Hf st r st' Hst H. injection H as _ <-. now apply Hf. Qed.

Lemma preserves_bind {A B : Type} (m : M Processor.state A)
    (k : A -> M Processor.state B) :
  preserves P m -> (forall a, preserves P (k a)) -> preserves P (bindM m k).
Proof.
  intros Hm Hk st r st' Hst H.
  apply bindM_inv in H as [[a [s1 [H1 H2]]] | [e [H1 _]]].
  - eapply Hk; [| exact H2]. eapply Hm; eassumption.
  - eapply Hm; eassumption.
Qed.

End Preservation.

Lemma staged_log (t : string) (e : Processor.event) (st : Processor.state) :
  staged t st -> staged t (Processor.log e st).
Proof. intros H. exact H. Qed.

Lemma staged_makedirs_exist_ok (t path : string) :
  preserves (staged t) (Processor.makedirs_exist_ok path).
Proof.
  intros st r st' [Htmp Hdir] H. unfold Processor.makedirs_exist_ok in H.
  destruct (Processor.exists_dir path st).
  - injection H as _ <-. now split.
  - injection H as _ <-. split; [exact Htmp |].
    unfold Processor.exists_dir in *. simpl. now rewrite Hdir, orb_true_r.
Qed.

Lemma silent_makedirs_exist_ok (path : string) :
  preserves silent (Processor.makedirs_exist_ok path).
Proof.
  intros st r st' Hst H. unfold Processor.makedirs_exist_ok in H.
  destruct (Processor.exists_dir path st); injection H as _ <-; [exact Hst |].
  unfold silent in *. simpl. rewrite produced_app, Hst. reflexivity.
Qed.

Lemma silent_log (e : Processor.event) (st : Processor.state) :
  produced [e] = [] -> silent st -> silent (Processor.log e st).
Proof.
  intros He Hst. unfold silent in *. simpl. now rewrite produced_app, Hst, He.
Qed.

Ltac preserves_step :=
  first [ apply preserves_ret | apply preserves_raise | apply preserves_lift
        | apply preserves_raise_if
        | apply staged_makedirs_exist_ok | apply silent_makedirs_exist_ok
        | apply preserves_modify; intros ? ?;
          first [ apply staged_log; assumption
                | apply silent_log; [reflexivity | assumption] ]
        | apply preserves_bind; [| intros ?] ].

Section ProcessorProperties.

Context {unicode : Unicode}.

Variable py_repr : pyval -> string.
Variable format_unexpected : exn -> string.
Variable urlopen_ok : string -> bool.
Variable extractall : string -> string -> result unit.
Variable walk : string -> list (string * list string).
Variable Reader : string -> result Processor.shapefile.
Variable py_eval : string -> result pyval.
Variable target_topic : option string.

Let parse_body := Processor.parse_body py_repr.
Let forge_feature := Processor.forge_feature py_repr py_eval.
Let process_records := Processor.process_records py_repr py_eval target_topic.
Let stage := Processor.stage py_repr urlopen_ok extractall walk Reader.
Let try_block :=
  Processor.try_block py_repr urlopen_ok extractall walk Reader py_eval target_topic.
Let handler :=
  Processor.handler py_repr format_unexpected urlopen_ok extractall walk Reader
    py_eval target_topic.

Lemma staged_process_records (t : string) (b : Processor.command) (crs_code : Z)
    (fields_name : list string) (records : list (list pyval * pyval)) :
  forall count,
    preserves (staged t) (process_records b crs_code fields_name records count).
Proof.
  induction records as [| sr rest IH]; intros count; simpl.
  - apply preserves_ret.
  - repeat preserves_step.
    + destruct (Z.eqb _ 0); preserves_step.
    + apply IH.
Qed.

(** Where a run of [stage] can end: before the working directory is made,
    with an exception and the world untouched; or with the working directory
    made, assigned to [tmp_dir] and still there. Either way nothing was
    produced. *)
Lemma stage_ends (done_loading : bool) (event : Processor.Event) (dirs : list string)
    (r : result (Processor.command * Z * Processor.shapefile)) (st1 : Processor.state) :
  stage done_loading event (Processor.fresh dirs) = (r, st1) ->
  silent st1
  /\ ((st1 = Processor.fresh dirs /\ exists e, r = Raise e)
      \/ staged ("/tmp/nuclio-event-" +++ Processor.event_id event) st1).
Proof.
  unfold stage, Processor.stage. intros H.
  apply bindM_inv in H as [[[] [s1 [H1 H]]] | [e [H1 ->]]].
  2: { destruct done_loading; simpl in H1; [discriminate |].
       injection H1 as _ <-. split; [reflexivity | left].
       split; [reflexivity | now eexists]. }
  assert (s1 = Processor.fresh dirs) as ->.
  { destruct done_loading; simpl in H1; [| discriminate]. now injection H1 as <-. }
  clear H1.
  apply bindM_inv in H as [[b [s1 [H1 H]]] | [e [H1 ->]]].
  2: { injection H1 as _ <-. split; [reflexivity | left].
       split; [reflexivity | now eexists]. }
  injection H1 as _ <-.
  apply bindM_inv in H as [[t [s1 [H1 H]]] | [e [H1 ->]]].
  2: { unfold Processor.create_temporary_dir, Processor.makedirs in H1.
       unfold bindM in H1.
       destruct (Processor.exists_dir _ _); [| discriminate].
       injection H1 as _ <-. split; [reflexivity | left].
       split; [reflexivity | now eexists]. }
  unfold Processor.create_temporary_dir, Processor.makedirs, bindM in H1.
  destruct (Processor.exists_dir _ _); [discriminate |].
  injection H1 as <- <-.
  apply bindM_inv in H as [[[] [s1 [H1 H]]] | [e [H1 ->]]]; [| discriminate].
  injection H1 as <-.
  revert H.
  match goal with
  | |- ?m ?s = _ -> _ =>
      assert (Hstaged : forall t, preserves (staged t) m);
      [| assert (Hsilent : preserves silent m) ]
  end.
  { intros t. unfold Processor.download_file. repeat preserves_step. }
  { unfold Processor.download_file. repeat preserves_step. }
  intros H. split.
  - eapply Hsilent; [| exact H]. reflexivity.
  - right. eapply Hstaged; [| exact H]. split; [reflexivity |].
    unfold Processor.exists_dir. simpl. now rewrite String.eqb_refl.
Qed.

(** What the records' loop does to the outside when it forges the features
    [parcels], from the count [count] on: the message of each is produced,
    and the producer is flushed after every thousandth. *)
Fixpoint emitted (count : Z) (parcels : list pyval) : list Processor.event :=
  match parcels with
  | [] => []
  | parcel :: rest =>
      Processor.Produce target_topic (json_image parcel)
        :: (if Z.eqb (count mod 1000) 0 then [Processor.Flush] else [])
        ++ emitted (count + 1) rest
  end.

Lemma produced_emitted (parcels : list pyval) :
  forall count, produced (emitted count parcels) = map json_image parcels.
Proof.
  induction parcels as [| parcel rest IH]; intros count; cbn [emitted produced map];
    [reflexivity |].
  rewrite produced_app, IH. now destruct (Z.eqb _ 0).
Qed.

Definition add_trace (st : Processor.state) (tr : list Processor.event) : Processor.state :=
  {| Processor.fs := Processor.fs st;
     Processor.tmp_dir := Processor.tmp_dir st;
     Processor.trace := Processor.trace st ++ tr |}.

Lemma add_trace_nil (st : Processor.state) : add_trace st [] = st.
Proof. destruct st. unfold add_trace. simpl. now rewrite app_nil_r. Qed.

Lemma add_trace_app (st : Processor.state) (tr1 tr2 : list Processor.event) :
  add_trace (add_trace st tr1) tr2 = add_trace st (tr1 ++ tr2).
Proof. unfold add_trace. simpl. now rewrite app_assoc. Qed.

Lemma process_records_step (b : Processor.command) (crs_code : Z)
    (fields_name : list string) (sr : list pyval * pyval)
    (rest : list (list pyval * pyval)) (parcel : pyval) (count : Z)
    (st : Processor.state) :
  forge_feature b crs_code fields_name sr = Ok parcel ->
  process_records b crs_code fields_name (sr :: rest) count st
  = process_records b crs_code fields_name rest (count + 1)
      (add_trace st (Processor.Produce target_topic (json_image parcel)
                       :: (if Z.eqb (count mod 1000) 0 then [Processor.Flush] else []))).
Proof.
  intros Hforge. unfold process_records, forge_feature in *.
  cbn [Processor.process_records].
  rewrite (bindM_ok _ _ st st parcel) by (unfold lift; now rewrite Hforge).
  rewrite (bindM_ok _ _ st
             (Processor.log (Processor.Produce target_topic (json_image parcel)) st) tt)
    by reflexivity.
  destruct (Z.eqb (count mod 1000) 0).
  - rewrite (bindM_ok _ _ _
               (Processor.log Processor.Flush
                  (Processor.log (Processor.Produce target_topic (json_image parcel))
                     st)) tt)
      by reflexivity.
    f_equal. unfold Processor.log, add_trace. cbn [Processor.trace Processor.fs
      Processor.tmp_dir]. now rewrite <- app_assoc.
  - rewrite (bindM_ok _ _ _
               (Processor.log (Processor.Produce target_topic (json_image parcel)) st)
               tt)
      by reflexivity.
    reflexivity.
Qed.

(** The loop over records that are all forged into features. *)
Lemma process_records_all (b : Processor.command) (crs_code : Z)
    (fields_name : list string) (records : list (list pyval * pyval))
    (parcels : list pyval) :
  Forall2 (fun sr parcel => forge_feature b crs_code fields_name sr = Ok parcel)
    records parcels ->
  forall count st,
    process_records b crs_code fields_name records count st
    = (Ok (count + Z.of_nat (List.length records)), add_trace st (emitted count parcels)).
Proof.
  induction 1 as [| sr parcel rest ps Hforge _ IH]; intros count st.
  - simpl. unfold ret. now rewrite Z.add_0_r, add_trace_nil.
  - rewrite (process_records_step _ _ _ _ _ _ _ _ Hforge), IH, add_trace_app.
    f_equal. f_equal. simpl List.length. lia.
Qed.

(** The loop over records of which one is not forged: it raises at this
    record, after the features of the records before it and nothing else. *)
Lemma process_records_abort (b : Processor.command) (crs_code : Z)
    (fields_name : list string) (pre post : list (list pyval * pyval))
    (sr : list pyval * pyval) (parcels : list pyval) (e : exn) :
  Forall2 (fun sr parcel => forge_feature b crs_code fields_name sr = Ok parcel)
    pre parcels ->
  forge_feature b crs_code fields_name sr = Raise e ->
  forall count st,
    process_records b crs_code fields_name (pre ++ sr :: post) count st
    = (Raise e, add_trace st (emitted count parcels)).
Proof.
  intros Hpre Hsr.
  induction Hpre as [| r parcel rest ps Hforge _ IH]; intros count st.
  - unfold process_records, forge_feature in *. cbn [app Processor.process_records].
    rewrite (bindM_raise _ _ st st e) by (unfold lift; now rewrite Hsr).
    now rewrite add_trace_nil.
  - cbn [app]. rewrite (process_records_step _ _ _ _ _ _ _ _ Hforge), IH, add_trace_app.
    reflexivity.
Qed.

(** The feature's id is the sourceID, a colon, and the integer the record's
    natural key converts to. *)
Lemma forge_feature_id (b : Processor.command) (crs_code : Z)
    (fields_name : list string) (sr : list pyval * pyval) (parcel : pyval) :
  forge_feature b crs_code fields_name sr = Ok parcel ->
  exists key n,
    dict_getitem (dict_zip fields_name (fst sr)) (Processor.parcel_id_field b) = Ok key
    /\ py_int key = Ok n
    /\ py_getitem parcel "_id"
       = Ok (PyStr (py_str py_repr (Processor.source_id b) +++ ":" +++ string_of_Z n)).
Proof.
  unfold forge_feature, Processor.forge_feature, bind.
  destruct (dict_getitem _ _) as [key |] eqn:Hkey; [| discriminate].
  destruct (py_int key) as [n |] eqn:Hint; [| discriminate].
  destruct (Processor.normalize _ _ _ _ _ _) as [properties |]; [| discriminate].
  intros H. injection H as <-. now exists key, n.
Qed.

(** A natural key that does not convert to an integer: no feature. *)
Lemma forge_feature_not_convertible (b : Processor.command) (crs_code : Z)
    (fields_name : list string) (sr : list pyval * pyval) (key : pyval) (e : exn) :
  dict_getitem (dict_zip fields_name (fst sr)) (Processor.parcel_id_field b) = Ok key ->
  py_int key = Raise e ->
  forge_feature b crs_code fields_name sr = Raise e.
Proof.
  intros Hkey Hint. unfold forge_feature, Processor.forge_feature, bind.
  now rewrite Hkey, Hint.
Qed.

Lemma py_int_raises (v : pyval) (e : exn) :
  py_int v = Raise e -> e = ValueError \/ e = TypeError.
Proof.
  destruct v; simpl; try discriminate;
    try (intros H; injection H as <-; now right).
  destruct (int_of_string s); [discriminate |].
  intros H; injection H as <-; now left.
Qed.

(** [shutil.rmtree] on the working directory. *)
Lemma rmtree_staged (t : string) (st : Processor.state) :
  staged t st ->
  exists st2,
    Processor.rmtree t st = (Ok tt, st2)
    /\ Processor.trace st2 = Processor.trace st ++ [Processor.Rmtree t]
    /\ Processor.exists_dir t st2 = false.
Proof.
  intros [_ Hdir]. unfold Processor.rmtree. rewrite Hdir.
  eexists. split; [reflexivity |]. split; [reflexivity |].
  unfold Processor.exists_dir. simpl.
  induction (Processor.fs st) as [| d ds IH]; [reflexivity |].
  simpl. destruct (String.eqb_spec d t) as [-> | Hne]; simpl; [exact IH |].
  destruct (startswith d (t +++ "/")); simpl; [exact IH |].
  destruct (String.eqb_spec t d); [congruence | exact IH].
Qed.

(** What the handler is about to return when its [try] block ends: the
    completion message, or the response of one of the two [except] clauses. *)
Definition pending (r : result Z) : retval :=
  match r with
  | Ok count =>
      RValue (PyStr ("Processing Completed (" +++ string_of_Z count
                       +++ " geometries)"))
  | Raise (NuclioResponseError description status) =>
      RResponse (Processor.as_response description status)
  | Raise error =>
      RResponse (Processor.as_response (format_unexpected error)
                   codes.internal_server_error)
  end.

(** The handler from the end of its [try] block on: the [finally] clause
    between the pending value and its return. *)
Definition finish (run : result Z * Processor.state) : result retval * Processor.state :=
  match Processor.tmp_dir (snd run) with
  | None => (Raise (UnboundLocalError "tmp_dir"), snd run)
  | Some d =>
      match Processor.rmtree d (snd run) with
      | (Ok _, st2) => (Ok (pending (fst run)), st2)
      | (Raise e, st2) => (Raise e, st2)
      end
  end.

Lemma processor_finish (done_loading : bool) (event : Processor.Event) (dirs : list string) :
  handler done_loading event dirs
  = finish (try_block done_loading event (Processor.fresh dirs)).
Proof.
  unfold handler, Processor.handler, finish, pending. fold (try_block done_loading event).
  now destruct (try_block done_loading event (Processor.fresh dirs)) as [r st1].
Qed.

(** A [try] block left before the working directory is made: the [finally]
    clause raises, and the handler with it. *)
Lemma finish_unstaged (r : result Z) (dirs : list string) :
  finish (r, Processor.fresh dirs)
  = (Raise (UnboundLocalError "tmp_dir"), Processor.fresh dirs).
Proof. reflexivity. Qed.

(** A [try] block left with the working directory in place: the [finally]
    clause removes it, and the handler returns what was pending. *)
Lemma finish_staged (r : result Z) (t : string) (st1 : Processor.state) :
  staged t st1 ->
  exists st2,
    finish (r, st1) = (Ok (pending r), st2)
    /\ Processor.trace st2 = Processor.trace st1 ++ [Processor.Rmtree t]
    /\ Processor.exists_dir t st2 = false.
Proof.
  intros Hst. destruct (rmtree_staged t st1 Hst) as [st2 [Hrm [Htr Hgone]]].
  destruct Hst as [Htmp _]. unfold finish. simpl. rewrite Htmp, Hrm.
  exists st2. now repeat split.
Qed.

Lemma pending_conversion_error (v : pyval) (e : exn) :
  py_int v = Raise e ->
  pending (Raise e) = RResponse (Processor.as_response (format_unexpected e) 500).
Proof. intros H. now destruct (py_int_raises _ _ H) as [-> | ->]. Qed.

Lemma try_block_ends (done_loading : bool) (event : Processor.Event) (dirs : list string)
    (r : result Z) (st1 : Processor.state) :
  try_block done_loading event (Processor.fresh dirs) = (r, st1) ->
  (st1 = Processor.fresh dirs /\ exists e, r = Raise e)
  \/ staged ("/tmp/nuclio-event-" +++ Processor.event_id event) st1.
Proof.
  unfold try_block, Processor.try_block. intros H.
  apply bindM_inv in H as [[[[b crs_code] reader] [s1 [H1 H]]] | [e [H1 ->]]].
  - right. apply stage_ends in H1 as [_ [[_ [e He]] | Hst]]; [discriminate |].
    revert H.
    match goal with
    | |- ?m ?s = _ -> _ =>
        assert (Hk : preserves
                       (staged ("/tmp/nuclio-event-" +++ Processor.event_id event)) m)
    end.
    { repeat preserves_step. apply staged_process_records. }
    intros H. eapply Hk; eassumption.
  - apply stage_ends in H1 as [_ [[-> _] | Hst]]; [left | now right].
    split; [reflexivity | now eexists].
Qed.

(** Every invocation ends in one of two ways: the [try] block was left
    before the working directory was made, and the handler raises
    [UnboundLocalError] from its [finally] clause with the world untouched;
    or the handler returns, after removing the working directory as its last
    deed. *)
Lemma processor_ends (done_loading : bool) (event : Processor.Event) (dirs : list string) :
  handler done_loading event dirs
  = (Raise (UnboundLocalError "tmp_dir"), Processor.fresh dirs)
  \/ exists ret st2 tr,
       handler done_loading event dirs = (Ok ret, st2)
       /\ Processor.trace st2
          = tr ++ [Processor.Rmtree ("/tmp/nuclio-event-" +++ Processor.event_id event)]
       /\ Processor.exists_dir ("/tmp/nuclio-event-" +++ Processor.event_id event) st2
          = false.
Proof.
  rewrite processor_finish.
  destruct (try_block done_loading event (Processor.fresh dirs)) as [r st1] eqn:Hrun.
  apply try_block_ends in Hrun as [[-> _] | Hst].
  - left. apply finish_unstaged.
  - right. destruct (finish_staged r _ _ Hst) as [st2 [H [Htr Hgone]]].
    exists (pending r), st2, (Processor.trace st1). now rewrite H.
Qed.

(** A request that fails validation never gets a response. *)
Lemma processor_validation_failure (event : Processor.Event) (dirs : list string) (e : exn) :
  parse_body (Processor.event_body event) = Raise e ->
  handler true event dirs
  = (Raise (UnboundLocalError "tmp_dir"), Processor.fresh dirs).
Proof.
  intros Hparse. rewrite processor_finish.
  unfold try_block, Processor.try_block, Processor.stage.
  unfold parse_body in Hparse. unfold_monad. simpl. now rewrite Hparse.
Qed.

Lemma processor_not_ready (event : Processor.Event) (dirs : list string) :
  handler false event dirs
  = (Raise (UnboundLocalError "tmp_dir"), Processor.fresh dirs).
Proof. reflexivity. Qed.

(** [parse_body] begins with the archive's format: without the key, or with a
    text that is not ["7z"] in lower case, it raises its first error. *)
Lemma parse_body_format (entries : list (string * pyval)) :
  dict_get entries "format" = None
  \/ (exists s, dict_get entries "format" = Some (PyStr s) /\ lower s <> "7z") ->
  parse_body (PyDict entries)
  = Raise (NuclioResponseError "Archive's 'format' must be '7z' !" 400).
Proof.
  unfold parse_body, Processor.parse_body. simpl. unfold dict_has.
  intros [Hnone | [s [Hsome Hne]]].
  - now rewrite Hnone.
  - rewrite Hsome. simpl. apply String.eqb_neq in Hne. now rewrite Hne.
Qed.

(** A validated command carries the request's sourceID, a text that starts
    with the accepted data source. *)
Lemma parse_body_source_id (body : pyval) (b : Processor.command) :
  parse_body body = Ok b ->
  exists sid,
    py_getitem body "sourceID" = Ok (PyStr sid)
    /\ Processor.source_id b = PyStr sid
    /\ startswith sid "lpis:fr" = true.
Proof.
  unfold parse_body, Processor.parse_body, bind. intros H.
  repeat match type of H with
         | match ?x with _ => _ end = _ => destruct x eqn:?; try discriminate H
         end.
  injection H as <-. simpl.
  match goal with
  | Hs : Processor.py_startswith ?v _ = Ok ?ok, Hok : negb ?ok = false |- _ =>
      destruct v; try discriminate Hs; injection Hs as Hs;
      destruct ok; try discriminate Hok
  end.
  eexists. repeat split; eassumption.
Qed.

(** ** C6 *)

(** C6, as the code has it. For every Download Command without a [format]
    entry, or whose [format] is a text that is not ["7z"] once in lower case
    (["zip"] is such a text, ["7Z"] is not), validation raises the
    [NuclioResponseError] of status 400 that names the format; the
    invocation makes no directory, attempts no download and produces
    nothing. *)
Theorem processor_rejects_other_formats
    (done_loading : bool) (event : Processor.Event)
    (entries : list (string * pyval)) (dirs : list string) :
  Processor.event_body event = PyDict entries ->
  dict_get entries "format" = None
  \/ (exists s, dict_get entries "format" = Some (PyStr s) /\ lower s <> "7z") ->
  Processor.parse_body py_repr (Processor.event_body event)
  = Raise (NuclioResponseError "Archive's 'format' must be '7z' !" 400)
  /\ Processor.trace
       (snd (Processor.handler py_repr format_unexpected urlopen_ok extractall walk
               Reader py_eval target_topic done_loading event dirs)) = []
  /\ Processor.fs
       (snd (Processor.handler py_repr format_unexpected urlopen_ok extractall walk
               Reader py_eval target_topic done_loading event dirs)) = dirs.
Proof.
  intros Hbody Hformat.
  assert (Hparse : parse_body (Processor.event_body event)
                   = Raise (NuclioResponseError "Archive's 'format' must be '7z' !" 400))
    by (rewrite Hbody; now apply parse_body_format).
  split; [exact Hparse |].
  fold handler. destruct done_loading.
  - rewrite (processor_validation_failure _ _ _ Hparse). now split.
  - rewrite processor_not_ready. now split.
Qed.

(** ** C2 *)

(** C2, at a Download Command of format ["zip"] with the service ready:
    validation raises its 400 error before the working directory is made,
    the [except] clause has the response ready, and the [finally] clause
    then reads the unassigned [tmp_dir]; the handler raises
    [UnboundLocalError], whatever directories exist, and returns no
    response. *)
Theorem processor_rejected_request_raises_from_finally (dirs : list string) :
  Processor.parse_body py_repr (Examples.command "zip")
  = Raise (NuclioResponseError "Archive's 'format' must be '7z' !" 400)
  /\ Processor.handler py_repr format_unexpected urlopen_ok extractall walk Reader
       py_eval target_topic true
       {| Processor.event_body := Examples.command "zip"; Processor.event_id := "42" |}
       dirs
     = (Raise (UnboundLocalError "tmp_dir"), Processor.fresh dirs).
Proof. split; reflexivity. Qed.

(** ** C10 *)

(** C10. The id of every feature the Processor forges, and of the message
    that carries it, is the sourceID (the text of the validated command's
    [sourceID] entry), a colon, and the integer its record's natural key
    converts to; two records whose keys convert to the same integer, as the
    texts ["0123"] and ["123"] do, get the same id; and when the key of a
    record does not convert, the invocation ends there with the response of
    status 500, having produced the messages of the records before it and no
    other. *)
Theorem processor_feature_id
    (done_loading : bool) (b : Processor.command) (crs_code : Z)
    (fields_name : list string) :
  (forall sr parcel,
      Processor.forge_feature py_repr py_eval b crs_code fields_name sr = Ok parcel ->
      exists key n,
        dict_getitem (dict_zip fields_name (fst sr)) (Processor.parcel_id_field b)
        = Ok key
        /\ py_int key = Ok n
        /\ py_getitem parcel "_id"
           = Ok (PyStr (py_str py_repr (Processor.source_id b) +++ ":"
                          +++ string_of_Z n))
        /\ py_getitem (json_image parcel) "_id"
           = Ok (PyStr (py_str py_repr (Processor.source_id b) +++ ":"
                          +++ string_of_Z n)))
  /\ (forall body,
         Processor.parse_body py_repr body = Ok b ->
         exists sid,
           py_getitem body "sourceID" = Ok (PyStr sid)
           /\ py_str py_repr (Processor.source_id b) = sid)
  /\ (forall sr1 sr2 key1 key2 n parcel1 parcel2,
         dict_getitem (dict_zip fields_name (fst sr1)) (Processor.parcel_id_field b)
         = Ok key1 ->
         dict_getitem (dict_zip fields_name (fst sr2)) (Processor.parcel_id_field b)
         = Ok key2 ->
         py_int key1 = Ok n ->
         py_int key2 = Ok n ->
         Processor.forge_feature py_repr py_eval b crs_code fields_name sr1
         = Ok parcel1 ->
         Processor.forge_feature py_repr py_eval b crs_code fields_name sr2
         = Ok parcel2 ->
         py_getitem parcel1 "_id" = py_getitem parcel2 "_id")
  /\ (py_int (PyStr "0123") = Ok 123 /\ py_int (PyStr "123") = Ok 123)
  /\ (forall event dirs reader st1 pre sr post parcels key e,
         Processor.stage py_repr urlopen_ok extractall walk Reader done_loading event
           (Processor.fresh dirs)
         = (Ok (b, crs_code, reader), st1) ->
         fields_name = tl (Processor.fields reader) ->
         Processor.shapeRecords reader = pre ++ sr :: post ->
         Forall2
           (fun r parcel =>
              Processor.forge_feature py_repr py_eval b crs_code fields_name r
              = Ok parcel)
           pre parcels ->
         dict_getitem (dict_zip fields_name (fst sr)) (Processor.parcel_id_field b)
         = Ok key ->
         py_int key = Raise e ->
         exists st2,
           Processor.handler py_repr format_unexpected urlopen_ok extractall walk
             Reader py_eval target_topic done_loading event dirs
           = (Ok (RResponse (Processor.as_response (format_unexpected e) 500)), st2)
           /\ produced (Processor.trace st2) = map json_image parcels).
Proof.
  split; [| split; [| split; [| split]]].
  - intros sr parcel Hforge.
    destruct (forge_feature_id _ _ _ _ _ Hforge) as [key [n [Hkey [Hint Hid]]]].
    exists key, n. repeat split; try assumption.
    exact (py_getitem_json_image _ _ _ Hid).
  - intros body Hparse.
    destruct (parse_body_source_id _ _ Hparse) as [sid [Hsid [Hb _]]].
    exists sid. split; [exact Hsid | now rewrite Hb].
  - intros sr1 sr2 key1 key2 n parcel1 parcel2 Hk1 Hk2 Hn1 Hn2 Hf1 Hf2.
    destruct (forge_feature_id _ _ _ _ _ Hf1) as [k1 [n1 [Hk1' [Hn1' ->]]]].
    destruct (forge_feature_id _ _ _ _ _ Hf2) as [k2 [n2 [Hk2' [Hn2' ->]]]].
    rewrite Hk1 in Hk1'. injection Hk1' as <-.
    rewrite Hk2 in Hk2'. injection Hk2' as <-.
    rewrite Hn1 in Hn1'. injection Hn1' as <-.
    rewrite Hn2 in Hn2'. injection Hn2' as <-.
    reflexivity.
  - split; reflexivity.
  - intros event dirs reader st1 pre sr post parcels key e
      Hstage -> Hrecords Hpre Hkey Hint.
    pose proof (forge_feature_not_convertible b crs_code _ sr key e Hkey Hint) as Hsr.
    destruct (stage_ends _ _ _ _ _ Hstage) as [Hsilent [[_ [e' He']] | Hst]];
      [discriminate |].
    fold handler. rewrite processor_finish.
    unfold try_block, Processor.try_block.
    rewrite (bindM_ok _ _ _ _ _ Hstage). cbv beta iota zeta.
    rewrite Hrecords.
    rewrite (bindM_raise _ _ _ _ _
               (process_records_abort _ _ _ _ post _ _ _ Hpre Hsr 0 st1)).
    destruct (finish_staged (Raise e) _ (add_trace st1 (emitted 0 parcels)) Hst)
      as [st2 [Hfinish [Htrace _]]].
    exists st2. rewrite Hfinish. split.
    + now rewrite (pending_conversion_error _ _ Hint).
    + rewrite Htrace. cbn [add_trace Processor.trace].
      rewrite !produced_app, produced_emitted.
      unfold silent in Hsilent. rewrite Hsilent. cbn [produced app].
      now rewrite app_nil_r.
Qed.

(** When every record of the shapefile is forged into a feature, the
    invocation produces exactly the messages of these features, in storage
    order, removes its working directory as its last deed, and reports the
    number of records. *)
Lemma processor_emits_every_record (done_loading : bool) (event : Processor.Event)
    (dirs : list string) (b : Processor.command) (crs_code : Z)
    (reader : Processor.shapefile) (st1 : Processor.state) (parcels : list pyval) :
  Processor.stage py_repr urlopen_ok extractall walk Reader done_loading event
    (Processor.fresh dirs)
  = (Ok (b, crs_code, reader), st1) ->
  Forall2
    (fun r parcel =>
       Processor.forge_feature py_repr py_eval b crs_code
         (tl (Processor.fields reader)) r = Ok parcel)
    (Processor.shapeRecords reader) parcels ->
  exists st2 tr,
    Processor.handler py_repr format_unexpected urlopen_ok extractall walk Reader
      py_eval target_topic done_loading event dirs
    = (Ok (RValue (PyStr ("Processing Completed ("
                            +++ string_of_Z
                                  (Z.of_nat (List.length (Processor.shapeRecords reader)))
                            +++ " geometries)"))), st2)
    /\ produced (Processor.trace st2) = map json_image parcels
    /\ List.length parcels = List.length (Processor.shapeRecords reader)
    /\ Processor.trace st2
       = tr ++ [Processor.Rmtree ("/tmp/nuclio-event-" +++ Processor.event_id event)]
    /\ Processor.exists_dir ("/tmp/nuclio-event-" +++ Processor.event_id event) st2
       = false.
Proof.
  intros Hstage Hall.
  destruct (stage_ends _ _ _ _ _ Hstage) as [Hsilent [[_ [e' He']] | Hst]];
    [discriminate |].
  fold handler. rewrite processor_finish.
  unfold try_block, Processor.try_block.
  rewrite (bindM_ok _ _ _ _ _ Hstage). cbv beta iota zeta.
  rewrite (bindM_ok _ _ _ _ _ (process_records_all _ _ _ _ _ Hall 0 st1)).
  rewrite (bindM_ok _ _ _ (Processor.log Processor.Flush
                             (add_trace st1 (emitted 0 parcels))) tt) by reflexivity.
  unfold ret.
  destruct (finish_staged
              (Ok (0 + Z.of_nat (List.length (Processor.shapeRecords reader))))
              _ (Processor.log Processor.Flush (add_trace st1 (emitted 0 parcels))) Hst)
    as [st2 [Hfinish [Htrace Hgone]]].
  exists st2, (Processor.trace
                 (Processor.log Processor.Flush (add_trace st1 (emitted 0 parcels)))).
  split; [| split; [| split; [| split]]].
  - rewrite Hfinish. reflexivity.
  - rewrite Htrace. cbn [Processor.log add_trace Processor.trace].
    rewrite !produced_app, produced_emitted.
    unfold silent in Hsilent. rewrite Hsilent. cbn [produced app].
    now rewrite !app_nil_r.
  - symmetry. eapply Forall2_length. exact Hall.
  - exact Htrace.
  - exact Hgone.
Qed.

End ProcessorProperties.

(** C6 as stated fails: ["7Z"] is a value other than ["7z"], and a Download
    Command of this format passes validation and has its archive
    downloaded. *)
Lemma processor_accepts_upper_case_format :
  "7Z" <> "7z"
  /\ Processor.parse_body Examples.py_repr (Examples.command "7Z")
     = Ok {| Processor.archive_format := PyStr "7Z";
             Processor.archive_url := Processor.archive_url Examples.parsed_command;
             Processor.source_id := PyStr "lpis:fr:R24";
             Processor.parcel_id_field := PyStr "ID_PARCEL";
             Processor.normalized_parcel_properties :=
               [("area", PyDict [("sourceProp", PyStr "SURF_PARC")])];
             Processor.version := "2016" |}
  /\ nth_error (Processor.trace (snd (Examples.processor (Examples.command "7Z")))) 1
     = Some (Processor.Download
               "https://wxs.ign.fr/rpg/RPG_2-0__SHP_LAMB93_R24-2016_2016-01-01.7z.001"
               "/tmp/nuclio-event-42/RPG_2-0__SHP_LAMB93_R24-2016_2016-01-01.7z.001").
Proof.
  split; [discriminate |]. split; vm_compute; reflexivity.
Qed.

Lemma processor_rejects_other_formats_witness :
  Processor.parse_body Examples.py_repr (Examples.command "zip")
  = Raise (NuclioResponseError "Archive's 'format' must be '7z' !" 400)
  /\ Processor.trace (snd (Examples.processor (Examples.command "zip"))) = []
  /\ Processor.fs (snd (Examples.processor (Examples.command "zip"))) = [].
Proof.
  apply (processor_rejects_other_formats Examples.py_repr Examples.format_unexpected
           Examples.urlopen_ok Examples.extractall Examples.walk Examples.Reader
           Examples.py_eval (Examples.env "TARGET_TOPIC") true
           {| Processor.event_body := Examples.command "zip";
              Processor.event_id := "42" |}
           [("format", PyStr "zip");
            ("url", PyStr "https://wxs.ign.fr/rpg/RPG_2-0__SHP_LAMB93_R24-2016_2016-01-01.7z.001");
            ("sourceID", PyStr "lpis:fr:R24");
            ("parcelIdField", PyStr "ID_PARCEL");
            ("normalizedProperties",
             PyDict [("area", PyDict [("sourceProp", PyStr "SURF_PARC")])]);
            ("version", PyInt 2016)]
           []).
  - reflexivity.
  - right. exists "zip". split; [reflexivity | discriminate].
Defined.

Lemma processor_feature_id_witness :
  (exists st2,
      Examples.processor (Examples.command "7z")
      = (Ok (RResponse (Processor.as_response
                          (Examples.format_unexpected ValueError) 500)), st2)
      /\ produced (Processor.trace st2)
         = map json_image
             [Examples.forged ([PyStr "0123"; PyFloat (5 # 2)], Examples.point (1 # 2) 3);
              Examples.forged ([PyStr "123"; PyFloat (7 # 2)],
                 Examples.point (3 # 2) 3)])
  /\ py_getitem
       (Examples.forged ([PyStr "0123"; PyFloat (5 # 2)], Examples.point (1 # 2) 3))
       "_id"
     = py_getitem
         (Examples.forged ([PyStr "123"; PyFloat (7 # 2)], Examples.point (3 # 2) 3))
         "_id".
Proof.
  destruct (processor_feature_id Examples.py_repr Examples.format_unexpected
              Examples.urlopen_ok Examples.extractall Examples.walk Examples.Reader
              Examples.py_eval (Examples.env "TARGET_TOPIC") true
              Examples.parsed_command 2154 ["ID_PARCEL"; "SURF_PARC"])
    as [_ [_ [Hsame [_ Habort]]]].
  split.
  - apply (Habort
             {| Processor.event_body := Examples.command "7z";
                Processor.event_id := "42" |}
             []
             Examples.parcels
             (snd (Processor.stage Examples.py_repr Examples.urlopen_ok
                     Examples.extractall Examples.walk Examples.Reader true
                     {| Processor.event_body := Examples.command "7z";
                        Processor.event_id := "42" |}
                     (Processor.fresh [])))
             [([PyStr "0123"; PyFloat (5 # 2)], Examples.point (1 # 2) 3);
              ([PyStr "123"; PyFloat (7 # 2)], Examples.point (3 # 2) 3)]
             ([PyStr "12A"; PyFloat (1 # 2)], Examples.point (5 # 2) 3)
             []
             [Examples.forged ([PyStr "0123"; PyFloat (5 # 2)], Examples.point (1 # 2) 3);
              Examples.forged ([PyStr "123"; PyFloat (7 # 2)], Examples.point (3 # 2) 3)]
             (PyStr "12A") ValueError).
    + vm_compute. reflexivity.
    + reflexivity.
    + reflexivity.
    + repeat constructor.
    + reflexivity.
    + reflexivity.
  - apply (Hsame ([PyStr "0123"; PyFloat (5 # 2)], Examples.point (1 # 2) 3)
             ([PyStr "123"; PyFloat (7 # 2)], Examples.point (3 # 2) 3)
             (PyStr "0123") (PyStr "123") 123); reflexivity.
Defined.

Lemma resolver_discovery_needs_one_link_witness :
  Examples.resolver Examples.request_2016_11
  = (Resolver.as_response
       "Failed to scrape French LPIS archive for year '2016' and region 'R11' (not found)"
       400,
     [Resolver.Get "http://professionnels.ign.fr/rpg"]).
Proof.
  apply (resolver_discovery_needs_one_link Examples.py_repr Examples.format_unexpected
           Regex.re_search Examples.scrape (Resolver.load_configs Examples.env)
           Examples.request_2016_11 (PyInt 2016) (PyInt 11) Examples.catalog).
  - reflexivity.
  - reflexivity.
  - vm_compute. discriminate.
Defined.

Lemma resolver_missing_year_witness :
  Examples.resolver (PyDict [("region", PyInt 24)])
  = (Resolver.as_response "Missing 'year' attribute !" 400, []).
Proof.
  apply (resolver_missing_year Examples.py_repr Examples.format_unexpected
           Regex.re_search Examples.scrape (Resolver.load_configs Examples.env)
           [("region", PyInt 24)]).
  reflexivity.
Defined.

Lemma processor_emits_every_record_witness :
  exists st2 tr,
    Processor.handler Examples.py_repr Examples.format_unexpected Examples.urlopen_ok
      Examples.extractall Examples.walk (fun _ => Ok Examples.two_parcels)
      Examples.py_eval (Examples.env "TARGET_TOPIC") true
      {| Processor.event_body := Examples.command "7z"; Processor.event_id := "42" |} []
    = (Ok (RValue (PyStr "Processing Completed (2 geometries)")), st2)
    /\ produced (Processor.trace st2)
       = map json_image
           [Examples.forged ([PyStr "0123"; PyFloat (5 # 2)], Examples.point (1 # 2) 3);
            Examples.forged ([PyStr "123"; PyFloat (7 # 2)], Examples.point (3 # 2) 3)]
    /\ List.length
         [Examples.forged ([PyStr "0123"; PyFloat (5 # 2)], Examples.point (1 # 2) 3);
          Examples.forged ([PyStr "123"; PyFloat (7 # 2)], Examples.point (3 # 2) 3)]
       = 2%nat
    /\ Processor.trace st2 = tr ++ [Processor.Rmtree "/tmp/nuclio-event-42"]
    /\ Processor.exists_dir "/tmp/nuclio-event-42" st2 = false.
Proof.
  apply (processor_emits_every_record Examples.py_repr Examples.format_unexpected
           Examples.urlopen_ok Examples.extractall Examples.walk
           (fun _ => Ok Examples.two_parcels) Examples.py_eval
           (Examples.env "TARGET_TOPIC") true
           {| Processor.event_body := Examples.command "7z"; Processor.event_id := "42" |}
           [] Examples.parsed_command 2154 Examples.two_parcels
           (snd (Processor.stage Examples.py_repr Examples.urlopen_ok
                   Examples.extractall Examples.walk (fun _ => Ok Examples.two_parcels)
                   true
                   {| Processor.event_body := Examples.command "7z";
                      Processor.event_id := "42" |}
                   (Processor.fresh [])))).
  - vm_compute. reflexivity.
  - repeat constructor.
Defined.

(* ===================================================================== *)
(** * Further properties of the Ingestor *)
(* ===================================================================== *)

Lemma has_id_text (s : string) (d : pyval) :
  Ingestor.has_id (PyStr s) d = true -> py_getitem d "_id" = Ok (PyStr s).
Proof.
  destruct d; simpl; try discriminate.
  destruct (dict_get entries "_id") as [v |]; [| discriminate].
  destruct v; simpl; try discriminate.
  intros H. apply String.eqb_eq in H. now subst.
Qed.

Lemma has_id_text_unique (s s' : string) (d : pyval) :
  Ingestor.has_id (PyStr s) d = true -> Ingestor.has_id (PyStr s') d = true -> s = s'.
Proof.
  intros H H'. apply has_id_text in H. apply has_id_text in H'.
  rewrite H in H'. now injection H'.
Qed.

Lemma upsert_idempotent (id doc : pyval) (c : Ingestor.collection) :
  Ingestor.has_id id doc = true ->
  upsert id doc (upsert id doc c) = upsert id doc c.
Proof.
  intros Hdoc. induction c as [| d c IH].
  - rewrite upsert_nil, upsert_cons. now rewrite Hdoc.
  - rewrite upsert_cons. destruct (Ingestor.has_id id d) eqn:Hd.
    + rewrite upsert_cons. now rewrite Hdoc.
    + rewrite upsert_cons, Hd. now rewrite IH.
Qed.

(** The documents under another text id are those there were. *)
Lemma upsert_other_id (s s' : string) (doc : pyval) (c : Ingestor.collection) :
  s <> s' ->
  Ingestor.has_id (PyStr s) doc = true ->
  filter (Ingestor.has_id (PyStr s')) (upsert (PyStr s) doc c)
  = filter (Ingestor.has_id (PyStr s')) c.
Proof.
  intros Hne Hdoc.
  assert (Hdoc' : Ingestor.has_id (PyStr s') doc = false).
  { destruct (Ingestor.has_id (PyStr s') doc) eqn:E; [| reflexivity].
    elim Hne. now apply (has_id_text_unique s s' doc). }
  induction c as [| d c IH].
  - rewrite upsert_nil. simpl. now rewrite Hdoc'.
  - rewrite upsert_cons. destruct (Ingestor.has_id (PyStr s) d) eqn:Hd; simpl.
    + rewrite Hdoc'.
      destruct (Ingestor.has_id (PyStr s') d) eqn:Hd'; [| reflexivity].
      elim Hne. now apply (has_id_text_unique s s' d).
    + now rewrite IH.
Qed.

(** Every text id names at most one document of the collection: the store's
    unique index on [_id]. *)
Definition unique_ids (c : Ingestor.collection) : Prop :=
  forall s, (List.length (filter (Ingestor.has_id (PyStr s)) c) <= 1)%nat.

Section IngestorFurther.

Variable py_repr : pyval -> string.
Variable format_unexpected : exn -> string.
Variable proj_known : string -> bool.
Variable transform : string -> string -> list pyval -> result pyval.
Variable cfg : Ingestor.FunctionConfig.

Let handler := Ingestor.handler py_repr format_unexpected proj_known transform cfg.
Let reproject_if_needed := Ingestor.reproject_if_needed py_repr proj_known transform cfg.

(** Whenever the Ingestor answers with a response, that is on every path
    but the successful one, the collection is as it was: a feature is written
    whole or not at all. While the service is loading the response is the
    503 one. *)
Theorem ingestor_error_leaves_store (done_loading : bool) (body : pyval)
    (c c' : Ingestor.collection) (r : Response) :
  Ingestor.handler py_repr format_unexpected proj_known transform cfg done_loading
    body c = (RResponse r, c') ->
  c' = c /\ (done_loading = false -> status_code r = 503).
Proof.
  destruct done_loading.
  - rewrite handler_ready.
    destruct (py_getitem body "_id") as [id | e].
    + destruct (Ingestor.reproject_if_needed _ _ _ _ body) as [doc | e].
      * discriminate.
      * intros H. injection H as _ <-. now split.
    + intros H. injection H as _ <-. now split.
  - rewrite handler_not_ready. intros H. injection H as <- <-. now split.
Qed.

(** A feature delivered twice is stored once: when the Ingestor has ingested
    a feature with a text id, ingesting the same message again succeeds and
    leaves the collection exactly as the first ingestion left it. *)
Theorem ingestor_redelivery_is_idempotent (body : pyval) (id : string)
    (c c1 : Ingestor.collection) :
  py_getitem body "_id" = Ok (PyStr id) ->
  Ingestor.handler py_repr format_unexpected proj_known transform cfg true body c
  = (RValue PyNone, c1) ->
  Ingestor.handler py_repr format_unexpected proj_known transform cfg true body c1
  = (RValue PyNone, c1).
Proof.
  intros Hid Hrun.
  destruct (handler_success _ _ _ _ _ _ _ _ _ Hrun) as [id' [doc [Hid' [Hdoc ->]]]].
  rewrite Hid in Hid'. injection Hid' as <-.
  rewrite handler_ready, Hid, Hdoc. f_equal.
  apply upsert_idempotent. apply py_getitem_has_id.
  rewrite (reproject_if_needed_frame _ _ _ _ _ _ "_id" Hdoc); [exact Hid | discriminate].
Qed.

(** The handler keeps the store's invariant: in a collection where every
    text id names at most one document, ingesting a feature with a text id
    leaves, whatever the outcome, a collection where this still holds. *)
Theorem ingestor_keeps_unique_ids (done_loading : bool) (body : pyval) (id : string)
    (c c' : Ingestor.collection) (ret : retval) :
  unique_ids c ->
  py_getitem body "_id" = Ok (PyStr id) ->
  Ingestor.handler py_repr format_unexpected proj_known transform cfg done_loading
    body c = (ret, c') ->
  unique_ids c'.
Proof.
  intros Hunique Hid Hrun.
  destruct done_loading;
    [| rewrite handler_not_ready in Hrun; injection Hrun as _ <-; exact Hunique].
  rewrite handler_ready, Hid in Hrun.
  destruct (Ingestor.reproject_if_needed _ _ _ _ body) as [doc | e] eqn:Hdoc;
    [| injection Hrun as _ <-; exact Hunique].
  injection Hrun as _ <-.
  assert (Hhas : Ingestor.has_id (PyStr id) doc = true).
  { apply py_getitem_has_id.
    rewrite (reproject_if_needed_frame _ _ _ _ _ _ "_id" Hdoc);
      [exact Hid | discriminate]. }
  intros s. destruct (String.eqb_spec id s) as [<- | Hne].
  - rewrite upsert_unique; [simpl; lia | exact Hhas | apply Hunique].
  - rewrite upsert_other_id by assumption. apply Hunique.
Qed.

Let reproject := Ingestor.reproject_coordinates transform.

Lemma reproject_loop_raises (source_proj target_proj : string)
    (items cs : list pyval) :
  Forall (fun c =>
            forall e,
              reproject source_proj target_proj c = Raise e ->
              (exists args, transform source_proj target_proj args = Raise e)
              \/ (e = TypeError /\ py_iter c = Raise TypeError)) cs ->
  forall new_coords e,
    Ingestor.reproject_loop (reproject source_proj target_proj)
      (transform source_proj target_proj items) cs new_coords = Raise e ->
    exists args, transform source_proj target_proj args = Raise e.
Proof.
  induction 1 as [| c cs Hc _ IH]; intros new_coords e; simpl; [discriminate |].
  destruct c; try (intros H; now exists items).
  unfold bind.
  destruct (reproject source_proj target_proj (PyList items0)) as [r | e'] eqn:Hr
    in |- *.
  - apply IH.
  - intros H. injection H as <-.
    destruct (Hc e' Hr) as [Hargs | [_ Hiter]]; [exact Hargs | discriminate Hiter].
Qed.

(** Every exception [reproject_coordinates] raises is one [transform]
    raised on some sequence of arguments, but for the [TypeError] of
    coordinates that are no sequence at all ([None], a [bool], a number). *)
Theorem reproject_raises_what_transform_raises (source_proj target_proj : string)
    (coords : pyval) (e : exn) :
  Ingestor.reproject_coordinates transform source_proj target_proj coords = Raise e ->
  (exists args, transform source_proj target_proj args = Raise e)
  \/ (e = TypeError /\ py_iter coords = Raise TypeError).
Proof.
  revert e. fold (reproject source_proj target_proj coords).
  induction coords as [| b | n | q | s | items IH | items IH | entries]
    using pyval_elements_ind; intros e; unfold reproject; simpl;
    try (intros H; injection H as <-; right; now split).
  - destruct (chars s); simpl; [discriminate |]. intros H. left. eexists. exact H.
  - intros H. left. now apply (reproject_loop_raises _ _ items items IH [] e).
  - intros H. left. now apply (reproject_loop_raises _ _ items items IH [] e).
  - destruct entries; simpl; [discriminate |]. intros H. left. eexists. exact H.
Qed.

End IngestorFurther.

(* ===================================================================== *)
(** * Further properties of the Processor *)
(* ===================================================================== *)

Lemma dict_get_In (entries : list (string * pyval)) (k : string) (v : pyval) :
  dict_get entries k = Some v -> In (k, v) entries.
Proof.
  induction entries as [| [k' v'] rest IH]; simpl; [discriminate |].
  destruct (String.eqb_spec k' k) as [-> | Hne].
  - intros H. injection H as ->. now left.
  - intros H. right. now apply IH.
Qed.

Section ProcessorFeatures.

Context {unicode : Unicode}.

Variable py_repr : pyval -> string.

(** The loop over the normalized properties writes the entries it is asked
    for and no other. *)
Lemma normalize_frame (py_eval : string -> result pyval)
    (normalized : list (string * pyval)) (names : list string)
    (parcel_properties : list (string * pyval)) (k : string) :
  ~ In k names ->
  forall properties properties',
    Processor.normalize py_repr py_eval normalized names parcel_properties properties
    = Ok properties' ->
    dict_get properties' k = dict_get properties k.
Proof.
  induction names as [| prop rest IH]; intros Hk properties properties';
    cbn [Processor.normalize].
  - intros H. now injection H as <-.
  - unfold bind.
    destruct (py_getitem (PyDict normalized) prop) as [np |]; [| discriminate].
    destruct (py_getitem np "sourceProp") as [source_prop |]; [| discriminate].
    destruct (dict_get_method parcel_properties source_prop) as [value |];
      [| discriminate].
    destruct (py_contains np "coefSI") as [has_coef |]; [| discriminate].
    destruct (if has_coef then _ else _) as [value' |]; [| discriminate].
    intros H. rewrite (IH (fun Hin => Hk (or_intror Hin)) _ _ H).
    apply dict_get_set_other. intros ->. apply Hk. now left.
Qed.

(** A forged feature, entry by entry. *)
Lemma forge_feature_inv (py_eval : string -> result pyval) (b : Processor.command)
    (crs_code : Z) (fields_name : list string) (sr : list pyval * pyval)
    (parcel : pyval) :
  Processor.forge_feature py_repr py_eval b crs_code fields_name sr = Ok parcel ->
  exists id properties,
    parcel = PyDict [("_id", PyStr id); ("type", PyStr "Feature");
                     ("geometry", snd sr); ("properties", PyDict properties)]
    /\ Processor.normalize py_repr py_eval (Processor.normalized_parcel_properties b)
         (map fst (Processor.normalized_parcel_properties b))
         (dict_zip fields_name (fst sr))
         [("lpis", PyDict (dict_zip fields_name (fst sr)));
          ("crs", PyDict [("type", PyStr "EPSG");
                          ("properties", PyDict [("code", PyInt crs_code)])]);
          ("version", PyStr (Processor.version b))]
       = Ok properties.
Proof.
  unfold Processor.forge_feature, bind.
  destruct (dict_getitem _ _) as [key |]; [| discriminate].
  destruct (py_int key) as [n |]; [| discriminate].
  destruct (Processor.normalize _ _ _ _ _ _) as [properties |]; [| discriminate].
  intros H. injection H as <-. now eexists _, properties.
Qed.

(** The feature the Processor forges from a record is a GeoJSON [Feature]
    whose geometry is the record's, as the shapefile gave it; its properties
    hold the record's raw attributes under [lpis], the region's EPSG code
    under [crs] and the command's version under [version], each of them
    unless a normalized property of that very name took its place. *)
Theorem processor_feature_entries (py_eval : string -> result pyval)
    (b : Processor.command) (crs_code : Z) (fields_name : list string)
    (sr : list pyval * pyval) (parcel : pyval) :
  Processor.forge_feature py_repr py_eval b crs_code fields_name sr = Ok parcel ->
  py_getitem parcel "type" = Ok (PyStr "Feature")
  /\ py_getitem parcel "geometry" = Ok (snd sr)
  /\ exists properties,
       py_getitem parcel "properties" = Ok (PyDict properties)
       /\ (~ In "lpis" (map fst (Processor.normalized_parcel_properties b)) ->
           dict_get properties "lpis" = Some (PyDict (dict_zip fields_name (fst sr))))
       /\ (~ In "crs" (map fst (Processor.normalized_parcel_properties b)) ->
           dict_get properties "crs"
           = Some (PyDict [("type", PyStr "EPSG");
                           ("properties", PyDict [("code", PyInt crs_code)])]))
       /\ (~ In "version" (map fst (Processor.normalized_parcel_properties b)) ->
           dict_get properties "version" = Some (PyStr (Processor.version b))).
Proof.
  intros Hforge.
  destruct (forge_feature_inv _ _ _ _ _ _ Hforge) as [id [properties [-> Hnorm]]].
  repeat split. exists properties. split; [reflexivity |].
  repeat split; intros Hk;
    now rewrite (normalize_frame _ _ _ _ _ Hk _ _ Hnorm).
Qed.

(** [eval] is reached only through a unit coefficient: when no normalized
    property of the command carries a [coefSI] entry, the feature forged
    from a record, or the exception raised instead, is the same whatever
    [eval] would do. *)
Theorem processor_eval_needs_coefficient (py_eval1 py_eval2 : string -> result pyval)
    (b : Processor.command) (crs_code : Z) (fields_name : list string)
    (sr : list pyval * pyval) :
  (forall prop entries,
      In (prop, PyDict entries) (Processor.normalized_parcel_properties b) ->
      dict_get entries "coefSI" = None) ->
  Processor.forge_feature py_repr py_eval1 b crs_code fields_name sr
  = Processor.forge_feature py_repr py_eval2 b crs_code fields_name sr.
Proof.
  intros Hcoef. unfold Processor.forge_feature, bind.
  destruct (dict_getitem _ _) as [key |]; [| reflexivity].
  destruct (py_int key) as [n |]; [| reflexivity].
  match goal with
  | |- match Processor.normalize _ _ ?nz _ ?pp _ with _ => _ end = _ =>
      assert (Hsame : forall props properties,
                 Processor.normalize py_repr py_eval1 nz props pp properties
                 = Processor.normalize py_repr py_eval2 nz props pp properties);
      [| now rewrite Hsame]
  end.
  induction props as [| prop rest IH]; intros properties;
    cbn [Processor.normalize]; [reflexivity |].
  unfold bind.
  destruct (py_getitem (PyDict (Processor.normalized_parcel_properties b)) prop)
    as [np |] eqn:Hnp; [| reflexivity].
  destruct (py_getitem np "sourceProp") as [source_prop |] eqn:Hsp; [| reflexivity].
  destruct (dict_get_method _ source_prop) as [value |]; [| reflexivity].
  destruct np as [| | | | | | | entries]; try discriminate Hsp.
  simpl in Hnp.
  destruct (dict_get (Processor.normalized_parcel_properties b) prop) as [np |] eqn:Hget;
    [| discriminate Hnp].
  injection Hnp as ->. apply dict_get_In in Hget.
  simpl. unfold dict_has. rewrite (Hcoef _ _ Hget). apply IH.
Qed.

End ProcessorFeatures.

(* ===================================================================== *)
(** * From one stage to the next *)
(* ===================================================================== *)

(** Whatever the Resolver produces is the download command of one link. *)
Lemma resolver_produces_command
    {unicode : Unicode} (py_repr : pyval -> string) (format_unexpected : exn -> string)
    (re_search : string -> string -> bool)
    (scrape : string -> result (list (option string)))
    (cfg : Resolver.FunctionConfig) (done_loading : bool) (body : pyval)
    (topic : option string) (cmd : pyval) :
  In (Resolver.Produce topic cmd)
     (snd (Resolver.handler py_repr format_unexpected re_search scrape cfg
             done_loading body)) ->
  exists year region link,
    Resolver.parse_body body = Ok (year, region)
    /\ cmd = PyDict [("format", PyStr "7z");
                     ("url", PyStr link);
                     ("sourceID",
                      PyStr (Resolver.source_id cfg +++ ":"
                               +++ Resolver.region_code py_repr region));
                     ("parcelIdField", PyStr (Resolver.parcel_id_field cfg));
                     ("normalizedProperties", Resolver.normalized_parcel_properties cfg);
                     ("version", year)].
Proof.
  unfold Resolver.handler, Resolver.try_block. unfold_monad.
  destruct done_loading; simpl.
  2: { intros []. }
  destruct (Resolver.parse_body body) as [[year region] | e] eqn:Hparse.
  2: { destruct e; intros []. }
  simpl. destruct (scrape _) as [hrefs | e].
  2: { destruct e; simpl; intros [H | []]; discriminate H. }
  destruct (negb (Nat.eqb _ 1)).
  { simpl. intros [H | []]. discriminate H. }
  destruct (negb (_ || _)).
  { simpl. intros [H | []]. discriminate H. }
  simpl. intros [H | [H | [H | []]]]; try discriminate H.
  injection H as _ Hcmd. subst cmd.
  now eexists year, region, _.
Qed.

(** Every Download Command the Resolver produces, under any environment,
    passes the Processor's validation: the Processor reads from it the
    format [7z], the link, the sourceID the Resolver built, the parcel id
    field [ID_PARCEL], the area normalization, and as version the text of the
    request's year. *)
Theorem resolver_command_passes_validation
    {unicode : Unicode} (py_repr : pyval -> string) (format_unexpected : exn -> string)
    (re_search : string -> string -> bool)
    (scrape : string -> result (list (option string)))
    (env : string -> option string) (done_loading : bool) (body : pyval)
    (topic : option string) (cmd : pyval) :
  In (Resolver.Produce topic cmd)
     (snd (Resolver.handler py_repr format_unexpected re_search scrape
             (Resolver.load_configs env) done_loading body)) ->
  exists year region link,
    Resolver.parse_body body = Ok (year, region)
    /\ Processor.parse_body py_repr cmd
       = Ok {| Processor.archive_format := PyStr "7z";
               Processor.archive_url := PyStr link;
               Processor.source_id :=
                 PyStr ("lpis:fr:" +++ Resolver.region_code py_repr region);
               Processor.parcel_id_field := PyStr "ID_PARCEL";
               Processor.normalized_parcel_properties :=
                 [("area", PyDict [("sourceProp", PyStr "SURF_PARC");
                                   ("coefSI", PyStr "*10000")])];
               Processor.version := py_str py_repr year |}.
Proof.
  intros Hin.
  destruct (resolver_produces_command _ _ _ _ _ _ _ _ _ Hin)
    as [year [region [link [Hparse ->]]]].
  exists year, region, link. split; [exact Hparse | reflexivity].
Qed.

Lemma resolver_command_passes_validation_witness :
  exists year region link,
    Resolver.parse_body Examples.request_2016_24 = Ok (year, region)
    /\ Processor.parse_body Examples.py_repr
         (PyDict [("format", PyStr "7z");
                  ("url", PyStr "https://wxs.ign.fr/rpg/RPG_2-0__SHP_LAMB93_R24-2016_2016-01-01.7z.001");
                  ("sourceID", PyStr "lpis:fr:R24");
                  ("parcelIdField", PyStr "ID_PARCEL");
                  ("normalizedProperties",
                   PyDict [("area", PyDict [("sourceProp", PyStr "SURF_PARC");
                                            ("coefSI", PyStr "*10000")])]);
                  ("version", PyInt 2016)])
       = Ok {| Processor.archive_format := PyStr "7z";
               Processor.archive_url := PyStr link;
               Processor.source_id :=
                 PyStr ("lpis:fr:" +++ Resolver.region_code Examples.py_repr region);
               Processor.parcel_id_field := PyStr "ID_PARCEL";
               Processor.normalized_parcel_properties :=
                 [("area", PyDict [("sourceProp", PyStr "SURF_PARC");
                                   ("coefSI", PyStr "*10000")])];
               Processor.version := py_str Examples.py_repr year |}.
Proof.
  apply (resolver_command_passes_validation Examples.py_repr Examples.format_unexpected
           Regex.re_search Examples.scrape Examples.env true Examples.request_2016_24
           (Some "lpis")).
  vm_compute. right. left. reflexivity.
Defined.

(** The Ingestor takes every message the Processor produces for a forged
    feature for a feature to reproject, whatever the target code is, the
    feature's own code included: unless a normalized property named [crs]
    took the tag's place, the reprojection step builds both projections,
    reads the coordinates of the record's geometry as the message carries
    them (tuples as lists), reprojects them and writes them back. It never
    hands the feature over as it is. *)
Theorem forged_features_are_always_reprojected
    {unicode : Unicode} (py_repr : pyval -> string) (py_eval : string -> result pyval)
    (proj_known : string -> bool)
    (transform : string -> string -> list pyval -> result pyval)
    (cfg : Ingestor.FunctionConfig)
    (b : Processor.command) (crs_code : Z) (fields_name : list string)
    (sr : list pyval * pyval) (parcel : pyval) :
  Processor.forge_feature py_repr py_eval b crs_code fields_name sr = Ok parcel ->
  ~ In "crs" (map fst (Processor.normalized_parcel_properties b)) ->
  Ingestor.reproject_if_needed py_repr proj_known transform cfg (json_image parcel)
  = (source_proj <- Ingestor.Proj proj_known ("EPSG:" +++ string_of_Z crs_code) ;;
     target_proj <- Ingestor.Proj proj_known
                      ("EPSG:" +++ Ingestor.target_crs_epsg_code cfg) ;;
     coordinates <- py_getitem (json_image (snd sr)) "coordinates" ;;
     new_coordinates <- Ingestor.reproject_coordinates transform source_proj
                          target_proj coordinates ;;
     geometry <- py_setitem (json_image (snd sr)) "coordinates" new_coordinates ;;
     py_setitem (json_image parcel) "geometry" geometry).
Proof.
  intros Hforge Hcrs.
  destruct (forge_feature_inv _ _ _ _ _ _ _ Hforge) as [id [properties [-> Hnorm]]].
  pose proof (normalize_frame _ _ _ _ _ _ Hcrs _ _ Hnorm) as Htag. simpl in Htag.
  unfold Ingestor.reproject_if_needed.
  cbn [json_image map fst snd py_getitem dict_get String.eqb Ascii.eqb Bool.eqb bind
       py_contains].
  unfold dict_has. rewrite dict_get_json_image, Htag.
  cbn [option_map json_image map fst snd].
  reflexivity.
Qed.

Lemma forged_features_are_always_reprojected_witness :
  Ingestor.reproject_if_needed Examples.py_repr Examples.proj_known Examples.transform
    (Ingestor.load_configs Examples.env)
    (json_image
       (Examples.forged ([PyStr "0123"; PyFloat (5 # 2)], Examples.point (1 # 2) 3)))
  = Ok (PyDict
          [("_id", PyStr "lpis:fr:R24:123"); ("type", PyStr "Feature");
           ("geometry",
            PyDict [("type", PyStr "Point");
                    ("coordinates", PyTuple [PyFloat (3 # 2); PyFloat (4 # 1)])]);
           ("properties",
            PyDict [("lpis", PyDict [("ID_PARCEL", PyStr "0123");
                                     ("SURF_PARC", PyFloat (5 # 2))]);
                    ("crs", PyDict [("type", PyStr "EPSG");
                                    ("properties", PyDict [("code", PyInt 2154)])]);
                    ("version", PyStr "2016");
                    ("area", PyFloat (5 # 2))])]).
Proof.
  rewrite (forged_features_are_always_reprojected Examples.py_repr Examples.py_eval
             Examples.proj_known Examples.transform (Ingestor.load_configs Examples.env)
             Examples.parsed_command 2154 ["ID_PARCEL"; "SURF_PARC"]
             ([PyStr "0123"; PyFloat (5 # 2)], Examples.point (1 # 2) 3)
             (Examples.forged ([PyStr "0123"; PyFloat (5 # 2)], Examples.point (1 # 2) 3))).
  - reflexivity.
  - reflexivity.
  - simpl. intros [H | []]. discriminate H.
Defined.

(* ===================================================================== *)
(** * Further properties of the Resolver *)
(* ===================================================================== *)

(** The errors [parse_body] raises by itself are all of status 400. *)
Lemma resolver_parse_body_status {unicode : Unicode} (body : pyval)
    (description : string) (status : Z) :
  Resolver.parse_body body = Raise (NuclioResponseError description status) ->
  status = 400.
Proof.
  unfold Resolver.parse_body, bind. intros H.
  destruct (py_contains body "year") as [[|] | e] eqn:Hcy; simpl in H;
    [| now injection H as _ <- | destruct body; simpl in Hcy; congruence].
  destruct (py_getitem body "year") as [y | e] eqn:Hy.
  2: { destruct body; simpl in Hy; try discriminate; try congruence.
       destruct (dict_get _ _) in Hy; congruence. }
  destruct (py_int y) as [ny | e] eqn:Hny.
  2: { destruct y; simpl in Hny; try discriminate; try congruence.
       destruct (int_of_string _) in Hny; congruence. }
  destruct (Z.eqb ny 0); [now injection H as _ <- |].
  destruct (py_contains body "region") as [[|] | e] eqn:Hcr; simpl in H;
    [| now injection H as _ <- | destruct body; simpl in Hcr; congruence].
  destruct (py_getitem body "region") as [r | e] eqn:Hr.
  2: { destruct body; simpl in Hr; try discriminate; try congruence.
       destruct (dict_get _ _) in Hr; congruence. }
  destruct (py_int r) as [nr | e] eqn:Hnr.
  2: { destruct r; simpl in Hnr; try discriminate; try congruence.
       destruct (int_of_string _) in Hnr; congruence. }
  destruct (Z.eqb nr 0); [now injection H as _ <- | discriminate H].
Qed.

Section ResolverFurther.

Context {unicode : Unicode}.

Variable py_repr : pyval -> string.
Variable format_unexpected : exn -> string.
Variable re_search : string -> string -> bool.
Variable scrape : string -> result (list (option string)).
Variable cfg : Resolver.FunctionConfig.

(** The Resolver's answers. Provided the catalog request raises none of the
    handler's own errors: the answer is 503 exactly while the service is
    loading, and then nothing is done; the answer is 200 only after exactly
    one catalog request, one produced command and its flush, in this order;
    every other answer is a 400 or a 500, after at most the catalog request
    and with nothing produced. *)
Theorem resolver_answers (done_loading : bool) (body : pyval) :
  (forall url description status,
      scrape url <> Raise (NuclioResponseError description status)) ->
  let answer :=
    Resolver.handler py_repr format_unexpected re_search scrape cfg done_loading body in
  (done_loading = false /\ status_code (fst answer) = 503 /\ snd answer = [])
  \/ (done_loading = true
      /\ (status_code (fst answer) = 400 \/ status_code (fst answer) = 500)
      /\ (snd answer = []
          \/ snd answer = [Resolver.Get (Resolver.lpis_fr_ign_rpg_url cfg)]))
  \/ (done_loading = true
      /\ status_code (fst answer) = 200
      /\ exists cmd,
           snd answer = [Resolver.Get (Resolver.lpis_fr_ign_rpg_url cfg);
                         Resolver.Produce (Resolver.target_topic cfg) cmd;
                         Resolver.Flush]).
Proof.
  intros Hscrape. cbv zeta.
  unfold Resolver.handler, Resolver.try_block. unfold_monad.
  destruct done_loading; simpl; [| left; now repeat split].
  right.
  destruct (Resolver.parse_body body) as [[year region] | e] eqn:Hparse.
  2: { left. split; [reflexivity |].
       destruct e as [d st | | | | | | | | |]; simpl; (split; [| now left]);
         try (now right).
       left. now apply resolver_parse_body_status in Hparse. }
  simpl. destruct (scrape _) as [hrefs | e] eqn:Hs.
  2: { left. split; [reflexivity |].
       destruct e as [d st | | | | | | | | |]; simpl; (split; [| now right]);
         try (now right).
       now elim (Hscrape _ _ _ Hs). }
  destruct (negb (Nat.eqb _ 1)).
  { left. simpl. split; [reflexivity |]. split; [now left | now right]. }
  destruct (negb (_ || _)).
  { left. simpl. split; [reflexivity |]. split; [now left | now right]. }
  right. simpl. split; [reflexivity |]. split; [reflexivity |]. now eexists.
Qed.

(** The integer test of [parse_body] refuses the values that convert to
    zero, and only reaches its refusal for them: a year such as [0], ["0"],
    [0.4] or [false] is answered 400 as no integer, before any catalog
    request, and so is such a region after a year that passed. *)
Theorem resolver_refuses_zero (entries : list (string * pyval)) (y : pyval) :
  dict_get entries "year" = Some y ->
  (py_int y = Ok 0 ->
   Resolver.handler py_repr format_unexpected re_search scrape cfg true (PyDict entries)
   = (Resolver.as_response "'year' attribute must be an integer !" 400, []))
  /\ (forall n r,
         py_int y = Ok n -> n <> 0 ->
         dict_get entries "region" = Some r ->
         py_int r = Ok 0 ->
         Resolver.handler py_repr format_unexpected re_search scrape cfg true
           (PyDict entries)
         = (Resolver.as_response "'region' attribute must be an integer !" 400, [])).
Proof.
  intros Hy. split.
  - intros Hzero. unfold Resolver.handler, Resolver.try_block. unfold_monad.
    simpl. unfold Resolver.parse_body. simpl. unfold dict_has.
    rewrite Hy. simpl. now rewrite Hzero.
  - intros n r Hn Hne Hr Hzero.
    unfold Resolver.handler, Resolver.try_block. unfold_monad.
    simpl. unfold Resolver.parse_body. simpl. unfold dict_has.
    rewrite Hy. simpl. rewrite Hn. simpl.
    apply Z.eqb_neq in Hne. rewrite Hne, Hr. simpl. now rewrite Hzero.
Qed.

(** A single matching link that ends neither in [7z] nor in [7z.001] (the
    pattern's dots match any character, and its [$] also matches before a
    final line feed) is refused as no 7z archive: the answer is 400 and
    nothing is produced. *)
Theorem resolver_refuses_other_archive_types (body year region : pyval)
    (hrefs : list (option string)) (link : string) :
  Resolver.parse_body body = Ok (year, region) ->
  scrape (Resolver.lpis_fr_ign_rpg_url cfg) = Ok hrefs ->
  map Resolver.href_of
    (filter (Resolver.is_archive_link re_search
               (Resolver.archive_regex py_repr year
                  (Resolver.region_code py_repr region))) hrefs)
  = [link] ->
  endswith link "7z" || endswith link "7z.001" = false ->
  Resolver.handler py_repr format_unexpected re_search scrape cfg true body
  = (Resolver.as_response ("Not a 7z archive, url(s)=" +++ link) 400,
     [Resolver.Get (Resolver.lpis_fr_ign_rpg_url cfg)]).
Proof.
  intros Hparse Hscrape Hlinks Hends.
  unfold Resolver.handler, Resolver.try_block. unfold_monad.
  simpl. rewrite Hparse. simpl. rewrite Hscrape, Hlinks. simpl.
  now rewrite Hends.
Qed.

(** The overseas rule compares the region with integers: a region given as
    a text passes validation when it reads as a non-zero integer, but is
    never one of the overseas regions. Whatever the Resolver then produces
    carries the mainland form, [R] followed by the text as it was given,
    also for the texts ["1"], ["2"], ["3"], ["4"] and ["6"]. *)
Theorem resolver_text_region_is_mainland (done_loading : bool) (body year : pyval)
    (s : string) (topic : option string) (cmd : pyval) :
  Resolver.parse_body body = Ok (year, PyStr s) ->
  In (Resolver.Produce topic cmd)
     (snd (Resolver.handler py_repr format_unexpected re_search scrape cfg
             done_loading body)) ->
  py_getitem cmd "sourceID" = Ok (PyStr (Resolver.source_id cfg +++ ":R" +++ s)).
Proof.
  intros Hparse Hin.
  destruct (handler_produces _ _ _ _ _ _ _ _ _ Hin) as [y [r [Hp [Hsrc _]]]].
  rewrite Hparse in Hp. injection Hp as _ <-. exact Hsrc.
Qed.

End ResolverFurther.

Lemma resolver_answers_witness :
  status_code (fst (Examples.resolver Examples.request_2016_24)) = 200
  /\ exists cmd,
       snd (Examples.resolver Examples.request_2016_24)
       = [Resolver.Get "http://professionnels.ign.fr/rpg";
          Resolver.Produce (Some "lpis") cmd; Resolver.Flush].
Proof.
  destruct (resolver_answers Examples.py_repr Examples.format_unexpected
              Regex.re_search Examples.scrape (Resolver.load_configs Examples.env)
              true Examples.request_2016_24)
    as [[H _] | [[_ [[H | H] _]] | [_ H]]].
  - intros url description status. discriminate.
  - discriminate H.
  - vm_compute in H. discriminate H.
  - vm_compute in H. discriminate H.
  - exact H.
Defined.

Lemma resolver_refuses_zero_witness :
  Examples.resolver Examples.request_year_zero
  = (Resolver.as_response "'year' attribute must be an integer !" 400, []).
Proof.
  destruct (resolver_refuses_zero Examples.py_repr Examples.format_unexpected
              Regex.re_search Examples.scrape (Resolver.load_configs Examples.env)
              [("year", PyInt 0); ("region", PyInt 24)] (PyInt 0) eq_refl)
    as [Hyear _].
  apply Hyear. reflexivity.
Defined.

Lemma resolver_refuses_other_archive_types_witness :
  Resolver.handler Examples.py_repr Examples.format_unexpected Regex.re_search
    (fun _ => Ok Examples.catalog_line_feed) (Resolver.load_configs Examples.env) true
    Examples.request_2016_24
  = (Resolver.as_response
       ("Not a 7z archive, url(s)="
          +++ "https://wxs.ign.fr/rpg/RPG_2-0__SHP_LAMB93_R24-2016_2016-01-01.7z"
          +++ String "010"%char EmptyString) 400,
     [Resolver.Get "http://professionnels.ign.fr/rpg"]).
Proof.
  apply (resolver_refuses_other_archive_types Examples.py_repr
           Examples.format_unexpected Regex.re_search
           (fun _ => Ok Examples.catalog_line_feed)
           (Resolver.load_configs Examples.env)
           Examples.request_2016_24 (PyInt 2016) (PyInt 24)
           Examples.catalog_line_feed);
    vm_compute; reflexivity.
Defined.

Lemma resolver_text_region_is_mainland_witness :
  py_getitem
    (PyDict [("format", PyStr "7z");
             ("url", PyStr "https://wxs.ign.fr/rpg/RPG_2-0__SHP_LAMB93_R4-2016_2016-01-01.7z");
             ("sourceID", PyStr "lpis:fr:R4");
             ("parcelIdField", PyStr "ID_PARCEL");
             ("normalizedProperties",
              PyDict [("area", PyDict [("sourceProp", PyStr "SURF_PARC");
                                       ("coefSI", PyStr "*10000")])]);
             ("version", PyInt 2016)]) "sourceID"
  = Ok (PyStr ("lpis:fr" +++ ":R" +++ "4")).
Proof.
  apply (resolver_text_region_is_mainland Examples.py_repr Examples.format_unexpected
           Regex.re_search (fun _ => Ok Examples.catalog_R4)
           (Resolver.load_configs Examples.env) true Examples.request_text_region
           (PyInt 2016) "4" (Some "lpis")).
  - reflexivity.
  - vm_compute. right. left. reflexivity.
Defined.

(* ===================================================================== *)
(** * Integers as texts, and the region code between two stages *)
(* ===================================================================== *)

(** ** Decimal texts *)

(** The value of a run of decimal digits read after the value [acc]. *)
Fixpoint uint_value (acc : Z) (d : Decimal.uint) : Z :=
  match d with
  | Decimal.Nil => acc
  | Decimal.D0 l => uint_value (10 * acc + 0) l
  | Decimal.D1 l => uint_value (10 * acc + 1) l
  | Decimal.D2 l => uint_value (10 * acc + 2) l
  | Decimal.D3 l => uint_value (10 * acc + 3) l
  | Decimal.D4 l => uint_value (10 * acc + 4) l
  | Decimal.D5 l => uint_value (10 * acc + 5) l
  | Decimal.D6 l => uint_value (10 * acc + 6) l
  | Decimal.D7 l => uint_value (10 * acc + 7) l
  | Decimal.D8 l => uint_value (10 * acc + 8) l
  | Decimal.D9 l => uint_value (10 * acc + 9) l
  end.

Definition all_digits (cs : list ascii) : Prop := Forall (fun c => is_digit c = true) cs.

Lemma uint_chars_digits (d : Decimal.uint) : all_digits (chars (NilEmpty.string_of_uint d)).
Proof.
  induction d; simpl; constructor; try reflexivity; exact IHd.
Qed.

Lemma digits_value_uint (d : Decimal.uint) :
  forall acc, digits_value acc true (chars (NilEmpty.string_of_uint d))
              = Some (uint_value acc d).
Proof.
  induction d; intros acc; [reflexivity | ..];
    cbn [NilEmpty.string_of_uint chars list_ascii_of_string digits_value uint_value];
    apply IHd.
Qed.

Lemma digits_value_uint_first (d : Decimal.uint) (acc : Z) :
  d <> Decimal.Nil ->
  digits_value acc false (chars (NilEmpty.string_of_uint d)) = Some (uint_value acc d).
Proof.
  destruct d; intros Hd; [now elim Hd | ..];
    cbn [NilEmpty.string_of_uint chars list_ascii_of_string digits_value uint_value];
    apply digits_value_uint.
Qed.

Lemma uint_value_pos (d : Decimal.uint) :
  forall p, uint_value (Z.pos p) d = Z.pos (Pos.of_uint_acc d p).
Proof.
  induction d; intros p; cbn [uint_value Pos.of_uint_acc]; [reflexivity | ..];
    rewrite <- IHd; f_equal. all: rewrite Pos2Z.inj_add, Pos2Z.inj_mul; change (Z.pos 10) with 10; ring.
Qed.

Lemma uint_value_0 (d : Decimal.uint) : uint_value 0 d = Z.of_N (Pos.of_uint d).
Proof.
  induction d; simpl; try exact IHd; try reflexivity;
    now rewrite (uint_value_pos d _).
Qed.

Lemma digit_not_space (c : ascii) : is_digit c = true -> is_space c = false.
Proof.
  destruct c as [[] [] [] [] [] [] [] []]; vm_compute; congruence.
Qed.

Lemma digit_not_colon (c : ascii) : is_digit c = true -> Ascii.eqb ":" c = false.
Proof.
  destruct c as [[] [] [] [] [] [] [] []]; vm_compute; congruence.
Qed.

Definition no_space (cs : list ascii) : Prop := Forall (fun c => is_space c = false) cs.

Lemma digits_no_space (cs : list ascii) : all_digits cs -> no_space cs.
Proof. apply Forall_impl. exact digit_not_space. Qed.

Lemma lstrip_no_space (cs : list ascii) : no_space cs -> lstrip cs = cs.
Proof.
  intros H. destruct H as [| c cs Hc _]; [reflexivity |].
  simpl. now rewrite Hc.
Qed.

Lemma strip_no_space (cs : list ascii) : no_space cs -> strip cs = cs.
Proof.
  intros H. unfold strip. rewrite (lstrip_no_space cs H).
  rewrite lstrip_no_space by (now apply Forall_rev).
  apply rev_involutive.
Qed.

Lemma digit_is_ascii (c : ascii) : is_digit c = true -> is_ascii c = true.
Proof.
  destruct c as [[] [] [] [] [] [] [] []]; vm_compute; congruence.
Qed.

Lemma digits_ascii (cs : list ascii) : all_digits cs -> forallb is_ascii cs = true.
Proof.
  induction 1 as [| c cs Hc _ IH]; [reflexivity |].
  cbn [forallb]. now rewrite (digit_is_ascii c Hc), IH.
Qed.

Lemma int_of_ascii_uint (d : Decimal.uint) :
  d <> Decimal.Nil ->
  int_of_ascii (NilEmpty.string_of_uint d) = Some (Z.of_N (Pos.of_uint d)).
Proof.
  intros Hd. unfold int_of_ascii.
  rewrite (strip_no_space _ (digits_no_space _ (uint_chars_digits d))).
  rewrite <- uint_value_0, <- (digits_value_uint_first d 0 Hd).
  destruct d; [now elim Hd | ..]; reflexivity.
Qed.

Lemma digits_value_of_pos (p : positive) :
  digits_value 0 false (chars (NilEmpty.string_of_uint (Pos.to_uint p))) = Some (Z.pos p).
Proof.
  rewrite (digits_value_uint_first _ 0 (DecimalPos.Unsigned.to_uint_nonnil p)).
  now rewrite uint_value_0, DecimalPos.Unsigned.of_to.
Qed.

Lemma string_of_uint_pos (p : positive) :
  NilZero.string_of_uint (Pos.to_uint p) = NilEmpty.string_of_uint (Pos.to_uint p).
Proof.
  pose proof (DecimalPos.Unsigned.to_uint_nonnil p) as Hnil.
  unfold NilZero.string_of_uint. now destruct (Pos.to_uint p).
Qed.

(** The text of an integer is ASCII. *)
Lemma string_of_Z_ascii (n : Z) : is_ascii_text (string_of_Z n) = true.
Proof.
  unfold is_ascii_text.
  destruct n as [| p | p]; [reflexivity | |]; unfold string_of_Z; simpl Z.to_int;
    unfold NilZero.string_of_int; rewrite string_of_uint_pos.
  - apply digits_ascii, uint_chars_digits.
  - change (chars (String "-" ?s)) with ("-"%char :: chars s).
    cbn [forallb]. rewrite (digits_ascii _ (uint_chars_digits _)). reflexivity.
Qed.

Lemma int_of_ascii_of_Z (n : Z) : int_of_ascii (string_of_Z n) = Some n.
Proof.
  destruct n as [| p | p]; [reflexivity | |]; unfold string_of_Z; simpl Z.to_int;
    unfold NilZero.string_of_int; rewrite string_of_uint_pos.
  - rewrite int_of_ascii_uint by apply DecimalPos.Unsigned.to_uint_nonnil.
    now rewrite DecimalPos.Unsigned.of_to.
  - unfold int_of_ascii.
    change (chars (String "-" ?s)) with ("-"%char :: chars s).
    rewrite strip_no_space.
    + cbv iota beta. now rewrite digits_value_of_pos.
    + constructor; [reflexivity |]. apply digits_no_space, uint_chars_digits.
Qed.

(** [int(str(n))] is [n]. *)
Lemma int_of_string_of_Z {unicode : Unicode} (n : Z) :
  int_of_string (string_of_Z n) = Some n.
Proof.
  unfold int_of_string. rewrite string_of_Z_ascii. apply int_of_ascii_of_Z.
Qed.

(** The text of an integer that is not negative: digits, at least one. *)
Lemma string_of_Z_digits (n : Z) :
  0 <= n ->
  all_digits (chars (string_of_Z n)) /\ chars (string_of_Z n) <> [].
Proof.
  intros Hn. destruct n as [| p | p]; [| | lia].
  - split; [repeat constructor | discriminate].
  - unfold string_of_Z. simpl Z.to_int.
    unfold NilZero.string_of_int. rewrite string_of_uint_pos.
    split; [apply uint_chars_digits |].
    pose proof (DecimalPos.Unsigned.to_uint_nonnil p) as Hnil.
    now destruct (Pos.to_uint p).
Qed.

Lemma string_of_Z_inj (n m : Z) : string_of_Z n = string_of_Z m -> n = m.
Proof.
  intros H. pose proof (int_of_ascii_of_Z n) as Hn.
  rewrite H, int_of_ascii_of_Z in Hn. now injection Hn.
Qed.

Lemma append_inv_head (p s t : string) : p +++ s = p +++ t -> s = t.
Proof.
  induction p as [| c p IH]; simpl; intros H; [exact H |].
  injection H as H. now apply IH.
Qed.

Lemma take_digits_all (cs : list ascii) : all_digits cs -> take_digits cs = cs.
Proof.
  induction 1 as [| c cs Hc _ IH]; [reflexivity |].
  simpl. now rewrite Hc, IH.
Qed.

Lemma rsplit_last_none (sep : ascii) (s : string) :
  existsb (Ascii.eqb sep) (chars s) = false -> rsplit_last sep s = s.
Proof.
  destruct s as [| c s]; [reflexivity |].
  cbn [chars list_ascii_of_string existsb rsplit_last].
  intros H. apply orb_false_elim in H as [Hc Hs].
  rewrite Ascii.eqb_sym in Hc. unfold chars. now rewrite Hc, Hs.
Qed.

Lemma digits_no_colon (cs : list ascii) :
  all_digits cs -> existsb (Ascii.eqb ":") cs = false.
Proof.
  induction 1 as [| c cs Hc _ IH]; [reflexivity |].
  cbn [existsb]. now rewrite (digit_not_colon c Hc), IH.
Qed.

Lemma chars_append (s t : string) : chars (s +++ t) = chars s ++ chars t.
Proof. induction s as [| c s IH]; simpl; [reflexivity | now rewrite IH]. Qed.

Lemma of_chars_chars (s : string) : of_chars (chars s) = s.
Proof. apply string_of_list_ascii_of_string. Qed.

Lemma search_R_digits_mainland (s : string) :
  all_digits (chars s) -> chars s <> [] ->
  Processor.search_R_digits (chars ("R" +++ s)) = Some s.
Proof.
  intros Hs Hne. change (chars ("R" +++ s)) with ("R"%char :: chars s).
  destruct (chars s) as [| c cs] eqn:Hc; [now elim Hne |].
  cbn [Processor.search_R_digits]. inversion Hs as [| ? ? Hd Hcs]; subst.
  rewrite Hd. cbn [Ascii.eqb Bool.eqb andb]. cbv iota.
  rewrite take_digits_all by exact Hs. now rewrite <- Hc, of_chars_chars.
Qed.

Lemma rsplit_last_after (sep : ascii) (p s : string) :
  rsplit_last sep (p +++ String sep s) = rsplit_last sep s.
Proof.
  induction p as [| c p IH]; cbn [String.append rsplit_last].
  - now rewrite Ascii.eqb_refl.
  - rewrite IH. destruct (Ascii.eqb c sep); [reflexivity |].
    rewrite chars_append, existsb_app.
    cbn [chars list_ascii_of_string existsb]. rewrite Ascii.eqb_refl.
    now rewrite orb_true_r.
Qed.

Section RegionCodes.

Context {unicode : Unicode}.

Variable py_repr : pyval -> string.
Variable env : string -> option string.

(** The region code the Resolver writes into the sourceID of its command is
    the one the Processor reads back from it. For every region number that
    is not negative: the last component of the command's sourceID is the
    Resolver's region code; from it the Processor's first pattern finds the
    digits of a mainland region and nothing for an overseas region, for
    which the second pattern finds the digit; and the digits found convert
    to the region number, the key of the Processor's CRS table. *)
Theorem region_code_round_trip (n : Z) :
  0 <= n ->
  let region := Resolver.region_code py_repr (PyInt n) in
  Processor.py_rsplit_last ":"
    (PyStr (Resolver.source_id (Resolver.load_configs env) +++ ":" +++ region))
  = Ok region
  /\ (if py_in_ints (PyInt n) [1; 2; 3; 4; 6]
      then Processor.search_R_digits (chars region) = None
           /\ Processor.search_D97_digit (chars region) = Some (string_of_Z n)
      else Processor.search_R_digits (chars region) = Some (string_of_Z n))
  /\ py_int (PyStr (string_of_Z n)) = Ok n.
Proof.
  intros Hn. cbv zeta.
  destruct (string_of_Z_digits n Hn) as [Hdigits Hne].
  split; [| split].
  - unfold Processor.py_rsplit_last. f_equal.
    change (":" +++ ?r) with (String ":" r).
    rewrite rsplit_last_after. apply rsplit_last_none.
    unfold Resolver.region_code.
    destruct (py_in_ints _ _); rewrite chars_append, existsb_app; cbn [py_str];
      now rewrite (digits_no_colon _ Hdigits).
  - unfold Resolver.region_code.
    destruct (py_in_ints (PyInt n) [1; 2; 3; 4; 6]) eqn:Hin.
    + apply py_in_ints_int in Hin.
      simpl in Hin. 
      destruct Hin as [<- | [<- | [<- | [<- | [<- | []]]]]]; split; reflexivity.
    + cbn [py_str]. now apply search_R_digits_mainland.
  - simpl. now rewrite int_of_string_of_Z.
Qed.

End RegionCodes.

Lemma region_code_round_trip_witness :
  Processor.py_rsplit_last ":" (PyStr "lpis:fr:D974") = Ok "D974"
  /\ (Processor.search_R_digits (chars "D974") = None
      /\ Processor.search_D97_digit (chars "D974") = Some "4")
  /\ py_int (PyStr "4") = Ok 4.
Proof.
  apply (region_code_round_trip Examples.py_repr Examples.env 4). lia.
Defined.

Section ProcessorIds.

Context {unicode : Unicode}.

Variable py_repr : pyval -> string.
Variable py_eval : string -> result pyval.

(** Within one command, the features' ids tell the natural keys apart: two
    forged features have the same id exactly when their records' keys
    convert to the same integer. With the Ingestor's upsert by id, the store
    holds one document for each integer key of a source. *)
Theorem processor_ids_tell_keys_apart (b : Processor.command) (crs_code : Z)
    (fields_name : list string) (sr1 sr2 : list pyval * pyval)
    (parcel1 parcel2 key1 key2 : pyval) (n1 n2 : Z) :
  Processor.forge_feature py_repr py_eval b crs_code fields_name sr1 = Ok parcel1 ->
  Processor.forge_feature py_repr py_eval b crs_code fields_name sr2 = Ok parcel2 ->
  dict_getitem (dict_zip fields_name (fst sr1)) (Processor.parcel_id_field b) = Ok key1 ->
  dict_getitem (dict_zip fields_name (fst sr2)) (Processor.parcel_id_field b) = Ok key2 ->
  py_int key1 = Ok n1 ->
  py_int key2 = Ok n2 ->
  (py_getitem parcel1 "_id" = py_getitem parcel2 "_id" <-> n1 = n2).
Proof.
  intros H1 H2 Hk1 Hk2 Hn1 Hn2.
  destruct (forge_feature_id _ _ _ _ _ _ _ H1) as [k1 [m1 [Hk1' [Hm1 Hid1]]]].
  destruct (forge_feature_id _ _ _ _ _ _ _ H2) as [k2 [m2 [Hk2' [Hm2 Hid2]]]].
  rewrite Hk1 in Hk1'. injection Hk1' as <-.
  rewrite Hk2 in Hk2'. injection Hk2' as <-.
  rewrite Hn1 in Hm1. injection Hm1 as <-.
  rewrite Hn2 in Hm2. injection Hm2 as <-.
  rewrite Hid1, Hid2. split.
  - intros H. injection H as H.
    apply append_inv_head in H. injection H as H.
    now apply string_of_Z_inj.
  - now intros ->.
Qed.

End ProcessorIds.

(* ===================================================================== *)
(** * The Processor's download, search and flushes *)
(* ===================================================================== *)

Section ProcessorDownload.

Context {unicode : Unicode}.

Variable py_repr : pyval -> string.
Variable format_unexpected : exn -> string.
Variable urlopen_ok : string -> bool.
Variable extractall : string -> string -> result unit.
Variable walk : string -> list (string * list string).
Variable Reader : string -> result Processor.shapefile.
Variable py_eval : string -> result pyval.
Variable target_topic : option string.

Lemma download_file_fails (url path : string) (st : Processor.state) :
  urlopen_ok url = false ->
  exists mk st1,
    Processor.download_file urlopen_ok url path st
    = (Raise (NuclioResponseError ("Failed to download file: " +++ url) 503), st1)
    /\ Processor.trace st1 = Processor.trace st ++ mk ++ [Processor.Download url path]
    /\ (mk = [] \/ exists d, mk = [Processor.Makedirs d])
    /\ Processor.tmp_dir st1 = Processor.tmp_dir st
    /\ (forall d, Processor.exists_dir d st = true -> Processor.exists_dir d st1 = true).
Proof.
  intros Hopen. unfold Processor.download_file, Processor.makedirs_exist_ok.
  unfold_monad. rewrite Hopen. cbn [negb].
  destruct (Processor.exists_dir (dirname path) st).
  - exists [], (Processor.log (Processor.Download url path) st).
    repeat split; auto.
  - eexists [Processor.Makedirs (dirname path)], _. split; [reflexivity |].
    split; [cbn; now rewrite <- app_assoc |].
    split; [right; now eexists |]. split; [reflexivity |].
    intros d Hd. unfold Processor.exists_dir in *. cbn. now rewrite Hd, orb_true_r.
Qed.

(** A download that fails. When the request is valid and its working
    directory does not exist yet, and the archive cannot be fetched, the
    handler answers 503 with the archive's URL; it has made the working
    directory, attempted the download and removed the working directory,
    and has extracted and produced nothing. *)
Theorem processor_download_failure (event : Processor.Event) (dirs : list string)
    (b : Processor.command) (url : string) :
  Processor.parse_body py_repr (Processor.event_body event) = Ok b ->
  Processor.archive_url b = PyStr url ->
  urlopen_ok url = false ->
  Processor.exists_dir ("/tmp/nuclio-event-" +++ Processor.event_id event)
    (Processor.fresh dirs) = false ->
  exists st2 mk path,
    Processor.handler py_repr format_unexpected urlopen_ok extractall walk Reader
      py_eval target_topic true event dirs
    = (Ok (RResponse (Processor.as_response ("Failed to download file: " +++ url) 503)),
       st2)
    /\ Processor.trace st2
       = Processor.Makedirs ("/tmp/nuclio-event-" +++ Processor.event_id event)
           :: mk ++ [Processor.Download url path;
                     Processor.Rmtree ("/tmp/nuclio-event-" +++ Processor.event_id event)]
    /\ (mk = [] \/ exists d, mk = [Processor.Makedirs d])
    /\ Processor.exists_dir ("/tmp/nuclio-event-" +++ Processor.event_id event) st2
       = false.
Proof.
  intros Hparse Hurl Hopen Hnew.
  rewrite processor_finish.
  unfold Processor.try_block.
  assert (exists mk path st1,
             Processor.stage py_repr urlopen_ok extractall walk Reader true event
               (Processor.fresh dirs)
             = (Raise (NuclioResponseError ("Failed to download file: " +++ url) 503), st1)
             /\ Processor.trace st1
                = Processor.Makedirs ("/tmp/nuclio-event-" +++ Processor.event_id event)
                    :: mk ++ [Processor.Download url path]
             /\ (mk = [] \/ exists d, mk = [Processor.Makedirs d])
             /\ staged ("/tmp/nuclio-event-" +++ Processor.event_id event) st1)
    as [mk [path [st1 [Hstage [Htrace [Hmk Hstaged]]]]]].
  { unfold Processor.stage.
    rewrite (bindM_ok _ _ _ (Processor.fresh dirs) tt) by reflexivity.
    rewrite (bindM_ok _ _ _ (Processor.fresh dirs) b) by (unfold lift; now rewrite Hparse).
    erewrite bindM_ok
      by (unfold Processor.create_temporary_dir, Processor.makedirs, bindM, ret;
          rewrite Hnew; reflexivity).
    erewrite bindM_ok by reflexivity.
    rewrite Hurl.
    erewrite bindM_ok by reflexivity.
    cbn [py_str].
    match goal with
    | |- context [Processor.download_file urlopen_ok url ?p] =>
        match goal with
        | |- context [bindM _ _ ?st] =>
            destruct (download_file_fails url p st Hopen)
              as [mk [st1 [Hdl [Htr [Hmk [Htmp Hdirs]]]]]];
            exists mk, p, st1
        end
    end.
    rewrite (bindM_raise _ _ _ _ _ Hdl).
    split; [reflexivity |]. split; [rewrite Htr; reflexivity |].
    split; [exact Hmk |]. split; [rewrite Htmp; reflexivity |].
    apply Hdirs. unfold Processor.exists_dir. cbn. now rewrite String.eqb_refl. }
  rewrite (bindM_raise _ _ _ _ _ Hstage).
  destruct (finish_staged format_unexpected
              (Raise (NuclioResponseError ("Failed to download file: " +++ url) 503))
              _ st1 Hstaged) as [st2 [Hfinish [Htr2 Hgone]]].
  exists st2, mk, path. split; [exact Hfinish |].
  split; [| split; assumption].
  rewrite Htr2, Htrace. cbn. now rewrite <- app_assoc.
Qed.

End ProcessorDownload.

(** ** The search for the shapefile *)

Lemma filter_name_NoDup (name : string) (files : list string) :
  NoDup files ->
  filter (fun f => String.eqb f name) files
  = if existsb (String.eqb name) files then [name] else [].
Proof.
  induction 1 as [| f files Hnotin _ IH]; [reflexivity |].
  cbn [filter existsb]. rewrite (String.eqb_sym name f).
  destruct (String.eqb_spec f name) as [-> | Hne]; cbn [orb]; [| exact IH].
  rewrite IH. destruct (existsb (String.eqb name) files) eqn:Hex; [| reflexivity].
  apply existsb_exists in Hex as [x [Hin Hx]]. apply String.eqb_eq in Hx. now subst.
Qed.

Lemma find_shapefiles_NoDup (entries : list (string * list string)) :
  (forall dirpath files, In (dirpath, files) entries -> NoDup files) ->
  forall shpfs,
    Processor.find_shapefiles entries shpfs
    = Ok (shpfs ++ map (fun entry => path_join (fst entry) "PARCELLES_GRAPHIQUES.shp")
                     (filter (fun entry =>
                                existsb (String.eqb "PARCELLES_GRAPHIQUES.shp") (snd entry))
                        entries)).
Proof.
  induction entries as [| [dirpath files] rest IH]; intros Hnodup shpfs.
  - cbn. now rewrite app_nil_r.
  - cbn [Processor.find_shapefiles filter map fst snd].
    rewrite (filter_name_NoDup _ files) by (eapply Hnodup; left; reflexivity).
    destruct (existsb _ files); cbn.
    + rewrite IH by (intros d f Hin; eapply Hnodup; right; exact Hin).
      now rewrite <- app_assoc.
    + apply IH. intros d f Hin. eapply Hnodup. right. exact Hin.
Qed.

(** The search over a directory tree, where no directory lists a name twice:
    it never raises, and finds the shapefile once in every directory that
    has a file of exactly its name, in the order of the walk. So the error
    about more than one shapefile is never raised on a tree; an archive with
    the shapefile in two directories fails the handler's later test that
    one was found. *)
Theorem processor_shapefile_search (entries : list (string * list string)) :
  (forall dirpath files, In (dirpath, files) entries -> NoDup files) ->
  Processor.find_shapefiles entries []
  = Ok (map (fun entry => path_join (fst entry) "PARCELLES_GRAPHIQUES.shp")
          (filter (fun entry =>
                     existsb (String.eqb "PARCELLES_GRAPHIQUES.shp") (snd entry))
             entries)).
Proof. intros Hnodup. now rewrite find_shapefiles_NoDup. Qed.

Lemma processor_shapefile_search_witness :
  Processor.find_shapefiles (Examples.walk "/tmp/nuclio-event-42/RPG_2016") []
  = Ok ["/tmp/nuclio-event-42/RPG_2016/RPG/PARCELLES_GRAPHIQUES.shp"].
Proof.
  apply (processor_shapefile_search (Examples.walk "/tmp/nuclio-event-42/RPG_2016")).
  intros dirpath files [H | [H | []]]; injection H as _ <-;
    repeat constructor; simpl; intuition discriminate.
Defined.

(** ** The producer's flushes *)

Fixpoint flushes (tr : list Processor.event) : Z :=
  match tr with
  | [] => 0
  | Processor.Flush :: tr' => 1 + flushes tr'
  | _ :: tr' => flushes tr'
  end.

Lemma flushes_app (tr1 tr2 : list Processor.event) :
  flushes (tr1 ++ tr2) = flushes tr1 + flushes tr2.
Proof.
  induction tr1 as [| e tr1 IH]; [reflexivity |].
  destruct e; cbn [app flushes]; rewrite IH; lia.
Qed.

Lemma flushes_emitted (target_topic : option string) (parcels : list pyval) :
  forall count,
    0 <= count ->
    flushes (emitted target_topic count parcels)
    = (count + Z.of_nat (List.length parcels) + 999) / 1000 - (count + 999) / 1000.
Proof.
  induction parcels as [| parcel rest IH]; intros count Hcount.
  - cbn. rewrite Z.add_0_r. lia.
  - cbn [emitted flushes List.length]. rewrite flushes_app, IH by lia.
    rewrite Nat2Z.inj_succ.
    destruct (Z.eqb_spec (count mod 1000) 0) as [Hz | Hnz]; cbn [flushes];
      Z.div_mod_to_equations; lia.
Qed.

(** The world has seen no flush. *)
Definition unflushed (st : Processor.state) : Prop :=
  flushes (Processor.trace st) = 0.

Lemma unflushed_log (e : Processor.event) (st : Processor.state) :
  flushes [e] = 0 -> unflushed st -> unflushed (Processor.log e st).
Proof.
  intros He Hst. unfold unflushed in *. cbn. rewrite flushes_app. lia.
Qed.

Lemma unflushed_makedirs (path : string) : preserves unflushed (Processor.makedirs path).
Proof.
  intros st r st' Hst H. unfold Processor.makedirs in H.
  destruct (Processor.exists_dir path st); injection H as _ <-; [exact Hst |].
  unfold unflushed in *. cbn. rewrite flushes_app. cbn. lia.
Qed.

Lemma unflushed_makedirs_exist_ok (path : string) :
  preserves unflushed (Processor.makedirs_exist_ok path).
Proof.
  intros st r st' Hst H. unfold Processor.makedirs_exist_ok in H.
  destruct (Processor.exists_dir path st); injection H as _ <-; [exact Hst |].
  unfold unflushed in *. cbn. rewrite flushes_app. cbn. lia.
Qed.

Ltac unflushed_step :=
  first [ apply preserves_ret | apply preserves_raise | apply preserves_lift
        | apply preserves_raise_if
        | apply unflushed_makedirs | apply unflushed_makedirs_exist_ok
        | apply preserves_modify; intros ? ?;
          first [ apply unflushed_log; [reflexivity | assumption] | assumption ]
        | apply preserves_bind; [| intros ?] ].

Section ProcessorFlushes.

Context {unicode : Unicode}.

Variable py_repr : pyval -> string.
Variable format_unexpected : exn -> string.
Variable urlopen_ok : string -> bool.
Variable extractall : string -> string -> result unit.
Variable walk : string -> list (string * list string).
Variable Reader : string -> result Processor.shapefile.
Variable py_eval : string -> result pyval.
Variable target_topic : option string.

Lemma unflushed_stage (done_loading : bool) (event : Processor.Event) :
  preserves unflushed
    (Processor.stage py_repr urlopen_ok extractall walk Reader done_loading event).
Proof.
  unfold Processor.stage, Processor.create_temporary_dir, Processor.download_file.
  repeat unflushed_step.
Qed.

(** The producer's flushes in a run that forges every record: one after the
    first feature, one after every thousandth feature that follows it, and
    one when the loop is over. *)
Theorem processor_flushes (done_loading : bool) (event : Processor.Event)
    (dirs : list string) (b : Processor.command) (crs_code : Z)
    (reader : Processor.shapefile) (st1 : Processor.state) (parcels : list pyval) :
  Processor.stage py_repr urlopen_ok extractall walk Reader done_loading event
    (Processor.fresh dirs)
  = (Ok (b, crs_code, reader), st1) ->
  Forall2
    (fun r parcel =>
       Processor.forge_feature py_repr py_eval b crs_code
         (tl (Processor.fields reader)) r = Ok parcel)
    (Processor.shapeRecords reader) parcels ->
  flushes (Processor.trace
             (snd (Processor.handler py_repr format_unexpected urlopen_ok extractall
                     walk Reader py_eval target_topic done_loading event dirs)))
  = (Z.of_nat (List.length (Processor.shapeRecords reader)) + 999) / 1000 + 1.
Proof.
  intros Hstage Hall.
  pose proof (unflushed_stage _ _ _ _ _ (eq_refl : unflushed (Processor.fresh dirs))
                Hstage) as Hquiet.
  destruct (stage_ends _ _ _ _ _ _ _ _ _ _ Hstage) as [_ [[_ [e' He']] | Hst]];
    [discriminate |].
  rewrite processor_finish.
  unfold Processor.try_block.
  rewrite (bindM_ok _ _ _ _ _ Hstage). cbv beta iota zeta.
  rewrite (bindM_ok _ _ _ _ _
             (process_records_all py_repr py_eval target_topic _ _ _ _ _ Hall 0 st1)).
  rewrite (bindM_ok _ _ _ (Processor.log Processor.Flush
                             (add_trace st1 (emitted target_topic 0 parcels))) tt)
    by reflexivity.
  unfold ret.
  destruct (finish_staged format_unexpected
              (Ok (0 + Z.of_nat (List.length (Processor.shapeRecords reader))))
              _ (Processor.log Processor.Flush
                   (add_trace st1 (emitted target_topic 0 parcels))) Hst)
    as [st2 [Hfinish [Htrace _]]].
  rewrite Hfinish. cbn [snd]. rewrite Htrace. cbn [Processor.log Processor.trace add_trace].
  rewrite !flushes_app, flushes_emitted by lia.
  unfold unflushed in Hquiet. rewrite Hquiet.
  rewrite (Forall2_length Hall). cbn [flushes]. 
  rewrite !Z.add_0_l. change (999 / 1000) with 0. lia.
Qed.

End ProcessorFlushes.

(* ===================================================================== *)
(** * The Processor's working directory *)
(* ===================================================================== *)

Section ProcessorWorkingDirectory.

Context {unicode : Unicode}.

Variable py_repr : pyval -> string.
Variable format_unexpected : exn -> string.
Variable urlopen_ok : string -> bool.
Variable extractall : string -> string -> result unit.
Variable walk : string -> list (string * list string).
Variable Reader : string -> result Processor.shapefile.
Variable py_eval : string -> result pyval.
Variable target_topic : option string.

(** A working directory that is already there. The directory is named after
    the event's id alone; when it exists as a valid request arrives,
    [os.makedirs] raises before [tmp_dir] is assigned, and the handler
    raises from its [finally] clause: the request gets no response, nothing
    is downloaded, and the directory stays. *)
Theorem processor_existing_working_directory (event : Processor.Event)
    (dirs : list string) (b : Processor.command) :
  Processor.parse_body py_repr (Processor.event_body event) = Ok b ->
  Processor.exists_dir ("/tmp/nuclio-event-" +++ Processor.event_id event)
    (Processor.fresh dirs) = true ->
  Processor.handler py_repr format_unexpected urlopen_ok extractall walk Reader
    py_eval target_topic true event dirs
  = (Raise (UnboundLocalError "tmp_dir"), Processor.fresh dirs).
Proof.
  intros Hparse Hthere. rewrite processor_finish.
  unfold Processor.try_block, Processor.stage.
  assert (Hstage :
            Processor.stage py_repr urlopen_ok extractall walk Reader true event
              (Processor.fresh dirs)
            = (Raise (FileExistsError ("/tmp/nuclio-event-" +++ Processor.event_id event)),
               Processor.fresh dirs)).
  { unfold Processor.stage.
    rewrite (bindM_ok _ _ _ (Processor.fresh dirs) tt) by reflexivity.
    rewrite (bindM_ok _ _ _ (Processor.fresh dirs) b) by (unfold lift; now rewrite Hparse).
    erewrite bindM_raise; [reflexivity |].
    unfold Processor.create_temporary_dir, Processor.makedirs, bindM.
    now rewrite Hthere. }
  fold (Processor.stage py_repr urlopen_ok extractall walk Reader true event).
  rewrite (bindM_raise _ _ _ _ _ Hstage).
  apply finish_unstaged.
Qed.

End ProcessorWorkingDirectory.

Lemma processor_existing_working_directory_witness :
  Processor.handler Examples.py_repr Examples.format_unexpected Examples.urlopen_ok
    Examples.extractall Examples.walk Examples.Reader Examples.py_eval
    (Examples.env "TARGET_TOPIC") true
    {| Processor.event_body := Examples.command "7z"; Processor.event_id := "42" |}
    ["/tmp/nuclio-event-42"]
  = (Raise (UnboundLocalError "tmp_dir"), Processor.fresh ["/tmp/nuclio-event-42"]).
Proof.
  apply (processor_existing_working_directory Examples.py_repr
           Examples.format_unexpected Examples.urlopen_ok Examples.extractall
           Examples.walk Examples.Reader Examples.py_eval (Examples.env "TARGET_TOPIC")
           {| Processor.event_body := Examples.command "7z"; Processor.event_id := "42" |}
           ["/tmp/nuclio-event-42"] Examples.parsed_command); reflexivity.
Defined.

(* ===================================================================== *)
(** * The further properties on the examples *)
(* ===================================================================== *)

Lemma ingestor_error_leaves_store_witness :
  [Examples.other_feature] = [Examples.other_feature]
  /\ (true = false
      -> status_code (Ingestor.as_response "Unexpected error occurred" 500) = 503).
Proof.
  apply (ingestor_error_leaves_store Examples.py_repr Examples.format_unexpected
           Examples.proj_known Examples.transform (Ingestor.load_configs Examples.env)
           true Examples.feature_without_geometry
           [Examples.other_feature] [Examples.other_feature]
           (Ingestor.as_response "Unexpected error occurred" 500)).
  vm_compute. reflexivity.
Defined.

Lemma ingestor_redelivery_is_idempotent_witness :
  Examples.ingestor Examples.feature_2016
    (snd (Examples.ingestor Examples.feature_2016 [Examples.other_feature]))
  = (RValue PyNone,
     snd (Examples.ingestor Examples.feature_2016 [Examples.other_feature])).
Proof.
  apply (ingestor_redelivery_is_idempotent Examples.py_repr Examples.format_unexpected
           Examples.proj_known Examples.transform (Ingestor.load_configs Examples.env)
           Examples.feature_2016 "lpis:fr:R24:123" [Examples.other_feature]).
  - reflexivity.
  - vm_compute. reflexivity.
Defined.

Lemma ingestor_keeps_unique_ids_witness :
  unique_ids (snd (Examples.ingestor Examples.feature_2016 [Examples.other_feature])).
Proof.
  apply (ingestor_keeps_unique_ids Examples.py_repr Examples.format_unexpected
           Examples.proj_known Examples.transform (Ingestor.load_configs Examples.env)
           true Examples.feature_2016 "lpis:fr:R24:123" [Examples.other_feature]
           (snd (Examples.ingestor Examples.feature_2016 [Examples.other_feature]))
           (RValue PyNone)).
  - intros s. cbn [filter Examples.other_feature Examples.feature].
    destruct (Ingestor.has_id (PyStr s) _); simpl; lia.
  - reflexivity.
  - vm_compute. reflexivity.
Defined.

Lemma reproject_raises_what_transform_raises_witness :
  (exists args, Examples.transform "epsg:2154" "epsg:4326" args = Raise TypeError)
  \/ (TypeError = TypeError
      /\ py_iter (PyList [PyInt 1; PyInt 2; PyInt 3]) = Raise TypeError).
Proof.
  apply (reproject_raises_what_transform_raises Examples.transform
           "epsg:2154" "epsg:4326" (PyList [PyInt 1; PyInt 2; PyInt 3]) TypeError).
  reflexivity.
Defined.

Lemma processor_feature_entries_witness :
  py_getitem
    (Examples.forged ([PyStr "0123"; PyFloat (5 # 2)], Examples.point (1 # 2) 3)) "type"
  = Ok (PyStr "Feature")
  /\ py_getitem
       (Examples.forged ([PyStr "0123"; PyFloat (5 # 2)], Examples.point (1 # 2) 3))
       "geometry"
     = Ok (Examples.point (1 # 2) 3)
  /\ exists properties,
       py_getitem
         (Examples.forged ([PyStr "0123"; PyFloat (5 # 2)], Examples.point (1 # 2) 3))
         "properties"
       = Ok (PyDict properties)
       /\ (~ In "lpis" ["area"] ->
           dict_get properties "lpis"
           = Some (PyDict [("ID_PARCEL", PyStr "0123"); ("SURF_PARC", PyFloat (5 # 2))]))
       /\ (~ In "crs" ["area"] ->
           dict_get properties "crs"
           = Some (PyDict [("type", PyStr "EPSG");
                           ("properties", PyDict [("code", PyInt 2154)])]))
       /\ (~ In "version" ["area"] ->
           dict_get properties "version" = Some (PyStr "2016")).
Proof.
  apply (processor_feature_entries Examples.py_repr Examples.py_eval
           Examples.parsed_command 2154 ["ID_PARCEL"; "SURF_PARC"]
           ([PyStr "0123"; PyFloat (5 # 2)], Examples.point (1 # 2) 3)).
  vm_compute. reflexivity.
Defined.

Lemma processor_eval_needs_coefficient_witness :
  Processor.forge_feature Examples.py_repr Examples.py_eval Examples.parsed_command
    2154 ["ID_PARCEL"; "SURF_PARC"]
    ([PyStr "0123"; PyFloat (5 # 2)], Examples.point (1 # 2) 3)
  = Processor.forge_feature Examples.py_repr (fun source => Ok (PyStr source))
      Examples.parsed_command 2154 ["ID_PARCEL"; "SURF_PARC"]
      ([PyStr "0123"; PyFloat (5 # 2)], Examples.point (1 # 2) 3).
Proof.
  apply (processor_eval_needs_coefficient Examples.py_repr Examples.py_eval
           (fun source => Ok (PyStr source)) Examples.parsed_command).
  intros prop entries [H | []]. injection H as _ <-. reflexivity.
Defined.

Lemma processor_ids_tell_keys_apart_witness :
  py_getitem
    (Examples.forged ([PyStr "0123"; PyFloat (5 # 2)], Examples.point (1 # 2) 3)) "_id"
  = py_getitem
      (Examples.forged ([PyStr "123"; PyFloat (7 # 2)], Examples.point (3 # 2) 3)) "_id"
  <-> 123 = 123.
Proof.
  apply (processor_ids_tell_keys_apart Examples.py_repr Examples.py_eval
           Examples.parsed_command 2154 ["ID_PARCEL"; "SURF_PARC"]
           ([PyStr "0123"; PyFloat (5 # 2)], Examples.point (1 # 2) 3)
           ([PyStr "123"; PyFloat (7 # 2)], Examples.point (3 # 2) 3)
           (Examples.forged ([PyStr "0123"; PyFloat (5 # 2)], Examples.point (1 # 2) 3))
           (Examples.forged ([PyStr "123"; PyFloat (7 # 2)], Examples.point (3 # 2) 3))
           (PyStr "0123") (PyStr "123") 123 123);
    vm_compute; reflexivity.
Defined.

Lemma processor_download_failure_witness :
  exists st2 mk path,
    Processor.handler Examples.py_repr Examples.format_unexpected (fun _ => false)
      Examples.extractall Examples.walk Examples.Reader Examples.py_eval
      (Examples.env "TARGET_TOPIC") true
      {| Processor.event_body := Examples.command "7z"; Processor.event_id := "42" |} []
    = (Ok (RResponse
             (Processor.as_response
                ("Failed to download file: "
                   +++ "https://wxs.ign.fr/rpg/RPG_2-0__SHP_LAMB93_R24-2016_2016-01-01.7z.001")
                503)), st2)
    /\ Processor.trace st2
       = Processor.Makedirs "/tmp/nuclio-event-42"
           :: mk ++ [Processor.Download
                       "https://wxs.ign.fr/rpg/RPG_2-0__SHP_LAMB93_R24-2016_2016-01-01.7z.001"
                       path;
                     Processor.Rmtree "/tmp/nuclio-event-42"]
    /\ (mk = [] \/ exists d, mk = [Processor.Makedirs d])
    /\ Processor.exists_dir "/tmp/nuclio-event-42" st2 = false.
Proof.
  apply (processor_download_failure Examples.py_repr Examples.format_unexpected
           (fun _ => false) Examples.extractall Examples.walk Examples.Reader
           Examples.py_eval (Examples.env "TARGET_TOPIC")
           {| Processor.event_body := Examples.command "7z"; Processor.event_id := "42" |}
           [] Examples.parsed_command
           "https://wxs.ign.fr/rpg/RPG_2-0__SHP_LAMB93_R24-2016_2016-01-01.7z.001");
    reflexivity.
Defined.

Lemma processor_flushes_witness :
  flushes
    (Processor.trace
       (snd (Processor.handler Examples.py_repr Examples.format_unexpected
               Examples.urlopen_ok Examples.extractall Examples.walk
               (fun _ => Ok Examples.two_parcels) Examples.py_eval
               (Examples.env "TARGET_TOPIC") true
               {| Processor.event_body := Examples.command "7z";
                  Processor.event_id := "42" |} [])))
  = (Z.of_nat 2 + 999) / 1000 + 1.
Proof.
  apply (processor_flushes Examples.py_repr Examples.format_unexpected
           Examples.urlopen_ok Examples.extractall Examples.walk
           (fun _ => Ok Examples.two_parcels) Examples.py_eval
           (Examples.env "TARGET_TOPIC") true
           {| Processor.event_body := Examples.command "7z"; Processor.event_id := "42" |}
           [] Examples.parsed_command 2154 Examples.two_parcels
           (snd (Processor.stage Examples.py_repr Examples.urlopen_ok
                   Examples.extractall Examples.walk (fun _ => Ok Examples.two_parcels)
                   true
                   {| Processor.event_body := Examples.command "7z";
                      Processor.event_id := "42" |}
                   (Processor.fresh [])))
           [Examples.forged ([PyStr "0123"; PyFloat (5 # 2)], Examples.point (1 # 2) 3);
            Examples.forged ([PyStr "123"; PyFloat (7 # 2)], Examples.point (3 # 2) 3)]).
  - vm_compute. reflexivity.
  - repeat constructor.
Defined.
